(** * claude-deep-insights: the session compactor and the aggregation engine

    A shallow embedding of [scripts/preprocess.py] (stage 1, the session
    compactor) and of the aggregation part of [scripts/report.py] (stage 3),
    followed by the properties the specification states about them.

    Conventions of the embedding.
    - A Python [str] is a [string]; one [ascii] stands for one character
      (code point), so [String.length] is Python's [len] and the slice
      [s[:n]] is [py_slice n s].
    - A value produced by [json.loads] is a [json]; numbers are integers
      ([Z]), a JSON object is the association list of its items in insertion
      order.
    - A Python exception is the [Raise] case of [res]; the function has no
      handler of its own unless the source has one.
    - The Python built-ins whose behaviour on arbitrary values is defined by
      the interpreter and not by this repository ([str], [json.loads],
      [json.dumps], [<] and [>]) are the fields of the class [PyRuntime]. *)

From Stdlib Require Import ZArith String Ascii List QArith Qcanon.
From stdpp Require Import base decidable option numbers list strings
  countable gmap sorting pretty.

Set Default Proof Using "Type".
Local Open Scope Z_scope.

(* ================================================================= *)
(** * Part I: values, exceptions and the Python runtime *)

(** ** JSON values *)

Unset Elimination Schemes.
Inductive json : Type :=
| JNull
| JBool (b : bool)
| JNum (n : Z)
| JStr (s : string)
| JArr (xs : list json)
| JObj (items : list (string * json)).
Set Elimination Schemes.

(** ** Exceptions *)

Inductive exn : Type :=
| AttributeError
| TypeError
| IndexError
| OSError
| SystemExit.

Inductive res (A : Type) : Type :=
| Ok (a : A)
| Raise (e : exn).
Arguments Ok {A} a.
Arguments Raise {A} e.

Global Instance exn_eq_dec : EqDecision exn.
Proof. solve_decision. Defined.
Global Instance res_eq_dec {A : Type} `{EqDecision A} : EqDecision (res A).
Proof. solve_decision. Defined.

Global Instance res_ret : MRet res := @Ok.
Global Instance res_bind : MBind res := λ A B f m,
  match m with
  | Ok a => f a
  | Raise e => Raise e
  end.

(** [for x in xs: st = body st x], where the body may raise. *)
Fixpoint for_each {S A : Type} (body : S → A → res S) (st : S) (xs : list A)
  : res S :=
  match xs with
  | [] => Ok st
  | x :: xs' => st' ← body st x; for_each body st' xs'
  end.

(** [xs[i]] *)
Definition py_index {A : Type} (xs : list A) (i : nat) : res A :=
  match xs !! i with
  | Some x => Ok x
  | None => Raise IndexError
  end.

(** ** Strings *)

(** [s[:n]] *)
Fixpoint py_slice (n : nat) (s : string) : string :=
  match n, s with
  | S n', String c s' => String c (py_slice n' s')
  | _, _ => ""
  end.

(** [str.isspace] on one character, for the code points below 256. *)
Definition py_isspace (c : ascii) : bool :=
  match c with
  | "009" | "010" | "011" | "012" | "013"
  | "028" | "029" | "030" | "031" | " " | "133" | "160" => true
  | _ => false
  end%char.

Fixpoint py_lstrip (s : string) : string :=
  match s with
  | String c s' => if py_isspace c then py_lstrip s' else s
  | EmptyString => ""
  end.

(** [s.strip()] *)
Definition py_strip (s : string) : string :=
  String.rev (py_lstrip (String.rev (py_lstrip s))).

(** [c in s] for a one-character [c]. *)
Fixpoint py_contains (c : ascii) (s : string) : bool :=
  match s with
  | String d s' => if decide (c = d) then true else py_contains c s'
  | EmptyString => false
  end.

(** [sep.join(parts)] *)
Definition py_join (sep : string) (parts : list string) : string :=
  String.concat sep parts.

(** [s.startswith(p)] *)
Fixpoint py_startswith (p s : string) : bool :=
  match p, s with
  | EmptyString, _ => true
  | String a p', String b s' => if decide (a = b) then py_startswith p' s' else false
  | String _ _, EmptyString => false
  end.

Fixpoint py_drop (n : nat) (s : string) : string :=
  match n, s with
  | S n', String _ s' => py_drop n' s'
  | _, _ => s
  end.

(** [s.replace(old, "")] for a non-empty [old]: the occurrences are found
    left to right and do not overlap. *)
Fixpoint py_remove_go (fuel : nat) (old s : string) : string :=
  match fuel with
  | O => s
  | S fuel' =>
      match s with
      | EmptyString => ""
      | String c s' =>
          if py_startswith old s
          then py_remove_go fuel' old (py_drop (String.length old) s)
          else String c (py_remove_go fuel' old s')
      end
  end.
Definition py_remove (old s : string) : string :=
  py_remove_go (String.length s) old s.

(** ** Paths ([os.path] on POSIX) *)

Fixpoint basename_go (cur s : string) : string :=
  match s with
  | EmptyString => String.rev cur
  | String c s' => if decide (c = "/"%char) then basename_go "" s'
                   else basename_go (String c cur) s'
  end.
(** [os.path.basename]: what follows the last separator. *)
Definition basename (p : string) : string := basename_go "" p.

Fixpoint rstrip_slash_rev (r : string) : string :=
  match r with
  | String c r' => if decide (c = "/"%char) then rstrip_slash_rev r' else r
  | EmptyString => ""
  end.
(** [os.path.dirname]: the head up to the last separator, without its
    trailing separators unless it consists of separators only. *)
Definition dirname (p : string) : string :=
  let head := py_slice (String.length p - String.length (basename p)) p in
  match rstrip_slash_rev (String.rev head) with
  | EmptyString => head
  | r => String.rev r
  end.

Definition ends_with_slash (a : string) : bool :=
  match String.rev a with
  | String c _ => bool_decide (c = "/"%char)
  | EmptyString => false
  end.
(** [os.path.join(a, b)] *)
Definition path_join (a b : string) : string :=
  if py_startswith "/" b then b
  else if bool_decide (a = "") || ends_with_slash a then a +:+ b
  else a +:+ "/" +:+ b.

(** ** Dictionaries and truth values *)

Fixpoint dict_get (items : list (string * json)) (k : string) : option json :=
  match items with
  | [] => None
  | (k', v) :: items' => if decide (k' = k) then Some v else dict_get items' k
  end.

(** [d.get(k, dflt)]; [AttributeError] when [d] is not a dict. *)
Definition py_get (d : json) (k : string) (dflt : json) : res json :=
  match d with
  | JObj items => Ok (default dflt (dict_get items k))
  | _ => Raise AttributeError
  end.

(** [bool(v)] *)
Definition py_truthy (v : json) : bool :=
  match v with
  | JNull => false
  | JBool b => b
  | JNum n => negb (n =? 0)
  | JStr s => negb (bool_decide (s = ""))
  | JArr xs => negb (bool_decide (xs = []))
  | JObj items => negb (bool_decide (items = []))
  end.

(** [v == s] for a string literal [s]. *)
Definition py_eq_str (v : json) (s : string) : bool :=
  match v with
  | JStr t => bool_decide (t = s)
  | _ => false
  end.

(** [v in (s1, ..., sn)] for string literals. *)
Definition py_in_strs (v : json) (ss : list string) : bool :=
  existsb (py_eq_str v) ss.

(** [acc + v] for an integer [acc]: a bool counts as 0 or 1, anything that
    is not a number raises. *)
Definition py_add (acc : Z) (v : json) : res Z :=
  match v with
  | JNum n => Ok (acc + n)
  | JBool b => Ok (acc + (if b then 1 else 0))
  | _ => Raise TypeError
  end.

(** ** Hashable keys *)

(** The key a value denotes in a [dict], [set] or [Counter]: [True] and [1]
    are the same key, a list or a dict is unhashable. *)
Inductive pykey : Type :=
| KNone
| KInt (n : Z)
| KStr (s : string).

Global Instance pykey_eq_dec : EqDecision pykey.
Proof. solve_decision. Defined.

Definition pykey_to_sum (k : pykey) : unit + (Z + string) :=
  match k with
  | KNone => inl ()
  | KInt n => inr (inl n)
  | KStr s => inr (inr s)
  end.
Definition pykey_of_sum (x : unit + (Z + string)) : pykey :=
  match x with
  | inl _ => KNone
  | inr (inl n) => KInt n
  | inr (inr s) => KStr s
  end.
Global Instance pykey_countable : Countable pykey.
Proof. by apply (inj_countable' pykey_to_sum pykey_of_sum); intros []. Defined.

Definition py_hash (v : json) : res pykey :=
  match v with
  | JNull => Ok KNone
  | JBool b => Ok (KInt (if b then 1 else 0))
  | JNum n => Ok (KInt n)
  | JStr s => Ok (KStr s)
  | JArr _ | JObj _ => Raise TypeError
  end.

(** ** [collections.Counter] *)

(** The items in insertion order. *)
Definition counter : Type := list (pykey * Z).

Fixpoint counter_get (c : counter) (k : pykey) : Z :=
  match c with
  | [] => 0
  | (k', n) :: c' => if decide (k' = k) then n else counter_get c' k
  end.

(** [c[k] += n] *)
Fixpoint counter_add (c : counter) (k : pykey) (n : Z) : counter :=
  match c with
  | [] => [(k, n)]
  | (k', m) :: c' => if decide (k' = k) then (k', m + n) :: c'
                     else (k', m) :: counter_add c' k n
  end.

(** [c.most_common()]: by decreasing count, ties in insertion order (the
    sort is stable). *)
Fixpoint insert_by_count (x : pykey * Z) (sorted : counter) : counter :=
  match sorted with
  | [] => [x]
  | y :: sorted' =>
      if decide (y.2 ≤ x.2) then x :: y :: sorted'
      else y :: insert_by_count x sorted'
  end.
Definition most_common (c : counter) : counter :=
  foldr insert_by_count [] c.

(** ** The runtime *)

Class PyRuntime : Type := {
  (** [str(v)] *)
  py_str : json → string;
  (** [json.loads(text)]; [None] stands for [json.JSONDecodeError] *)
  json_loads : string → option json;
  (** [json.dumps(v, indent=2)] *)
  json_dumps : json → string;
  (** [a < b] and [a > b] *)
  py_lt : json → json → res bool;
  py_gt : json → json → res bool;
}.

(* ================================================================= *)
(** * Part II: [preprocess.py], the session compactor *)

(** ** Configuration constants *)

Definition MAX_TEXT_PER_MESSAGE : nat := 500.
Definition MAX_TOOL_RESULT_CHARS : nat := 200.
Definition MAX_CONVERSATION_EXCHANGES : nat := 40.
Definition MAX_TOOL_DETAILS : nat := 30.
Definition MAX_FILES_TOUCHED : nat := 30.

(** ** Data *)

(** One extracted tool call: the dict [{'name': ..., key: detail, ...}]. *)
Record tool_info : Type := {
  tool_name : json;
  tool_fields : list (string * string);
}.

(** [tool.get(k, '')] *)
Fixpoint tool_get (fields : list (string * string)) (k : string) : string :=
  match fields with
  | [] => ""
  | (k', v) :: fields' => if decide (k' = k) then v else tool_get fields' k
  end.

(** One turn of the conversation flow: [{"role": ..., "text": ...}]. *)
Record flow_entry : Type := {
  role : string;
  text : string;
}.

Record stats : Type := {
  st_user_messages : nat;
  st_assistant_responses : nat;
  st_total_input_tokens : Z;
  st_total_output_tokens : Z;
  st_subagent_count : nat;
  st_had_context_compression : bool;
}.

Record summary : Type := {
  sm_session_id : string;
  sm_project : string;
  sm_start_time : json;
  sm_end_time : json;
  sm_git_branch : json;
  sm_models_used : list pykey;
  sm_stats : stats;
  sm_tool_usage : counter;
  sm_tool_details : list tool_info;
  sm_files_touched : list string;
  sm_conversation_flow : list flow_entry;
}.

(** The local variables of [process_session] while it reads the log. *)
Record scan_state : Type := {
  timestamps : list json;
  user_messages : list string;
  assistant_texts : list string;
  tool_usage : counter;
  tool_details : list tool_info;
  files_touched : gset string;
  models_used : gset pykey;
  total_input_tokens : Z;
  total_output_tokens : Z;
  has_summary : bool;
  git_branch : json;
  lines_processed : Z;
  lines_skipped : Z;
}.

Definition scan_init : scan_state := {|
  timestamps := []; user_messages := []; assistant_texts := [];
  tool_usage := []; tool_details := []; files_touched := ∅;
  models_used := ∅; total_input_tokens := 0; total_output_tokens := 0;
  has_summary := false; git_branch := JNull;
  lines_processed := 0; lines_skipped := 0;
|}.

(** Assignments to one local variable. *)
Definition set_timestamps (v : list json) (st : scan_state) : scan_state :=
  {| timestamps := v; user_messages := user_messages st;
     assistant_texts := assistant_texts st; tool_usage := tool_usage st;
     tool_details := tool_details st; files_touched := files_touched st;
     models_used := models_used st;
     total_input_tokens := total_input_tokens st;
     total_output_tokens := total_output_tokens st;
     has_summary := has_summary st; git_branch := git_branch st;
     lines_processed := lines_processed st; lines_skipped := lines_skipped st |}.
Definition set_user_messages (v : list string) (st : scan_state) : scan_state :=
  {| timestamps := timestamps st; user_messages := v;
     assistant_texts := assistant_texts st; tool_usage := tool_usage st;
     tool_details := tool_details st; files_touched := files_touched st;
     models_used := models_used st;
     total_input_tokens := total_input_tokens st;
     total_output_tokens := total_output_tokens st;
     has_summary := has_summary st; git_branch := git_branch st;
     lines_processed := lines_processed st; lines_skipped := lines_skipped st |}.
Definition set_assistant_texts (v : list string) (st : scan_state) : scan_state :=
  {| timestamps := timestamps st; user_messages := user_messages st;
     assistant_texts := v; tool_usage := tool_usage st;
     tool_details := tool_details st; files_touched := files_touched st;
     models_used := models_used st;
     total_input_tokens := total_input_tokens st;
     total_output_tokens := total_output_tokens st;
     has_summary := has_summary st; git_branch := git_branch st;
     lines_processed := lines_processed st; lines_skipped := lines_skipped st |}.
Definition set_tool_usage (v : counter) (st : scan_state) : scan_state :=
  {| timestamps := timestamps st; user_messages := user_messages st;
     assistant_texts := assistant_texts st; tool_usage := v;
     tool_details := tool_details st; files_touched := files_touched st;
     models_used := models_used st;
     total_input_tokens := total_input_tokens st;
     total_output_tokens := total_output_tokens st;
     has_summary := has_summary st; git_branch := git_branch st;
     lines_processed := lines_processed st; lines_skipped := lines_skipped st |}.
Definition set_tool_details (v : list tool_info) (st : scan_state) : scan_state :=
  {| timestamps := timestamps st; user_messages := user_messages st;
     assistant_texts := assistant_texts st; tool_usage := tool_usage st;
     tool_details := v; files_touched := files_touched st;
     models_used := models_used st;
     total_input_tokens := total_input_tokens st;
     total_output_tokens := total_output_tokens st;
     has_summary := has_summary st; git_branch := git_branch st;
     lines_processed := lines_processed st; lines_skipped := lines_skipped st |}.
Definition set_files_touched (v : gset string) (st : scan_state) : scan_state :=
  {| timestamps := timestamps st; user_messages := user_messages st;
     assistant_texts := assistant_texts st; tool_usage := tool_usage st;
     tool_details := tool_details st; files_touched := v;
     models_used := models_used st;
     total_input_tokens := total_input_tokens st;
     total_output_tokens := total_output_tokens st;
     has_summary := has_summary st; git_branch := git_branch st;
     lines_processed := lines_processed st; lines_skipped := lines_skipped st |}.
Definition set_models_used (v : gset pykey) (st : scan_state) : scan_state :=
  {| timestamps := timestamps st; user_messages := user_messages st;
     assistant_texts := assistant_texts st; tool_usage := tool_usage st;
     tool_details := tool_details st; files_touched := files_touched st;
     models_used := v;
     total_input_tokens := total_input_tokens st;
     total_output_tokens := total_output_tokens st;
     has_summary := has_summary st; git_branch := git_branch st;
     lines_processed := lines_processed st; lines_skipped := lines_skipped st |}.
Definition set_tokens (i o : Z) (st : scan_state) : scan_state :=
  {| timestamps := timestamps st; user_messages := user_messages st;
     assistant_texts := assistant_texts st; tool_usage := tool_usage st;
     tool_details := tool_details st; files_touched := files_touched st;
     models_used := models_used st;
     total_input_tokens := i; total_output_tokens := o;
     has_summary := has_summary st; git_branch := git_branch st;
     lines_processed := lines_processed st; lines_skipped := lines_skipped st |}.
Definition set_has_summary (v : bool) (st : scan_state) : scan_state :=
  {| timestamps := timestamps st; user_messages := user_messages st;
     assistant_texts := assistant_texts st; tool_usage := tool_usage st;
     tool_details := tool_details st; files_touched := files_touched st;
     models_used := models_used st;
     total_input_tokens := total_input_tokens st;
     total_output_tokens := total_output_tokens st;
     has_summary := v; git_branch := git_branch st;
     lines_processed := lines_processed st; lines_skipped := lines_skipped st |}.
Definition set_git_branch (v : json) (st : scan_state) : scan_state :=
  {| timestamps := timestamps st; user_messages := user_messages st;
     assistant_texts := assistant_texts st; tool_usage := tool_usage st;
     tool_details := tool_details st; files_touched := files_touched st;
     models_used := models_used st;
     total_input_tokens := total_input_tokens st;
     total_output_tokens := total_output_tokens st;
     has_summary := has_summary st; git_branch := v;
     lines_processed := lines_processed st; lines_skipped := lines_skipped st |}.
Definition set_lines_processed (v : Z) (st : scan_state) : scan_state :=
  {| timestamps := timestamps st; user_messages := user_messages st;
     assistant_texts := assistant_texts st; tool_usage := tool_usage st;
     tool_details := tool_details st; files_touched := files_touched st;
     models_used := models_used st;
     total_input_tokens := total_input_tokens st;
     total_output_tokens := total_output_tokens st;
     has_summary := has_summary st; git_branch := git_branch st;
     lines_processed := v; lines_skipped := lines_skipped st |}.
Definition set_lines_skipped (v : Z) (st : scan_state) : scan_state :=
  {| timestamps := timestamps st; user_messages := user_messages st;
     assistant_texts := assistant_texts st; tool_usage := tool_usage st;
     tool_details := tool_details st; files_touched := files_touched st;
     models_used := models_used st;
     total_input_tokens := total_input_tokens st;
     total_output_tokens := total_output_tokens st;
     has_summary := has_summary st; git_branch := git_branch st;
     lines_processed := lines_processed st; lines_skipped := v |}.

(** ** [process_session]: the conversation flow *)

Record flow_state : Type := {
  conversation_flow : list flow_entry;
  user_idx : nat;
  asst_idx : nat;
  exchange_count : nat;
}.

Definition flow_init : flow_state :=
  {| conversation_flow := []; user_idx := 0; asst_idx := 0;
     exchange_count := 0 |}.

(** The condition of the [while]. *)
Definition flow_cond (users : list string) (fs : flow_state) : bool :=
  bool_decide (user_idx fs < length users)%nat
  && bool_decide (exchange_count fs < MAX_CONVERSATION_EXCHANGES)%nat.

(** One pass through the body of the [while]. *)
Definition flow_body (users assts : list string) (fs : flow_state)
  : res flow_state :=
  u ← py_index users (user_idx fs);
  let flow := conversation_flow fs ++ [{| role := "user"; text := u |}] in
  let user_idx' := S (user_idx fs) in
  if bool_decide (asst_idx fs < length assts)%nat then
    a ← py_index assts (asst_idx fs);
    Ok {| conversation_flow := flow ++ [{| role := "assistant"; text := a |}];
          user_idx := user_idx';
          asst_idx := S (asst_idx fs);
          exchange_count := S (exchange_count fs) |}
  else
    Ok {| conversation_flow := flow;
          user_idx := user_idx';
          asst_idx := asst_idx fs;
          exchange_count := S (exchange_count fs) |}.

(** The [while] loop, unrolled at most [fuel] times. *)
Fixpoint flow_loop (fuel : nat) (users assts : list string) (fs : flow_state)
  : res flow_state :=
  match fuel with
  | O => Ok fs
  | S fuel' =>
      if flow_cond users fs
      then fs' ← flow_body users assts fs; flow_loop fuel' users assts fs'
      else Ok fs
  end.

(** The loop leaves after at most [MAX_CONVERSATION_EXCHANGES] passes
    (lemma [build_flow_exits] below), so this many unrollings are the loop. *)
Definition build_flow (users assts : list string) : res flow_state :=
  flow_loop MAX_CONVERSATION_EXCHANGES users assts flow_init.

Section Compactor.
Context `{PyRuntime}.

(** ** [extract_text_from_content] *)

(** What one block appends to [texts]. *)
Definition block_texts (max_chars : nat) (block : json) : list string :=
  match block with
  | JStr s => [py_slice max_chars s]
  | JObj items =>
      let ty := default JNull (dict_get items "type") in
      if py_eq_str ty "text" then
        [py_slice max_chars (py_str (default (JStr "") (dict_get items "text")))]
      else if py_eq_str ty "thinking" then
        let thinking := py_str (default (JStr "") (dict_get items "thinking")) in
        if bool_decide (thinking = "") then []
        else ["[thinking: " +:+ py_slice 150 thinking +:+ "...]"]
      else []
  | _ => []
  end.

Definition extract_text_from_content (content : json) (max_chars : nat)
  : string :=
  match content with
  | JStr s => py_slice max_chars s
  | JArr blocks =>
      py_join " " (foldl (λ texts block, texts ++ block_texts max_chars block)
                         [] blocks)
  | _ => py_join " " []
  end.

(** ** [extract_tool_calls] *)

(** The detail fields recorded for a tool of the given name. *)
Definition tool_detail_fields (name inp : json)
  : res (list (string * string)) :=
  if py_in_strs name ["Read"; "Glob"; "Grep"] then
    d3 ← py_get inp "path" (JStr "");
    d2 ← py_get inp "pattern" d3;
    d1 ← py_get inp "file_path" d2;
    Ok [("target", py_slice MAX_TOOL_RESULT_CHARS (py_str d1))]
  else if py_in_strs name ["Edit"; "Write"] then
    v ← py_get inp "file_path" (JStr "");
    Ok [("target", py_slice MAX_TOOL_RESULT_CHARS (py_str v))]
  else if py_eq_str name "Bash" then
    v ← py_get inp "command" (JStr "");
    Ok [("command", py_slice MAX_TOOL_RESULT_CHARS (py_str v))]
  else if py_eq_str name "WebSearch" then
    v ← py_get inp "query" (JStr "");
    Ok [("query", py_slice MAX_TOOL_RESULT_CHARS (py_str v))]
  else if py_eq_str name "WebFetch" then
    v ← py_get inp "url" (JStr "");
    Ok [("url", py_slice MAX_TOOL_RESULT_CHARS (py_str v))]
  else if py_eq_str name "Task" then
    d ← py_get inp "description" (JStr "");
    t ← py_get inp "subagent_type" (JStr "");
    Ok [("description", py_slice 100 (py_str d));
        ("subagent_type", py_str t)]
  else if py_in_strs name ["TaskCreate"; "TaskUpdate"] then
    d2 ← py_get inp "status" (JStr "");
    d1 ← py_get inp "subject" d2;
    Ok [("subject", py_slice 100 (py_str d1))]
  else Ok [].

(** The body of the loop over blocks: a [tool_use] dict appends one record. *)
Definition tool_call_step (tools : list tool_info) (block : json)
  : res (list tool_info) :=
  match block with
  | JObj items =>
      if py_eq_str (default JNull (dict_get items "type")) "tool_use" then
        let name := default (JStr "unknown") (dict_get items "name") in
        let inp := default (JObj []) (dict_get items "input") in
        fields ← tool_detail_fields name inp;
        Ok (tools ++ [{| tool_name := name; tool_fields := fields |}])
      else Ok tools
  | _ => Ok tools
  end.

Definition extract_tool_calls (content : json) : res (list tool_info) :=
  match content with
  | JArr blocks => for_each tool_call_step [] blocks
  | _ => Ok []
  end.

(** ** [process_session]: reading the log *)

(** The body of [for tool in tools]. *)
Definition tool_step (st : scan_state) (tool : tool_info) : res scan_state :=
  k ← py_hash (tool_name tool);
  let st := set_tool_usage (counter_add (tool_usage st) k 1) st in
  let target := tool_get (tool_fields tool) "target" in
  let st :=
    if negb (bool_decide (target = "")) && py_contains "/" target
    then set_files_touched ({[target]} ∪ files_touched st) st else st in
  Ok (if bool_decide (length (tool_details st) < MAX_TOOL_DETAILS)%nat
      then set_tool_details (tool_details st ++ [tool]) st else st).

(** The branch [msg_type == 'summary']. *)
Definition on_summary (obj : json) (st : scan_state) : res scan_state :=
  let st := set_has_summary true st in
  summary_text ← py_get obj "summary" (JStr "");
  Ok (if py_truthy summary_text
      then set_assistant_texts
             (assistant_texts st ++
                ["[CONTEXT SUMMARY: " +:+ py_slice 1000 (py_str summary_text)
                 +:+ "]"]) st
      else st).

(** The branch [msg_type == 'user']. *)
Definition on_user (obj : json) (st : scan_state) : res scan_state :=
  msg ← py_get obj "message" (JObj []);
  content ← py_get msg "content" (JStr "");
  let text := extract_text_from_content content MAX_TEXT_PER_MESSAGE in
  Ok (if negb (bool_decide (py_strip text = ""))
      then set_user_messages (user_messages st ++ [text]) st else st).

(** The branch [msg_type == 'assistant']. *)
Definition on_assistant (obj : json) (st : scan_state) : res scan_state :=
  msg ← py_get obj "message" (JObj []);
  content ← py_get msg "content" (JArr []);
  model ← py_get msg "model" (JStr "");
  st ← (if py_truthy model
        then k ← py_hash model;
             Ok (set_models_used ({[k]} ∪ models_used st) st)
        else Ok st);
  usage ← py_get msg "usage" (JObj []);
  i ← py_get usage "input_tokens" (JNum 0);
  ti ← py_add (total_input_tokens st) i;
  o ← py_get usage "output_tokens" (JNum 0);
  to ← py_add (total_output_tokens st) o;
  let st := set_tokens ti to st in
  let text := extract_text_from_content content MAX_TEXT_PER_MESSAGE in
  let st :=
    if negb (bool_decide (py_strip text = ""))
    then set_assistant_texts (assistant_texts st ++ [text]) st else st in
  tools ← extract_tool_calls content;
  for_each tool_step st tools.

(** What follows a successful [json.loads]. *)
Definition process_record (obj : json) (st : scan_state) : res scan_state :=
  let st := set_lines_processed (lines_processed st + 1) st in
  msg_type ← py_get obj "type" JNull;
  timestamp ← py_get obj "timestamp" JNull;
  let st :=
    if py_truthy timestamp
    then set_timestamps (timestamps st ++ [timestamp]) st else st in
  branch ← py_get obj "gitBranch" JNull;
  let st :=
    if negb (py_truthy (git_branch st)) && py_truthy branch
    then set_git_branch branch st else st in
  if py_eq_str msg_type "summary" then on_summary obj st
  else if py_eq_str msg_type "user" then on_user obj st
  else if py_eq_str msg_type "assistant" then on_assistant obj st
  else Ok st.

(** The body of the loop over the lines of the file. *)
Definition process_line (st : scan_state) (line : string) : res scan_state :=
  let line := py_strip line in
  if bool_decide (line = "") then Ok st
  else match json_loads line with
       | None => Ok (set_lines_skipped (lines_skipped st + 1) st)
       | Some obj => process_record obj st
       end.

Definition scan_lines (lines : list string) : res scan_state :=
  for_each process_line scan_init lines.

(** ** [process_session]: building the summary *)

(** [min(xs) if xs else None]: the first item is the candidate, a later item
    replaces it when [item < candidate]. *)
Definition min_or_none (xs : list json) : res json :=
  match xs with
  | [] => Ok JNull
  | x :: xs' =>
      for_each (λ cur item : json,
                  b ← py_lt item cur; Ok (if (b : bool) then item else cur))
               x xs'
  end.

(** [max(xs) if xs else None] *)
Definition max_or_none (xs : list json) : res json :=
  match xs with
  | [] => Ok JNull
  | x :: xs' =>
      for_each (λ cur item : json,
                  b ← py_gt item cur; Ok (if (b : bool) then item else cur))
               x xs'
  end.

Definition key_str (k : pykey) : option string :=
  match k with KStr s => Some s | _ => None end.
Definition key_int (k : pykey) : option Z :=
  match k with KInt n => Some n | _ => None end.

(** [sorted(keys)] for the distinct elements of a set: strings sort among
    themselves and so do numbers; a string next to a number, or [None] next
    to anything, cannot be ordered. *)
Definition sorted_keys (ks : list pykey) : res (list pykey) :=
  match ks with
  | [] | [_] => Ok ks
  | _ =>
      match mapM key_str ks, mapM key_int ks with
      | Some ss, _ => Ok (KStr <$> merge_sort String.le ss)
      | None, Some ns => Ok (KInt <$> merge_sort Z.le ns)
      | None, None => Raise TypeError
      end
  end.

(** The files the run reads and writes: the session logs by path (their
    lines), the summary files by path (their text), and for each directory
    named [subagents] the number of its [*.jsonl] entries. *)
Record world : Type := {
  session_files : gmap string (list string);
  summary_files : gmap string string;
  subagent_dirs : gmap string nat;
}.

Definition process_session (w : world) (jsonl_path : string)
  : res (summary * Z) :=
  let session_id := py_remove ".jsonl" (basename jsonl_path) in
  let project_dir := basename (dirname jsonl_path) in
  lines ← match session_files w !! jsonl_path with
          | Some lines => Ok lines
          | None => Raise OSError
          end;
  st ← scan_lines lines;
  fl ← build_flow (user_messages st) (assistant_texts st);
  start_time ← min_or_none (timestamps st);
  end_time ← max_or_none (timestamps st);
  let session_dir := path_join (dirname jsonl_path) session_id in
  let subagent_dir := path_join session_dir "subagents" in
  let subagent_count := default 0%nat (subagent_dirs w !! subagent_dir) in
  models ← sorted_keys (elements (models_used st));
  Ok ({| sm_session_id := session_id;
         sm_project := project_dir;
         sm_start_time := start_time;
         sm_end_time := end_time;
         sm_git_branch := git_branch st;
         sm_models_used := models;
         sm_stats :=
           {| st_user_messages := length (user_messages st);
              st_assistant_responses := length (assistant_texts st);
              st_total_input_tokens := total_input_tokens st;
              st_total_output_tokens := total_output_tokens st;
              st_subagent_count := subagent_count;
              st_had_context_compression := has_summary st |};
         sm_tool_usage := most_common (tool_usage st);
         sm_tool_details := tool_details st;
         sm_files_touched :=
           take MAX_FILES_TOUCHED
                (merge_sort String.le (elements (files_touched st)));
         sm_conversation_flow := conversation_flow fl |},
      lines_skipped st).

(** ** [main]: the loop over the discovered sessions *)

(** What [json.dump] is given for a summary. *)
Definition key_to_json_name (k : pykey) : string :=
  match k with
  | KNone => "null"
  | KInt n => pretty n
  | KStr s => s
  end.

Definition tool_info_to_json (t : tool_info) : json :=
  JObj (("name", tool_name t)
        :: ((λ kv : string * string, (kv.1, JStr kv.2)) <$> tool_fields t)).

Definition key_to_json (k : pykey) : json :=
  match k with
  | KNone => JNull
  | KInt n => JNum n
  | KStr s => JStr s
  end.

Definition summary_to_json (sm : summary) : json :=
  JObj [
    ("session_id", JStr (sm_session_id sm));
    ("project", JStr (sm_project sm));
    ("start_time", sm_start_time sm);
    ("end_time", sm_end_time sm);
    ("git_branch", sm_git_branch sm);
    ("models_used", JArr (key_to_json <$> sm_models_used sm));
    ("stats", JObj [
       ("user_messages", JNum (Z.of_nat (st_user_messages (sm_stats sm))));
       ("assistant_responses",
          JNum (Z.of_nat (st_assistant_responses (sm_stats sm))));
       ("total_input_tokens", JNum (st_total_input_tokens (sm_stats sm)));
       ("total_output_tokens", JNum (st_total_output_tokens (sm_stats sm)));
       ("subagent_count", JNum (Z.of_nat (st_subagent_count (sm_stats sm))));
       ("had_context_compression",
          JBool (st_had_context_compression (sm_stats sm)))]);
    ("tool_usage",
       JObj ((λ kn : pykey * Z, (key_to_json_name kn.1, JNum kn.2))
             <$> sm_tool_usage sm));
    ("tool_details", JArr (tool_info_to_json <$> sm_tool_details sm));
    ("files_touched", JArr (JStr <$> sm_files_touched sm));
    ("conversation_flow",
       JArr ((λ e : flow_entry,
                JObj [("role", JStr (role e)); ("text", JStr (text e))])
             <$> sm_conversation_flow sm))
  ].

(** An element of [all_summaries]: a cached document as [json.load] returned
    it, or the summary [process_session] has just built. *)
Inductive summary_entry : Type :=
| Cached (existing : json)
| Fresh (sm : summary).

Record run_state : Type := {
  all_summaries : list summary_entry;
  new_count : Z;
  skipped_count : Z;
  error_count : Z;
  total_lines_skipped : Z;
  disk : world;
}.

Definition write_summary (path content : string) (w : world) : world :=
  {| session_files := session_files w;
     summary_files := <[path := content]> (summary_files w);
     subagent_dirs := subagent_dirs w |}.

(** The second [try] of the loop body: run the compactor, keep and persist
    its summary; any exception counts one error. *)
Definition reprocess (summary_path jsonl_path : string) (rs : run_state)
  : run_state :=
  match process_session (disk rs) jsonl_path with
  | Ok (sm, skipped) =>
      {| all_summaries := all_summaries rs ++ [Fresh sm];
         new_count := new_count rs + 1;
         skipped_count := skipped_count rs;
         error_count := error_count rs;
         total_lines_skipped := total_lines_skipped rs + skipped;
         disk := write_summary summary_path
                   (json_dumps (summary_to_json sm)) (disk rs) |}
  | Raise _ =>
      {| all_summaries := all_summaries rs;
         new_count := new_count rs;
         skipped_count := skipped_count rs;
         error_count := error_count rs + 1;
         total_lines_skipped := total_lines_skipped rs;
         disk := disk rs |}
  end.

(** One pass through the body of [for i, jsonl_path in enumerate(...)]. *)
Definition main_step (force : bool) (summaries_dir : string)
    (rs : run_state) (jsonl_path : string) : run_state :=
  let session_id := py_remove ".jsonl" (basename jsonl_path) in
  let summary_path := path_join summaries_dir (session_id +:+ ".json") in
  if negb force
     && bool_decide (is_Some (summary_files (disk rs) !! summary_path))
  then
    match summary_files (disk rs) !! summary_path ≫= json_loads with
    | Some existing =>
        {| all_summaries := all_summaries rs ++ [Cached existing];
           new_count := new_count rs;
           skipped_count := skipped_count rs + 1;
           error_count := error_count rs;
           total_lines_skipped := total_lines_skipped rs;
           disk := disk rs |}
    | None => reprocess summary_path jsonl_path rs
    end
  else reprocess summary_path jsonl_path rs.

Definition run_init (w : world) : run_state :=
  {| all_summaries := []; new_count := 0; skipped_count := 0;
     error_count := 0; total_lines_skipped := 0; disk := w |}.

Definition main_loop (force : bool) (summaries_dir : string) (w : world)
    (parent_sessions : list string) : run_state :=
  foldl (main_step force summaries_dir) (run_init w) parent_sessions.

End Compactor.

(* ================================================================= *)
(** * Part III: a small runtime, to run the model on concrete logs *)

(** The examples and counterexamples below evaluate the model on concrete
    texts.  [SmallRuntime] provides the built-ins for them.  It agrees with
    CPython on the fragment the examples use: JSON texts whose numbers are
    integers and whose strings contain no [\u] escape; [str] of strings,
    integers, booleans and [None] ([str] of a list or dict is rendered with
    every string in single quotes); [<] and [>] between two numbers or two
    strings.  Outside the fragment it refuses ([None], [TypeError]) where
    CPython may go on.  No theorem about the program depends on it: they
    hold for every [PyRuntime]. *)
Module SmallRuntime.

Definition is_json_ws (c : ascii) : bool :=
  match c with
  | " " | "009" | "010" | "013" => true
  | _ => false
  end%char.

Fixpoint skip_ws (s : string) : string :=
  match s with
  | String c s' => if is_json_ws c then skip_ws s' else s
  | EmptyString => ""
  end.

(** The characters of a string literal after its opening quote, up to the
    closing quote; the result is the decoded string and the rest. *)
Fixpoint parse_chars (s : string) (acc : string) : option (string * string) :=
  match s with
  | EmptyString => None
  | String "034" rest => Some (String.rev acc, rest)
  | String "\" (String e rest) =>
      match e with
      | "034" | "\" | "/" => parse_chars rest (String e acc)
      | "n" => parse_chars rest (String "010" acc)
      | "t" => parse_chars rest (String "009" acc)
      | "r" => parse_chars rest (String "013" acc)
      | "b" => parse_chars rest (String "008" acc)
      | "f" => parse_chars rest (String "012" acc)
      | _ => None
      end%char
  | String "\" EmptyString => None
  | String c rest =>
      if (Ascii.nat_of_ascii c <? 32)%nat then None
      else parse_chars rest (String c acc)
  end%char.

Fixpoint parse_digits (s : string) (acc : Z) : Z * string :=
  match s with
  | String c rest =>
      match Ascii.is_nat c with
      | Some d => parse_digits rest (10 * acc + Z.of_nat d)
      | None => (acc, s)
      end
  | EmptyString => (acc, s)
  end.

Definition starts_fraction (s : string) : bool :=
  match s with
  | String c _ =>
      bool_decide (c = "."%char) || bool_decide (c = "e"%char)
      || bool_decide (c = "E"%char)
  | EmptyString => false
  end.

(** An integer literal: an optional sign, then [0] or digits without a
    leading zero. *)
Definition parse_int (s : string) : option (Z * string) :=
  let '(neg, body) :=
    match s with
    | String "-"%char rest => (true, rest)
    | _ => (false, s)
    end in
  match body with
  | String c rest =>
      match Ascii.is_nat c with
      | Some O =>
          if starts_fraction rest then None
          else match rest with
               | String d _ =>
                   if is_Some_dec (Ascii.is_nat d) then None else Some (0, rest)
               | EmptyString => Some (0, rest)
               end
      | Some _ =>
          let '(n, rest') := parse_digits body 0 in
          if starts_fraction rest' then None
          else Some (if neg then - n else n, rest')
      | None => None
      end
  | EmptyString => None
  end.

(** [d[k] = v] on the items of a dict: an existing key keeps its place. *)
Fixpoint dict_set (items : list (string * json)) (k : string) (v : json)
  : list (string * json) :=
  match items with
  | [] => [(k, v)]
  | (k', v') :: items' =>
      if decide (k' = k) then (k, v) :: items'
      else (k', v') :: dict_set items' k v
  end.

Fixpoint parse_value (fuel : nat) (s : string) : option (json * string) :=
  match fuel with
  | O => None
  | S fuel' =>
      match skip_ws s with
      | String "{" rest =>
          match skip_ws rest with
          | String "}" rest' => Some (JObj [], rest')
          | _ => parse_members fuel' rest []
          end
      | String "[" rest =>
          match skip_ws rest with
          | String "]" rest' => Some (JArr [], rest')
          | _ => parse_elements fuel' rest []
          end
      | String "034" rest =>
          '(str, rest') ← parse_chars rest ""; Some (JStr str, rest')
      | String "t" (String "r" (String "u" (String "e" rest))) =>
          Some (JBool true, rest)
      | String "f" (String "a" (String "l" (String "s" (String "e" rest)))) =>
          Some (JBool false, rest)
      | String "n" (String "u" (String "l" (String "l" rest))) =>
          Some (JNull, rest)
      | s' => '(n, rest) ← parse_int s'; Some (JNum n, rest)
      end
  end%char
with parse_elements (fuel : nat) (s : string) (acc : list json)
  : option (json * string) :=
  match fuel with
  | O => None
  | S fuel' =>
      '(v, rest) ← parse_value fuel' s;
      match skip_ws rest with
      | String "," rest' => parse_elements fuel' rest' (acc ++ [v])
      | String "]" rest' => Some (JArr (acc ++ [v]), rest')
      | _ => None
      end
  end%char
with parse_members (fuel : nat) (s : string) (acc : list (string * json))
  : option (json * string) :=
  match fuel with
  | O => None
  | S fuel' =>
      match skip_ws s with
      | String "034" rest =>
          '(k, rest1) ← parse_chars rest "";
          match skip_ws rest1 with
          | String ":" rest2 =>
              '(v, rest3) ← parse_value fuel' rest2;
              match skip_ws rest3 with
              | String "," rest4 => parse_members fuel' rest4 (dict_set acc k v)
              | String "}" rest4 => Some (JObj (dict_set acc k v), rest4)
              | _ => None
              end
          | _ => None
          end
      | _ => None
      end
  end%char.

Definition loads (s : string) : option json :=
  '(v, rest) ← parse_value (2 * String.length s + 2) s;
  if bool_decide (skip_ws rest = "") then Some v else None.

(** [str] and, inside containers, [repr]. *)
Fixpoint repr (v : json) : string :=
  match v with
  | JNull => "None"
  | JBool b => if b then "True" else "False"
  | JNum n => pretty n
  | JStr s => "'" +:+ s +:+ "'"
  | JArr xs => "[" +:+ py_join ", " (map repr xs) +:+ "]"
  | JObj items =>
      "{" +:+ py_join ", "
                (map (λ kv : string * json,
                        "'" +:+ kv.1 +:+ "': " +:+ repr kv.2) items)
          +:+ "}"
  end.

Definition str (v : json) : string :=
  match v with
  | JStr s => s
  | _ => repr v
  end.

Definition as_number (v : json) : option Z :=
  match v with
  | JNum n => Some n
  | JBool b => Some (if b then 1 else 0)
  | _ => None
  end.

Definition compare_with (on_num : Z → Z → bool)
    (on_str : string → string → bool) (a b : json) : res bool :=
  match as_number a, as_number b with
  | Some x, Some y => Ok (on_num x y)
  | _, _ =>
      match a, b with
      | JStr s, JStr t => Ok (on_str s t)
      | _, _ => Raise TypeError
      end
  end.

Definition lt : json → json → res bool :=
  compare_with Z.ltb String.ltb.
Definition gt : json → json → res bool :=
  compare_with Z.gtb (λ s t, String.ltb t s).

Fixpoint escape (s : string) : string :=
  match s with
  | EmptyString => ""
  | String c s' =>
      (if bool_decide (c = "034"%char) || bool_decide (c = "\"%char)
       then String "\"%char (String c "")
       else String c "") +:+ escape s'
  end.

(** The document [json.dumps] writes, on one line. *)
Fixpoint dumps (v : json) : string :=
  match v with
  | JNull => "null"
  | JBool b => if b then "true" else "false"
  | JNum n => pretty n
  | JStr s => String "034"%char (escape s) +:+ String "034"%char ""
  | JArr xs => "[" +:+ py_join ", " (map dumps xs) +:+ "]"
  | JObj items =>
      "{" +:+ py_join ", "
                (map (λ kv : string * json,
                        String "034"%char (escape kv.1)
                        +:+ String "034"%char ": " +:+ dumps kv.2) items)
          +:+ "}"
  end.

Global Instance runtime : PyRuntime := {|
  py_str := str;
  json_loads := loads;
  json_dumps := dumps;
  py_lt := lt;
  py_gt := gt;
|}.

End SmallRuntime.

(* ================================================================= *)
(** * Part IV: [report.py], the aggregation engine *)

(** ** Floating point *)

(** Python's [float] is IEEE binary64.  The results are kept as exact
    rationals and every operation rounds through [fl]; what the properties
    below use of rounding to nearest is that it is monotone and leaves 0, 1
    and 100 unchanged.  [a / b] on two [int]s is one correctly rounded
    division; [x * 100] converts 100 exactly and rounds the product. *)
Class Float64 : Type := {
  fl : Qc → Qc;
  fl_mono : ∀ x y : Qc, (x ≤ y)%Qc → (fl x ≤ fl y)%Qc;
  fl_0 : fl 0%Qc = 0%Qc;
  fl_1 : fl 1%Qc = 1%Qc;
  fl_100 : fl (Qc_of_Z 100) = Qc_of_Z 100;
}.

(** Exact arithmetic is one such rounding. *)
Definition exact_float : Float64 :=
  {| fl := id;
     fl_mono := λ x y Hxy, Hxy;
     fl_0 := eq_refl;
     fl_1 := eq_refl;
     fl_100 := eq_refl |}.

(** ** Counting *)

(** [Counter(f.get(field, dflt) for f in facets)] *)
Definition count_field (facets : list json) (field : string) (dflt : json)
  : res counter :=
  for_each (λ (c : counter) (f : json),
              v ← py_get f field dflt;
              k ← py_hash v;
              Ok (counter_add c k 1))
           [] facets.

(** [isinstance(v, (int, float))]: the numeric value, a bool included. *)
Definition numeric (v : json) : option Z :=
  match v with
  | JNum n => Some n
  | JBool b => Some (if b then 1 else 0)
  | _ => None
  end.

(** The inner loop of [aggregate_dict_field]: [result[k] += v] for the
    numeric items of one dict. *)
Definition add_items (result : counter) (items : list (string * json))
  : counter :=
  foldl (λ (result : counter) (kv : string * json),
           match numeric kv.2 with
           | Some n => counter_add result (KStr kv.1) n
           | None => result
           end)
        result items.

Definition aggregate_dict_field (facets : list json) (field : string)
  : res counter :=
  for_each (λ (result : counter) (facet : json),
              val ← py_get facet field (JObj []);
              Ok (match val with
                  | JObj items => add_items result items
                  | _ => result
                  end))
           [] facets.

(** [sum(c.values())] *)
Definition counter_total (c : counter) : Z :=
  foldl (λ (acc : Z) (kn : pykey * Z), acc + kn.2) 0 c.

(** The loop that fills [primary_successes]. *)
Definition count_primary_successes (facets : list json) : res counter :=
  for_each (λ (c : counter) (f : json),
              ps ← py_get f "primary_success" JNull;
              if py_truthy ps && negb (py_eq_str ps "None")
              then k ← py_hash ps; Ok (counter_add c k 1)
              else Ok c)
           [] facets.

(** [any(v > 0 for v in values)]: stops at the first positive value; a value
    that cannot be compared with 0 raises when it is reached. *)
Fixpoint any_positive (values : list json) : res bool :=
  match values with
  | [] => Ok false
  | v :: values' =>
      match numeric v with
      | Some n => if 0 <? n then Ok true else any_positive values'
      | None => Raise TypeError
      end
  end.

(** [any(v > 0 for v in (f.get('friction_counts') or {}).values())] *)
Definition has_friction (f : json) : res bool :=
  fc ← py_get f "friction_counts" JNull;
  if py_truthy fc then
    match fc with
    | JObj items => any_positive (items.*2)
    | _ => Raise AttributeError
    end
  else Ok false.

(** [sum(1 for f in facets if has_friction(f))] *)
Definition count_with_friction (facets : list json) : res Z :=
  for_each (λ (n : Z) (f : json),
              b ← has_friction f; Ok (if (b : bool) then n + 1 else n))
           0 facets.

Section Engine.
Context `{Float64}.

(** ** Percentages *)

(** [(num / den * 100) if den else 0] *)
Definition pct_float (num den : Z) : Qc :=
  if den =? 0 then 0%Qc
  else fl (fl (Qc_of_Z num / Qc_of_Z den) * Qc_of_Z 100)%Qc.

(** [num * 100 / den if den else 0] *)
Definition pct_float_scaled (num den : Z) : Qc :=
  if den =? 0 then 0%Qc
  else fl (Qc_of_Z (num * 100) / Qc_of_Z den)%Qc.


(** ** [build_report_data]: the aggregates and the derived metrics *)

Record aggregates : Type := {
  total : Z;
  outcomes : counter;
  satisfaction : counter;
  helpfulness : counter;
  session_types : counter;
  goal_categories : counter;
  friction_counter : counter;
  primary_successes : counter;
  goals_achieved : Z;
  goals_achieved_pct : Qc;
  helpful_count : Z;
  helpful_pct : Qc;
  sessions_with_friction : Z;
  friction_pct : Qc;
  total_friction : Z;
}.

(** [build_report_data] from its first line to the derived metrics. *)
Definition build_aggregates (facets : list json) : res aggregates :=
  let total := Z.of_nat (length facets) in
  if total =? 0 then Raise SystemExit
  else
    outcomes ← count_field facets "outcome" (JStr "unclear");
    satisfaction ← aggregate_dict_field facets "user_satisfaction_counts";
    helpfulness ← count_field facets "claude_helpfulness" (JStr "unknown");
    session_types ← count_field facets "session_type" (JStr "unknown");
    goal_categories ← aggregate_dict_field facets "goal_categories";
    friction_counter ← aggregate_dict_field facets "friction_counts";
    primary_successes ← count_primary_successes facets;
    let goals_achieved :=
      counter_get outcomes (KStr "fully_achieved")
      + counter_get outcomes (KStr "mostly_achieved") in
    let helpful_count :=
      counter_get helpfulness (KStr "essential")
      + counter_get helpfulness (KStr "very_helpful") in
    sessions_with_friction ← count_with_friction facets;
    Ok {| total := total;
          outcomes := outcomes;
          satisfaction := satisfaction;
          helpfulness := helpfulness;
          session_types := session_types;
          goal_categories := goal_categories;
          friction_counter := friction_counter;
          primary_successes := primary_successes;
          goals_achieved := goals_achieved;
          goals_achieved_pct := pct_float goals_achieved total;
          helpful_count := helpful_count;
          helpful_pct := pct_float helpful_count total;
          sessions_with_friction := sessions_with_friction;
          friction_pct := pct_float sessions_with_friction total;
          total_friction := counter_total friction_counter |}.

(** ** [build_report_data]: the outcome chart *)

Definition outcome_order : list string :=
  ["fully_achieved"; "mostly_achieved"; "partially_achieved";
   "not_achieved"; "abandoned"; "unclear"].

Definition OUTCOME_LABELS : list (string * string) :=
  [("fully_achieved", "Fully Achieved");
   ("mostly_achieved", "Mostly Achieved");
   ("partially_achieved", "Partially Achieved");
   ("not_achieved", "Not Achieved");
   ("abandoned", "Abandoned");
   ("unclear", "Unclear")].

Definition OUTCOME_COLORS : list (string * string) :=
  [("fully_achieved", "#3fb950");
   ("mostly_achieved", "#58a6ff");
   ("partially_achieved", "#d29922");
   ("not_achieved", "#f85149");
   ("abandoned", "#8b949e");
   ("unclear", "#8b949e")].

(** [table.get(k, dflt)] on a table of strings. *)
Fixpoint table_get (table : list (string * string)) (k dflt : string)
  : string :=
  match table with
  | [] => dflt
  | (k', v) :: table' => if decide (k' = k) then v else table_get table' k dflt
  end.

Definition outcomes_list (a : aggregates)
  : list (string * Z * Qc * string) :=
  (λ k, (table_get OUTCOME_LABELS k k,
         counter_get (outcomes a) (KStr k),
         pct_float_scaled (counter_get (outcomes a) (KStr k)) (total a),
         table_get OUTCOME_COLORS k "#8b949e"))
  <$> filter (λ k, 0 < counter_get (outcomes a) (KStr k)) outcome_order.

(** ** [build_report_data]: the comparison with the native facets *)




End Engine.

(** ** [generate_recommendations] *)

Record recommendation : Type := {
  title : string;
  description : string;
}.

Definition rec_session_length (n : Z) : recommendation :=
  {| title := "Manage Session Length";
     description :=
       "You had " +:+ pretty n +:+ " context overflow events. "
       +:+ "Use /compact proactively when sessions exceed 20 messages. "
       +:+ "Write session state to a file before context compression so nothing is lost." |}.

Definition rec_subagent_limits (n : Z) : recommendation :=
  {| title := "Add Subagent Limits";
     description :=
       "Tool failures (" +:+ pretty n +:+ " events) often come from "
       +:+ "rate limits when spawning too many parallel subagents. "
       +:+ "Limit to 5 concurrent subagents and wait for each batch to complete." |}.

Definition rec_guardrails (n : Z) : recommendation :=
  {| title := "Add Data Verification Guardrails";
     description :=
       "Fabricated data was detected in " +:+ pretty n +:+ " session(s). "
       +:+ "Add a CLAUDE.md rule requiring source citations for factual claims, "
       +:+ "and consider a post-tool hook that validates research output quality." |}.

Definition rec_constraints (n : Z) : recommendation :=
  {| title := "Provide More Upfront Constraints";
     description :=
       "Claude took the wrong approach " +:+ pretty n +:+ " times. "
       +:+ "When starting complex tasks, provide explicit constraints and preferred approaches "
       +:+ "upfront rather than letting Claude choose freely." |}.

Definition rec_research_skill (n : Z) : recommendation :=
  {| title := "Build a Research Skill";
     description :=
       "Research dominates your usage (" +:+ pretty n +:+ " goal instances). "
       +:+ "Create a custom /research skill that encodes your research workflow, "
       +:+ "including output format, quality checks, and rate-limit-aware batching." |}.

Definition rec_context_loading (n : Z) : recommendation :=
  {| title := "Start Sessions with Context Loading";
     description :=
       "Missed context (" +:+ pretty n +:+ " events) wastes time "
       +:+ "re-explaining prior work. Start each session by having Claude read "
       +:+ "the relevant CLAUDE.md and recent work logs before diving in." |}.

Definition rec_monthly : recommendation :=
  {| title := "Run Deep Insights Monthly";
     description :=
       "Track how your usage patterns, friction rates, and session quality change "
       +:+ "over time. Monthly reports help you see whether CLAUDE.md improvements "
       +:+ "are actually reducing friction." |}.

(** [goal_counter.get('research', 0) > total_sessions * 0.3].  CPython
    evaluates the product in binary64; for a session count below 2^50 its
    comparison with an integer gives the answer of the exact comparison
    [10 * research > 3 * total_sessions], which is what is written here. *)
Definition research_dominates (research total_sessions : Z) : bool :=
  bool_decide (3 * total_sessions < 10 * research).

(** [recs.append(r)] when the gate holds. *)
Definition append_if (gate : bool) (r : recommendation)
    (recs : list recommendation) : list recommendation :=
  if gate then recs ++ [r] else recs.

(** The two dicts are read with [get(k, 0)] in the gates and with [[k]] in
    the texts; the latter is reached only under a gate that makes the key
    present, where both read the same count. *)
Definition generate_recommendations (friction_counter : counter)
    (total_sessions : Z) (goal_counter : counter) (session_types : counter)
  : list recommendation :=
  let fc k := counter_get friction_counter (KStr k) in
  let recs := [] in
  let recs := append_if (bool_decide (3 ≤ fc "context_overflow"))
                (rec_session_length (fc "context_overflow")) recs in
  let recs := append_if (bool_decide (5 ≤ fc "tool_failure"))
                (rec_subagent_limits (fc "tool_failure")) recs in
  let recs := append_if (bool_decide (1 ≤ fc "fabricated_data"))
                (rec_guardrails (fc "fabricated_data")) recs in
  let recs := append_if (bool_decide (5 ≤ fc "wrong_approach"))
                (rec_constraints (fc "wrong_approach")) recs in
  let recs := append_if
                (research_dominates (counter_get goal_counter (KStr "research"))
                                    total_sessions)
                (rec_research_skill (counter_get goal_counter (KStr "research")))
                recs in
  let recs := append_if (bool_decide (3 ≤ fc "missed_context"))
                (rec_context_loading (fc "missed_context")) recs in
  let recs := recs ++ [rec_monthly] in
  take 5 recs.

(* ================================================================= *)
(** * Part IV, continued: the rest of [preprocess.py] and the template *)

(** ** [discover_sessions] *)

(** [sub in s] for two strings. *)
Fixpoint py_in (sub s : string) : bool :=
  py_startswith sub s
  || match s with
     | String _ s' => py_in sub s'
     | EmptyString => false
     end.

(** [glob.glob(os.path.join(session_dir, '**', '*.jsonl'), recursive=True)]
    is a matter of the file system: [globbed] is the list it returns, in the
    order it returns it.  [list.sort] on strings is the lexicographic order
    of the code points. *)
Definition discover_sessions (globbed : list string) : list string :=
  merge_sort String.le
    (filter (λ jsonl, py_in "/subagents/" jsonl = false) globbed).

(** ** [main]: the manifest *)

(** The exceptions of [main]: those above, and [KeyError]. *)
Inductive main_exn : Type :=
| Exn (e : exn)
| KeyError.

Inductive mres (A : Type) : Type :=
| MOk (a : A)
| MRaise (e : main_exn).
Arguments MOk {A} a.
Arguments MRaise {A} e.

Global Instance mres_ret : MRet mres := @MOk.
Global Instance mres_bind : MBind mres := λ A B f m,
  match m with
  | MOk a => f a
  | MRaise e => MRaise e
  end.

(** [[f(x) for x in xs]] *)
Fixpoint map_m {A B : Type} (f : A → mres B) (xs : list A) : mres (list B) :=
  match xs with
  | [] => MOk []
  | x :: xs' => y ← f x; ys ← map_m f xs'; MOk (y :: ys)
  end.

(** [s[k]] for a string [k], on a value read by [json.load]: [KeyError]
    when a dict lacks the key, [TypeError] when the value is not a dict
    (a list or a string takes integer indices, the others take none). *)
Definition py_subscript (s : json) (k : string) : mres json :=
  match s with
  | JObj items =>
      match dict_get items k with
      | Some v => MOk v
      | None => MRaise KeyError
      end
  | _ => MRaise (Exn TypeError)
  end.

(** [list(d.keys())]; [AttributeError] when [d] is not a dict. *)
Definition py_keys (d : json) : mres (list string) :=
  match d with
  | JObj items => MOk items.*1
  | _ => MRaise (Exn AttributeError)
  end.

(** One entry of ["sessions"].  A summary built in this run is a dict with
    all its keys, so that no subscript fails; a cached one is whatever
    [json.load] returned. *)
Definition manifest_entry (s : summary_entry) : mres json :=
  match s with
  | Fresh sm =>
      MOk (JObj [
        ("session_id", JStr (sm_session_id sm));
        ("project", JStr (sm_project sm));
        ("start_time", sm_start_time sm);
        ("end_time", sm_end_time sm);
        ("user_messages", JNum (Z.of_nat (st_user_messages (sm_stats sm))));
        ("models", JArr (key_to_json <$> sm_models_used sm));
        ("subagent_count",
           JNum (Z.of_nat (st_subagent_count (sm_stats sm))));
        ("top_tools", JArr (key_to_json <$> take 5 (sm_tool_usage sm).*1))])
  | Cached s =>
      session_id ← py_subscript s "session_id";
      project ← py_subscript s "project";
      start_time ← py_subscript s "start_time";
      end_time ← py_subscript s "end_time";
      stats ← py_subscript s "stats";
      user_messages ← py_subscript stats "user_messages";
      models ← py_subscript s "models_used";
      stats' ← py_subscript s "stats";
      subagent_count ← py_subscript stats' "subagent_count";
      tool_usage ← py_subscript s "tool_usage";
      keys ← py_keys tool_usage;
      MOk (JObj [
        ("session_id", session_id);
        ("project", project);
        ("start_time", start_time);
        ("end_time", end_time);
        ("user_messages", user_messages);
        ("models", models);
        ("subagent_count", subagent_count);
        ("top_tools", JArr (JStr <$> take 5 keys))])
  end.

(** The manifest; [now] is [datetime.now().isoformat()]. *)
Definition build_manifest (now : string) (all_summaries : list summary_entry)
  : mres json :=
  sessions ← map_m manifest_entry all_summaries;
  MOk (JObj [
    ("total_sessions", JNum (Z.of_nat (length all_summaries)));
    ("generated_at", JStr now);
    ("sessions", JArr sessions)]).

Section Main.
Context `{PyRuntime}.

(** [main], without what it prints (the sizes of the files are only
    printed).  [session_dir_exists] is [os.path.isdir(session_dir)].  The
    result is the state of the run after the loop and the manifest that is
    written. *)
Definition main (force : bool) (session_dir_exists : bool)
    (output_dir : string) (globbed : list string) (now : string) (w : world)
  : mres (run_state * json) :=
  let summaries_dir := path_join output_dir "session_summaries" in
  if negb session_dir_exists then MRaise (Exn SystemExit)
  else
    let parent_sessions := discover_sessions globbed in
    if bool_decide (parent_sessions = []) then MRaise (Exn SystemExit)
    else
      let rs := main_loop force summaries_dir w parent_sessions in
      manifest ← build_manifest now (all_summaries rs);
      MOk (rs, manifest).

End Main.

(** ** [templates/report_template.py]: [_escape] *)

(** [s.replace(c, new)] for a one-character [c]. *)
Fixpoint py_replace_char (c : ascii) (new s : string) : string :=
  match s with
  | EmptyString => ""
  | String d s' =>
      if decide (c = d) then new +:+ py_replace_char c new s'
      else String d (py_replace_char c new s')
  end.

Section Template.
Context `{PyRuntime}.

Definition _escape (text : json) : string :=
  match text with
  | JNull => ""
  | _ =>
      py_replace_char "034" "&quot;"
        (py_replace_char ">" "&gt;"
           (py_replace_char "<" "&lt;"
              (py_replace_char "&" "&amp;" (py_str text))))
  end.

End Template.

(* ================================================================= *)
(** * Part V: the notions the properties are stated with *)

(** ** The conversation flow *)

Definition user_turn (u : string) : flow_entry :=
  {| role := "user"; text := u |}.
Definition assistant_turn (a : string) : flow_entry :=
  {| role := "assistant"; text := a |}.

(** The interleaving the specification describes: up to [n] exchanges, each
    a user turn followed by an assistant turn while assistant texts remain,
    a user turn alone afterwards; it ends with the user texts. *)
Fixpoint turns (n : nat) (users assts : list string) : list flow_entry :=
  match n, users with
  | S n', u :: users' =>
      user_turn u ::
      match assts with
      | a :: assts' => assistant_turn a :: turns n' users' assts'
      | [] => turns n' users' []
      end
  | _, _ => []
  end.

(** Complete (user, assistant) pairs. *)
Fixpoint pairs (users assts : list string) : list flow_entry :=
  match users, assts with
  | u :: users', a :: assts' =>
      user_turn u :: assistant_turn a :: pairs users' assts'
  | _, _ => []
  end.

(** The role strict alternation puts at position [i]. *)
Definition role_at (i : nat) : string :=
  if Nat.even i then "user" else "assistant".

(** Strict alternation starting with a user entry. *)
Definition strictly_alternates (flow : list flow_entry) : Prop :=
  ∀ i e, flow !! i = Some e → role e = role_at i.

Definition count_role (r : string) (flow : list flow_entry) : nat :=
  length (filter (λ e, role e = r) flow).

(** A flow of [n_user] user turns and [n_asst] assistant turns: the first
    [2 * n_asst] entries alternate, the others are user turns. *)
Record flow_shape (n_user n_asst : nat) (flow : list flow_entry) : Prop := {
  shape_length : length flow = (n_user + n_asst)%nat;
  shape_pairs : ∀ i e,
    (i < 2 * n_asst)%nat → flow !! i = Some e → role e = role_at i;
  shape_alone : ∀ i e,
    (2 * n_asst ≤ i)%nat → flow !! i = Some e → role e = "user";
  shape_users : count_role "user" flow = n_user;
  shape_assts : count_role "assistant" flow = n_asst;
}.

(** ** The records and the tool invocations of a log *)

(** [d.get(k, dflt)] where [d] is known to be a dict. *)
Definition field (d : json) (k : string) (dflt : json) : json :=
  match d with
  | JObj items => default dflt (dict_get items k)
  | _ => dflt
  end.

Definition is_tool_use (block : json) : bool :=
  match block with
  | JObj _ => py_eq_str (field block "type" JNull) "tool_use"
  | _ => false
  end.

(** The name of an invocation: [block.get('name', 'unknown')]. *)
Definition invocation_name (block : json) : json :=
  field block "name" (JStr "unknown").

Definition five_file_tools : list string :=
  ["Read"; "Glob"; "Grep"; "Edit"; "Write"].

(** Text caps: what a message of the two text streams can be. *)
Inductive capped_part : string → Prop :=
| part_text s : capped_part (py_slice 500 s)
| part_thinking s : capped_part ("[thinking: " +:+ py_slice 150 s +:+ "...]").

Inductive capped_text : string → Prop :=
| capped_plain s : capped_text (py_slice 500 s)
| capped_blocks parts :
    Forall capped_part parts → capped_text (py_join " " parts)
| capped_summary s :
    capped_text ("[CONTEXT SUMMARY: " +:+ py_slice 1000 s +:+ "]").

(** What the scan knows of the tool calls [tools] it has gone through. *)
Record tools_inv (st : scan_state) (tools : list tool_info) : Prop := {
  inv_usage : ∀ k,
    counter_get (tool_usage st) k
    = Z.of_nat (length (filter (λ t, py_hash (tool_name t) = Ok k) tools));
  inv_usage_keys : NoDup (tool_usage st).*1;
  inv_details : tool_details st = take MAX_TOOL_DETAILS tools;
  inv_files : ∀ f,
    f ∈ files_touched st ↔
    ∃ t, t ∈ tools ∧ tool_get (tool_fields t) "target" = f
         ∧ f ≠ "" ∧ py_contains "/" f = true;
}.



(** Every message of the two text streams is a capped text. *)
Definition texts_inv (st : scan_state) : Prop :=
  Forall capped_text (user_messages st)
  ∧ Forall capped_text (assistant_texts st).

(** Two states of the scan that differ by [d] skipped lines only. *)
Record skipped_more (d : Z) (st st' : scan_state) : Prop := {
  sk_timestamps : timestamps st' = timestamps st;
  sk_user_messages : user_messages st' = user_messages st;
  sk_assistant_texts : assistant_texts st' = assistant_texts st;
  sk_tool_usage : tool_usage st' = tool_usage st;
  sk_tool_details : tool_details st' = tool_details st;
  sk_files_touched : files_touched st' = files_touched st;
  sk_models_used : models_used st' = models_used st;
  sk_total_input_tokens : total_input_tokens st' = total_input_tokens st;
  sk_total_output_tokens : total_output_tokens st' = total_output_tokens st;
  sk_has_summary : has_summary st' = has_summary st;
  sk_git_branch : git_branch st' = git_branch st;
  sk_lines_processed : lines_processed st' = lines_processed st;
  sk_lines_skipped : lines_skipped st' = lines_skipped st + d;
}.

(** Two results related by [R], or the same exception. *)
Inductive res_rel {A B : Type} (R : A → B → Prop) : res A → res B → Prop :=
| res_rel_ok a b : R a b → res_rel R (Ok a) (Ok b)
| res_rel_raise e : res_rel R (Raise e) (Raise e).

(** The same result with one more skipped line. *)
Definition one_more_skipped (r : res (summary * Z)) : res (summary * Z) :=
  '(sm, skipped) ← r; Ok (sm, skipped + 1).

(** The world [w] where the log at [path] has the given lines. *)
Definition with_log (path : string) (lines : list string) (w : world)
  : world :=
  {| session_files := <[path := lines]> (session_files w);
     summary_files := summary_files w;
     subagent_dirs := subagent_dirs w |}.

(** The summary file of the session whose log is at [jsonl_path]. *)
Definition summary_path_of (summaries_dir jsonl_path : string) : string :=
  path_join summaries_dir
            (py_remove ".jsonl" (basename jsonl_path) +:+ ".json").

(** The state of the run after a cached summary has been reused. *)
Definition reused (existing : json) (rs : run_state) : run_state :=
  {| all_summaries := all_summaries rs ++ [Cached existing];
     new_count := new_count rs;
     skipped_count := skipped_count rs + 1;
     error_count := error_count rs;
     total_lines_skipped := total_lines_skipped rs;
     disk := disk rs |}.

Section Session.
Context `{PyRuntime}.

(** The record a line of the log holds, if any. *)
Definition line_record (line : string) : option json :=
  let line := py_strip line in
  if bool_decide (line = "") then None else json_loads line.

(** The blocks of a content that is a list. *)
Definition content_blocks (content : json) : list json :=
  match content with
  | JArr blocks => blocks
  | _ => []
  end.

(** The content blocks of an assistant record. *)
Definition event_blocks (obj : json) : list json :=
  if py_eq_str (field obj "type" JNull) "assistant" then
    content_blocks (field (field obj "message" (JObj [])) "content" (JArr []))
  else [].

(** Every tool invocation of the session, in order: the [tool_use] blocks
    of its assistant records. *)
Definition session_invocations (lines : list string) : list json :=
  filter is_tool_use
    (lines ≫= λ line, from_option event_blocks [] (line_record line)).

(** The number of invocations whose name is the key [k]. *)
Definition invocations_of (k : pykey) (lines : list string) : nat :=
  length (filter (λ b, py_hash (invocation_name b) = Ok k)
                 (session_invocations lines)).

(** [t] is the record [extract_tool_calls] makes of [block]. *)
Definition extracted (block : json) (t : tool_info) : Prop :=
  tool_call_step [] block = Ok [t].

End Session.

(** ** The aggregates *)

(** The facets whose field [fld] (default [dflt]) is the string [value]. *)
Definition labelled (fld dflt value : string) (facets : list json)
  : list json :=
  filter (λ f, py_eq_str (field f fld (JStr dflt)) value) facets.




(** ** The recommendations *)

(** The titles of the candidate recommendations, in the order of their
    gates; the monthly one is last. *)
Definition candidate_titles : list string :=
  ["Manage Session Length"; "Add Subagent Limits";
   "Add Data Verification Guardrails"; "Provide More Upfront Constraints";
   "Build a Research Skill"; "Start Sessions with Context Loading";
   "Run Deep Insights Monthly"].

(** The six gates, in order. *)
Definition gates (friction_counter : counter) (total_sessions : Z)
    (goal_counter : counter) : list bool :=
  [bool_decide (3 ≤ counter_get friction_counter (KStr "context_overflow"));
   bool_decide (5 ≤ counter_get friction_counter (KStr "tool_failure"));
   bool_decide (1 ≤ counter_get friction_counter (KStr "fabricated_data"));
   bool_decide (5 ≤ counter_get friction_counter (KStr "wrong_approach"));
   bool_decide (3 * total_sessions
                < 10 * counter_get goal_counter (KStr "research"));
   bool_decide (3 ≤ counter_get friction_counter (KStr "missed_context"))].

(** How many gates hold. *)
Definition gates_open (friction_counter : counter) (total_sessions : Z)
    (goal_counter : counter) : nat :=
  length (filter (λ g : bool, g = true)
                 (gates friction_counter total_sessions goal_counter)).

(** ** Concrete logs *)

(** The lines of the concrete logs are written by [SmallRuntime.dumps] and
    read back by [SmallRuntime.loads]. *)
Module Demo.
Import SmallRuntime.

Definition demo_path : string := "projects/demo/s1.jsonl".

Definition demo_world (lines : list string) : world :=
  {| session_files := {[ demo_path := lines ]};
     summary_files := ∅;
     subagent_dirs := ∅ |}.

Definition user_line (content : json) : string :=
  dumps (JObj [("type", JStr "user");
               ("message", JObj [("content", content)])]).

Definition assistant_line (blocks : list json) : string :=
  dumps (JObj [("type", JStr "assistant");
               ("message", JObj [("content", JArr blocks)])]).

Definition summary_line (s : string) : string :=
  dumps (JObj [("type", JStr "summary"); ("summary", JStr s)]).

Definition text_block (s : string) : json :=
  JObj [("type", JStr "text"); ("text", JStr s)].

Definition tool_use (name : string) (input : list (string * json)) : json :=
  JObj [("type", JStr "tool_use"); ("name", JStr name);
        ("input", JObj input)].

(** [c * n] for a one-character string [c]. *)
Fixpoint repeat_char (c : ascii) (n : nat) : string :=
  match n with
  | O => ""
  | S n' => String c (repeat_char c n')
  end.

(** Two user messages and no assistant text. *)
Definition two_users_log : list string :=
  [user_line (JStr "first question"); user_line (JStr "second question")].

(** 50 user messages and 45 assistant texts. *)
Definition fifty_users_log : list string :=
  replicate 50 (user_line (JStr "question"))
  ++ replicate 45 (assistant_line [text_block "answer"]).

(** A user message and a compression summary of 1500 characters. *)
Definition long_summary_log : list string :=
  [user_line (JStr "hello"); summary_line (repeat_char "a" 1500)].

(** A user message made of two text blocks of 500 characters each. *)
Definition two_blocks_log : list string :=
  [user_line (JArr [text_block (repeat_char "a" 500);
                    text_block (repeat_char "b" 500)])].

(** A task spawn whose description and sub-type label have 300 characters
    each. *)
Definition task_log : list string :=
  [assistant_line
     [tool_use "Task" [("description", JStr (repeat_char "d" 300));
                       ("subagent_type", JStr (repeat_char "x" 300))]]].

(** A line of blanks, and a line that is not JSON. *)
Definition blank_line : string := "   ".
Definition bad_line : string := "{not json".

Definition first_line : string := user_line (JStr "first question").
Definition second_line : string := user_line (JStr "second question").

(** 31 shell commands and one file read in a single assistant event. *)
Definition many_tools_log : list string :=
  [assistant_line
     (replicate 31 (tool_use "Bash" [("command", JStr "ls")])
      ++ [tool_use "Read" [("file_path", JStr "/src/main.py")]])].

(** 40 distinct files read, one of them twice, and a target without
    separator. *)
Definition many_files_log : list string :=
  [assistant_line
     (((λ n, tool_use "Read"
                [("file_path", JStr ("/src/" +:+ repeat_char "f" n))])
       <$> seq 1 40)
      ++ [tool_use "Read" [("file_path", JStr "/src/fff")];
          tool_use "Read" [("file_path", JStr "README")]])].

(** File tools next to a shell command, a search, a fetch and a task whose
    texts contain separators. *)
Definition mixed_tools_log : list string :=
  [assistant_line
     [tool_use "Read" [("file_path", JStr "/repo/a.py")];
      tool_use "Bash" [("command", JStr "cat /etc/hosts")];
      tool_use "WebSearch" [("query", JStr "either/or")];
      tool_use "WebFetch" [("url", JStr "https://example.org/x")];
      tool_use "Task" [("description", JStr "scan src/ for bugs")];
      tool_use "Grep" [("pattern", JStr "foo/bar")]]].

(** A run directory where the summary of the demo session is cached, and
    one where the cached file is cut short. *)
Definition cached_summary : json := JObj [("session_id", JStr "s1")].



(** Three facets: one goal fully achieved, one not achieved, one
    abandoned. *)
Definition facet (outcome helpfulness : string)
    (sat friction : list (string * json)) : json :=
  JObj [("outcome", JStr outcome);
        ("claude_helpfulness", JStr helpfulness);
        ("user_satisfaction_counts", JObj sat);
        ("friction_counts", JObj friction)].

Definition three_facets : list json :=
  [facet "fully_achieved" "essential"
         [("satisfied", JNum 2)] [];
   facet "not_achieved" "slightly_helpful"
         [("dissatisfied", JNum 1); ("satisfied", JNum 1)]
         [("tool_failure", JNum 2)];
   facet "abandoned" "unhelpful"
         [("frustrated", JNum 1)] [("context_overflow", JNum 0)]].

(** Aggregates that open two gates. *)
Definition demo_friction : counter :=
  [(KStr "context_overflow", 4); (KStr "tool_failure", 1)].
Definition demo_goals : counter := [(KStr "research", 5)].

End Demo.
(* ================================================================= *)
(** * Part V, continued: what a log holds *)

Section Log.
Context `{PyRuntime}.

(** The records of a log, in order: one for each line that holds one. *)
Definition session_records (lines : list string) : list json :=
  omap line_record lines.

(** A line that is not blank and that [json.loads] rejects. *)
Definition unparseable (line : string) : bool :=
  negb (bool_decide (py_strip line = ""))
  && match json_loads (py_strip line) with
     | None => true
     | Some _ => false
     end.

(** [obj.get('type')] *)
Definition record_kind (obj : json) : json := field obj "type" JNull.

(** [obj.get('message', {}).get('content', dflt)] *)
Definition record_content (obj dflt : json) : json :=
  field (field obj "message" (JObj [])) "content" dflt.

(** The message a record adds to the user stream: the text of a [user]
    record, unless it is blank. *)
Definition record_user_texts (obj : json) : list string :=
  if py_eq_str (record_kind obj) "user" then
    let text := extract_text_from_content (record_content obj (JStr ""))
                  MAX_TEXT_PER_MESSAGE in
    if bool_decide (py_strip text = "") then [] else [text]
  else [].

(** The message a record adds to the assistant stream: the marked summary
    of a [summary] record, or the text of an [assistant] record unless it is
    blank. *)
Definition record_assistant_texts (obj : json) : list string :=
  if py_eq_str (record_kind obj) "summary" then
    let summary_text := field obj "summary" (JStr "") in
    if py_truthy summary_text
    then ["[CONTEXT SUMMARY: " +:+ py_slice 1000 (py_str summary_text)
          +:+ "]"]
    else []
  else if py_eq_str (record_kind obj) "assistant" then
    let text := extract_text_from_content (record_content obj (JArr []))
                  MAX_TEXT_PER_MESSAGE in
    if bool_decide (py_strip text = "") then [] else [text]
  else [].

(** The value of the field [k] of a record when it is truthy. *)
Definition record_truthy (k : string) (obj : json) : list json :=
  let v := field obj k JNull in
  if py_truthy v then [v] else [].

(** The tokens an [assistant] record reports under the key [k] of its
    usage. *)
Definition record_tokens (k : string) (obj : json) : Z :=
  if py_eq_str (record_kind obj) "assistant" then
    default 0
      (numeric (field (field (field obj "message" (JObj [])) "usage" (JObj []))
                      k (JNum 0)))
  else 0.

Definition sum_Z (ns : list Z) : Z := foldr Z.add 0 ns.

(** What the scan has gathered once it has read the lines [lines]. *)
Record log_inv (st : scan_state) (lines : list string) : Prop := {
  log_skipped :
    lines_skipped st = Z.of_nat (length (filter unparseable lines));
  log_processed :
    lines_processed st = Z.of_nat (length (session_records lines));
  log_summary :
    has_summary st
    = existsb (λ obj, py_eq_str (record_kind obj) "summary")
              (session_records lines);
  log_users :
    user_messages st = session_records lines ≫= record_user_texts;
  log_assts :
    assistant_texts st = session_records lines ≫= record_assistant_texts;
  log_timestamps :
    timestamps st = session_records lines ≫= record_truthy "timestamp";
  log_branch :
    git_branch st
    = default JNull (head (session_records lines ≫= record_truthy "gitBranch"));
  log_input :
    total_input_tokens st
    = sum_Z (record_tokens "input_tokens" <$> session_records lines);
  log_output :
    total_output_tokens st
    = sum_Z (record_tokens "output_tokens" <$> session_records lines);
}.

End Log.

(** Two states of the scan that differ in what they know of the tool calls
    and of the models only. *)
Record scan_frame (st st' : scan_state) : Prop := {
  fr_timestamps : timestamps st' = timestamps st;
  fr_user_messages : user_messages st' = user_messages st;
  fr_assistant_texts : assistant_texts st' = assistant_texts st;
  fr_total_input_tokens : total_input_tokens st' = total_input_tokens st;
  fr_total_output_tokens : total_output_tokens st' = total_output_tokens st;
  fr_has_summary : has_summary st' = has_summary st;
  fr_git_branch : git_branch st' = git_branch st;
  fr_lines_processed : lines_processed st' = lines_processed st;
  fr_lines_skipped : lines_skipped st' = lines_skipped st;
}.

(** Two states of the scan that know the same of the tool calls. *)
Record tools_eq (st st' : scan_state) : Prop := {
  te_usage : tool_usage st' = tool_usage st;
  te_details : tool_details st' = tool_details st;
  te_files : files_touched st' = files_touched st;
}.

Section Replay.
Context `{PyRuntime}.

(** What the scan knows of the tool calls is what the loop over [tools]
    alone computes. *)
Definition replays (st : scan_state) (tools : list tool_info) : Prop :=
  ∃ st_t, for_each tool_step scan_init tools = Ok st_t ∧ tools_eq st_t st.

(** The tools whose detail fields are read from the input. *)
Definition known_tools : list string :=
  ["Read"; "Glob"; "Grep"; "Edit"; "Write"; "Bash"; "WebSearch"; "WebFetch";
   "Task"; "TaskCreate"; "TaskUpdate"].

(** Decreasing counts. *)
Definition by_count (x y : pykey * Z) : Prop := y.2 ≤ x.2.

End Replay.

(** A content block that gives no text: neither a string nor a dict of type
    [text] or [thinking]. *)
Definition silent_block (block : json) : bool :=
  match block with
  | JStr _ => false
  | JObj _ =>
      negb (py_eq_str (field block "type" JNull) "text")
      && negb (py_eq_str (field block "type" JNull) "thinking")
  | _ => true
  end.

(** A value that is not a dict. *)
Definition not_object (v : json) : bool :=
  match v with
  | JObj _ => false
  | _ => true
  end.

(** The keys in the order of their first occurrence. *)
Definition first_seen (ks : list pykey) : list pykey :=
  foldl (λ acc k, if decide (k ∈ acc) then acc else acc ++ [k]) [] ks.

Section Names.
Context `{PyRuntime}.

(** The key of a tool name in the usage table. *)
Definition name_key (name : json) : list pykey :=
  match py_hash name with
  | Ok k => [k]
  | Raise _ => []
  end.

(** The names of the tool invocations of the session, as keys, in order. *)
Definition invocation_keys (lines : list string) : list pykey :=
  session_invocations lines ≫= λ block, name_key (invocation_name block).

End Names.

(** ** The run *)

(** The state of the run with one more error. *)
Definition bump_error (rs : run_state) : run_state :=
  {| all_summaries := all_summaries rs;
     new_count := new_count rs;
     skipped_count := skipped_count rs;
     error_count := error_count rs + 1;
     total_lines_skipped := total_lines_skipped rs;
     disk := disk rs |}.

(** A summary built in this run. *)
Definition is_fresh (s : summary_entry) : bool :=
  match s with
  | Fresh _ => true
  | Cached _ => false
  end.

(** ** The aggregates, continued *)

(** What a facet contributes to the key [k] of the sum of its dict field
    [fld]: the numeric values it holds under [k]. *)
Definition items_amount (k : string) (items : list (string * json)) : Z :=
  sum_Z ((λ kv : string * json,
            if decide (kv.1 = k) then default 0 (numeric kv.2) else 0)
         <$> items).

Definition facet_amount (fld k : string) (facet : json) : Z :=
  match field facet fld (JObj []) with
  | JObj items => items_amount k items
  | _ => 0
  end.

(** The facets whose field [fld] is one of the strings [values]. *)
Definition labelled_among (fld dflt : string) (values : list string)
    (facets : list json) : list json :=
  filter (λ f, py_in_strs (field f fld (JStr dflt)) values) facets.

(** The count of a row of the outcome chart. *)
Definition row_count (row : string * Z * Qc * string) : Z := row.1.1.2.
Definition row_label (row : string * Z * Qc * string) : string := row.1.1.1.

(** ** The escaped text *)

(** The characters [_escape] replaces. *)
Definition quote_char : ascii := "034".
Definition html_special : list ascii := ["&"; "<"; ">"; quote_char]%char.

(** ** Concrete logs, continued *)

Module Samples.
Import SmallRuntime Demo.

(** A log with two lines that are not JSON and a blank one. *)
Definition noisy_log : list string :=
  [first_line; bad_line; blank_line; bad_line; second_line].

(** A user record with a timestamp and a branch. *)
Definition stamped_line (timestamp branch text : string) : string :=
  dumps (JObj [("type", JStr "user");
               ("timestamp", JStr timestamp);
               ("gitBranch", JStr branch);
               ("message", JObj [("content", JStr text)])]).

(** Three records out of order in time, on two branches. *)
Definition stamped_log : list string :=
  [stamped_line "2026-01-02T10:00:00Z" "main" "second day";
   stamped_line "2026-01-01T09:00:00Z" "feature" "first day";
   stamped_line "2026-01-03T08:00:00Z" "main" "third day"].

(** An assistant record with its usage. *)
Definition usage_line (input_tokens output_tokens : Z) : string :=
  dumps (JObj [("type", JStr "assistant");
               ("message",
                JObj [("content", JArr [text_block "ok"]);
                      ("usage",
                       JObj [("input_tokens", JNum input_tokens);
                             ("output_tokens", JNum output_tokens)])])]).

(** Two assistant records with usage and one without. *)
Definition usage_log : list string :=
  [usage_line 100 20; assistant_line [text_block "no usage"];
   usage_line 50 5].

(** A line that holds a number, which is valid JSON. *)
Definition number_line : string := "42".

(** A shell command whose input is [null], and a tool of an unknown name
    with the same input. *)
Definition null_input (name : string) : json :=
  JObj [("type", JStr "tool_use"); ("name", JStr name); ("input", JNull)].
Definition null_input_line : string := assistant_line [null_input "Bash"].

(** A user record that holds a tool result only. *)
Definition tool_result_record : json :=
  JObj [("type", JStr "user");
        ("message",
         JObj [("content",
                JArr [JObj [("type", JStr "tool_result");
                            ("content", JStr "done")]])])].

(** Two sessions of two projects, a log that cannot be compacted, and the
    log of a subagent. *)
Definition other_path : string := "projects/other/s2.jsonl".
Definition broken_path : string := "projects/demo/broken.jsonl".
Definition subagent_path : string := "projects/demo/s1/subagents/a1.jsonl".
Definition same_name_path : string := "projects/other/s1.jsonl".

Definition run_world : world :=
  {| session_files :=
       {[ demo_path := two_users_log;
          other_path := mixed_tools_log;
          broken_path := [number_line];
          subagent_path := two_users_log ]};
     summary_files := ∅;
     subagent_dirs := ∅ |}.

Definition run_glob : list string :=
  [other_path; subagent_path; broken_path; demo_path].

(** A run directory where the cached summary of the demo session parses
    but holds its [session_id] only. *)
Definition partial_cache_world : world :=
  {| session_files := {[ demo_path := two_users_log ]};
     summary_files :=
       {[ "out/session_summaries/s1.json" := dumps cached_summary ]};
     subagent_dirs := ∅ |}.

(** A facet whose friction counts hold a string. *)
Definition text_friction_facet : json :=
  facet "fully_achieved" "essential" []
        [("tool_failure", JStr "3"); ("wrong_approach", JNum 1)].

End Samples.

(* ================================================================= *)
(** * Part VI: properties *)

(** ** Strings *)

Lemma py_slice_length (n : nat) (s : string) :
  (String.length (py_slice n s) ≤ n)%nat.
Proof.
  revert s. induction n as [|n IH]; intros [|c s]; simpl; try lia.
  specialize (IH s). lia.
Qed.

Lemma py_slice_short (n : nat) (s : string) :
  (String.length s ≤ n)%nat → py_slice n s = s.
Proof.
  revert s. induction n as [|n IH]; intros [|c s]; simpl; try done; try lia.
  intros Hlen. rewrite IH by lia. done.
Qed.

Lemma string_app_length (s t : string) :
  String.length (s +:+ t) = (String.length s + String.length t)%nat.
Proof. induction s as [|c s IH]; simpl; [done|]. by rewrite IH. Qed.

(** From here on the slice is used through the three facts above. *)
Opaque py_slice.

(** ** Results and loops *)

Lemma bind_ok {A B : Type} (m : res A) (f : A → res B) (b : B) :
  m ≫= f = Ok b ↔ ∃ a, m = Ok a ∧ f a = Ok b.
Proof.
  destruct m as [a|e]; simpl.
  - split; [eauto|]. by intros (a' & [= <-] & ?).
  - split; [done|]. by intros (a' & ? & ?).
Qed.

Lemma for_each_app {S A : Type} (body : S → A → res S) st xs ys :
  for_each body st (xs ++ ys) = for_each body st xs ≫= λ st', for_each body st' ys.
Proof.
  revert st. induction xs as [|x xs IH]; intros st; simpl; [done|].
  destruct (body st x) as [st'|e]; simpl; [apply IH|done].
Qed.

(** An invariant of the body is an invariant of the loop. *)
Lemma for_each_invariant {S A : Type} (I : S → list A → Prop)
    (body : S → A → res S) :
  (∀ st seen x st', I st seen → body st x = Ok st' → I st' (seen ++ [x])) →
  ∀ xs st seen st',
    I st seen → for_each body st xs = Ok st' → I st' (seen ++ xs).
Proof.
  intros Hstep. induction xs as [|x xs IH]; intros st seen st' HI; simpl.
  - intros [= <-]. by rewrite app_nil_r.
  - intros (st1 & Hb & Hrest)%bind_ok.
    rewrite (assoc_L _ seen [x] xs : seen ++ x :: xs = (seen ++ [x]) ++ xs).
    eapply IH; [|done]. by eapply Hstep.
Qed.

(** Related states stay related through a loop whose body relates them. *)
Lemma for_each_rel {S A : Type} (R : S → S → Prop) (body : S → A → res S) :
  (∀ st st' x, R st st' → res_rel R (body st x) (body st' x)) →
  ∀ xs st st', R st st' → res_rel R (for_each body st xs) (for_each body st' xs).
Proof.
  intros Hstep. induction xs as [|x xs IH]; intros st st' HR; simpl.
  - by constructor.
  - destruct (Hstep st st' x HR) as [a b Hab|e]; simpl; [by apply IH|constructor].
Qed.

Lemma py_index_lookup {A : Type} (xs : list A) (i : nat) (x : A) :
  xs !! i = Some x → py_index xs i = Ok x.
Proof. unfold py_index. by intros ->. Qed.

(** ** The conversation flow *)

(** The loop computes [turns] and leaves by its condition: with [fuel]
    unrollings left out of [MAX_CONVERSATION_EXCHANGES], no subscript is out
    of range and the condition is false in the state returned. *)
Lemma flow_loop_turns (users assts : list string) (fuel : nat) (fs : flow_state) :
  (user_idx fs ≤ length users)%nat →
  (exchange_count fs + fuel = MAX_CONVERSATION_EXCHANGES)%nat →
  ∃ fs', flow_loop fuel users assts fs = Ok fs' ∧
    conversation_flow fs' =
      conversation_flow fs ++
      turns fuel (drop (user_idx fs) users) (drop (asst_idx fs) assts) ∧
    flow_cond users fs' = false.
Proof.
  revert fs. induction fuel as [|fuel IH]; intros fs Hu Hc.
  - exists fs. split; [done|]. split; [by rewrite app_nil_r|].
    unfold flow_cond.
    rewrite (bool_decide_eq_false_2 (exchange_count fs < _)%nat) by lia.
    by rewrite andb_false_r.
  - simpl. destruct (flow_cond users fs) eqn:Hcond.
    + unfold flow_cond in Hcond.
      apply andb_true_iff in Hcond as [Hi%bool_decide_eq_true _].
      destruct (lookup_lt_is_Some_2 users (user_idx fs) Hi) as [u Hlu].
      unfold flow_body. rewrite (py_index_lookup _ _ _ Hlu). simpl.
      rewrite (drop_S _ _ _ Hlu).
      case_bool_decide as Hj.
      * destruct (lookup_lt_is_Some_2 assts (asst_idx fs) Hj) as [a Hla].
        rewrite (py_index_lookup _ _ _ Hla). simpl.
        rewrite (drop_S _ _ _ Hla).
        edestruct (IH {| conversation_flow :=
                           (conversation_flow fs
                            ++ [{| role := "user"; text := u |}])
                           ++ [{| role := "assistant"; text := a |}];
                         user_idx := S (user_idx fs);
                         asst_idx := S (asst_idx fs);
                         exchange_count := S (exchange_count fs) |})
          as (fs' & -> & Hf & Hc'); simpl; [lia|lia|].
        exists fs'. split; [done|]. split; [|done].
        rewrite Hf. simpl. by rewrite <- !app_assoc.
      * simpl.
        edestruct (IH {| conversation_flow :=
                           conversation_flow fs
                           ++ [{| role := "user"; text := u |}];
                         user_idx := S (user_idx fs);
                         asst_idx := asst_idx fs;
                         exchange_count := S (exchange_count fs) |})
          as (fs' & -> & Hf & Hc'); simpl; [lia|lia|].
        exists fs'. split; [done|]. split; [|done].
        rewrite Hf. simpl. rewrite (drop_ge assts) by lia.
        by rewrite <- !app_assoc.
    + exists fs. split; [done|]. split; [|done].
      unfold flow_cond in Hcond.
      apply andb_false_iff in Hcond
        as [Hi%bool_decide_eq_false|Hi%bool_decide_eq_false].
      * rewrite drop_ge by lia. simpl. by rewrite app_nil_r.
      * unfold MAX_CONVERSATION_EXCHANGES in *. lia.
Qed.

(** [build_flow] returns, and what it returns is the interleaving. *)
Lemma build_flow_exits (users assts : list string) :
  ∃ fs, build_flow users assts = Ok fs ∧
    conversation_flow fs = turns MAX_CONVERSATION_EXCHANGES users assts ∧
    flow_cond users fs = false.
Proof.
  destruct (flow_loop_turns users assts MAX_CONVERSATION_EXCHANGES flow_init)
    as (fs & Hfs & Hflow & Hcond); simpl; [lia|done|].
  exists fs. by rewrite Hflow.
Qed.

Lemma turns_nil_assts (n : nat) (users : list string) :
  turns n users [] = user_turn <$> take n users.
Proof.
  revert users. induction n as [|n IH]; intros [|u users]; simpl; try done.
  by rewrite IH.
Qed.

Lemma turns_pairs (n : nat) (users assts : list string) :
  turns n users assts =
  pairs (take n users) assts
  ++ (user_turn <$> drop (length assts) (take n users)).
Proof.
  revert users assts.
  induction n as [|n IH]; intros [|u users] [|a assts]; simpl; try done.
  - by rewrite turns_nil_assts.
  - by rewrite IH.
Qed.

Lemma pairs_length (users assts : list string) :
  length (pairs users assts)
  = (2 * Nat.min (length users) (length assts))%nat.
Proof.
  revert assts.
  induction users as [|u users IH]; intros [|a assts]; simpl; try done.
  rewrite IH. lia.
Qed.

Lemma pairs_role (users assts : list string) (i : nat) (e : flow_entry) :
  pairs users assts !! i = Some e → role e = role_at i.
Proof.
  revert users assts. induction (lt_wf i) as [i _ IH].
  intros [|u users] [|a assts]; simpl; try done.
  destruct i as [|[|i]]; simpl.
  - by intros [= <-].
  - by intros [= <-].
  - intros Hl. apply (IH i) in Hl; [|lia]. by rewrite Hl.
Qed.

Lemma count_role_app (r : string) (l1 l2 : list flow_entry) :
  count_role r (l1 ++ l2) = (count_role r l1 + count_role r l2)%nat.
Proof. unfold count_role. by rewrite filter_app, length_app. Qed.

Lemma pairs_count_user (users assts : list string) :
  count_role "user" (pairs users assts)
  = Nat.min (length users) (length assts).
Proof.
  revert assts.
  induction users as [|u users IH]; intros [|a assts]; simpl; try done.
  unfold count_role in *.
  rewrite filter_cons_True by done. rewrite filter_cons_False by done.
  simpl. by rewrite IH.
Qed.

Lemma pairs_count_assistant (users assts : list string) :
  count_role "assistant" (pairs users assts)
  = Nat.min (length users) (length assts).
Proof.
  revert assts.
  induction users as [|u users IH]; intros [|a assts]; simpl; try done.
  unfold count_role in *.
  rewrite filter_cons_False by done. rewrite filter_cons_True by done.
  simpl. by rewrite IH.
Qed.

Lemma users_count_user (us : list string) :
  count_role "user" (user_turn <$> us) = length us.
Proof.
  induction us as [|u us IH]; [done|]. unfold count_role in *.
  rewrite fmap_cons, filter_cons_True by done. simpl. by rewrite IH.
Qed.

Lemma users_count_assistant (us : list string) :
  count_role "assistant" (user_turn <$> us) = 0%nat.
Proof.
  induction us as [|u us IH]; [done|]. unfold count_role in *.
  by rewrite fmap_cons, filter_cons_False by done.
Qed.

Lemma turns_shape (n : nat) (users assts : list string) :
  flow_shape (Nat.min n (length users))
             (Nat.min (Nat.min n (length users)) (length assts))
             (turns n users assts).
Proof.
  rewrite turns_pairs.
  assert (Hlp := pairs_length (take n users) assts).
  rewrite length_take in Hlp.
  split.
  - rewrite length_app, Hlp, length_fmap, length_drop, length_take. lia.
  - intros i e Hi. rewrite lookup_app_l by lia. apply pairs_role.
  - intros i e Hi. rewrite lookup_app_r by lia.
    rewrite list_lookup_fmap. destruct (_ !! _); [|done]. by intros [= <-].
  - rewrite count_role_app, pairs_count_user, users_count_user,
      length_drop, length_take. lia.
  - rewrite count_role_app, pairs_count_assistant, users_count_assistant,
      length_take. lia.
Qed.

(** ** What [process_session] returns *)

Section Session_facts.
Context `{PyRuntime}.

(** The summary is built from the state the scan ends in. *)
Lemma process_session_inv (w : world) (path : string) (sm : summary)
    (skipped : Z) :
  process_session w path = Ok (sm, skipped) →
  ∃ lines st,
    session_files w !! path = Some lines ∧
    scan_lines lines = Ok st ∧
    skipped = lines_skipped st ∧
    sm_conversation_flow sm
      = turns MAX_CONVERSATION_EXCHANGES (user_messages st) (assistant_texts st) ∧
    st_user_messages (sm_stats sm) = length (user_messages st) ∧
    st_assistant_responses (sm_stats sm) = length (assistant_texts st) ∧
    sm_tool_usage sm = most_common (tool_usage st) ∧
    sm_tool_details sm = tool_details st ∧
    sm_files_touched sm
      = take MAX_FILES_TOUCHED
             (merge_sort String.le (elements (files_touched st))).
Proof.
  unfold process_session. intros Hp.
  destruct (session_files w !! path) as [lines|]; [|done]. simpl in Hp.
  apply bind_ok in Hp as (st & Hscan & Hp).
  destruct (build_flow_exits (user_messages st) (assistant_texts st))
    as (fs & Hfs & Hflow & _).
  rewrite Hfs in Hp. simpl in Hp.
  apply bind_ok in Hp as (t0 & _ & Hp).
  apply bind_ok in Hp as (t1 & _ & Hp).
  apply bind_ok in Hp as (models & _ & Hp).
  injection Hp as <- <-. simpl.
  exists lines, st. by rewrite Hflow.
Qed.

(** C1 (as amended).  The conversation flow of every summary is the
    interleaving of the two text streams, cut after 40 exchanges: with [u]
    user messages and [a] assistant texts it has [min 40 u] user turns and
    [min (min 40 u) a] assistant turns, hence at most 40 pairs and 80
    entries; it starts with a user turn and alternates for as long as an
    assistant text remains, after which each user turn stands alone; so it
    alternates strictly whenever the assistant texts do not run out first,
    and 50 user messages with 45 assistant texts give exactly 40 turns of
    each role. *)
Theorem conversation_flow_shape (w : world) (path : string) (sm : summary)
    (skipped : Z) :
  process_session w path = Ok (sm, skipped) →
  let flow := sm_conversation_flow sm in
  let u := st_user_messages (sm_stats sm) in
  let a := st_assistant_responses (sm_stats sm) in
  let n_user := Nat.min MAX_CONVERSATION_EXCHANGES u in
  let n_asst := Nat.min n_user a in
  (∃ users assts, length users = u ∧ length assts = a ∧
     flow = turns MAX_CONVERSATION_EXCHANGES users assts) ∧
  (n_asst ≤ 40)%nat ∧ (length flow ≤ 80)%nat ∧
  flow_shape n_user n_asst flow ∧
  (n_user ≤ a → strictly_alternates flow)%nat ∧
  (u = 50%nat → a = 45%nat →
   count_role "user" flow = 40%nat ∧ count_role "assistant" flow = 40%nat).
Proof.
  intros Hp.
  apply process_session_inv in Hp
    as (lines & st & _ & _ & _ & Hflow & Hu & Ha & _).
  cbv zeta. rewrite Hflow, Hu, Ha.
  assert (Hshape := turns_shape MAX_CONVERSATION_EXCHANGES
                      (user_messages st) (assistant_texts st)).
  split; [by eauto|].
  split; [unfold MAX_CONVERSATION_EXCHANGES; lia|].
  split; [rewrite (shape_length _ _ _ Hshape);
          unfold MAX_CONVERSATION_EXCHANGES; lia|].
  split; [done|].
  split.
  - intros Hle i e Hi.
    apply (shape_pairs _ _ _ Hshape); [|done].
    apply lookup_lt_Some in Hi. rewrite (shape_length _ _ _ Hshape) in Hi. lia.
  - intros Hu50 Ha45.
    rewrite (shape_users _ _ _ Hshape), (shape_assts _ _ _ Hshape), Hu50, Ha45.
    done.
Qed.

End Session_facts.


(** ** Counters *)

Lemma counter_get_add (c : counter) (k k' : pykey) (n : Z) :
  counter_get (counter_add c k n) k'
  = if decide (k = k') then counter_get c k' + n else counter_get c k'.
Proof.
  induction c as [|[k0 m] c IH]; simpl.
  - repeat case_decide; simplify_eq; done.
  - repeat (case_decide; simplify_eq; simpl); try done.
Qed.

Lemma counter_add_keys (c : counter) (k : pykey) (n : Z) :
  (counter_add c k n).*1 = if decide (k ∈ c.*1) then c.*1 else c.*1 ++ [k].
Proof.
  induction c as [|[k0 m] c IH]; csimpl.
  - destruct (decide (k ∈ @nil pykey)) as [Hin|_];
      [by apply elem_of_nil in Hin|done].
  - destruct (decide (k0 = k)) as [->|Hne]; csimpl.
    + rewrite decide_True by left. done.
    + rewrite IH. destruct (decide (k ∈ c.*1)) as [Hin|Hnin].
      * rewrite decide_True by (by right). done.
      * rewrite decide_False; [done|]. intros [->|?]%elem_of_cons; done.
Qed.

Lemma counter_add_NoDup (c : counter) (k : pykey) (n : Z) :
  NoDup c.*1 → NoDup (counter_add c k n).*1.
Proof.
  intros Hnd. rewrite counter_add_keys. case_decide as Hin; [done|].
  apply NoDup_app. split; [done|]. split; [|apply NoDup_singleton].
  intros x Hx Heq%list_elem_of_singleton. by subst x.
Qed.

Lemma counter_get_not_in (c : counter) (k : pykey) :
  k ∉ c.*1 → counter_get c k = 0.
Proof.
  induction c as [|[k0 m] c IH]; csimpl; [done|].
  intros Hnin. apply not_elem_of_cons in Hnin as [Hne Hnin].
  rewrite decide_False by done. by apply IH.
Qed.

Lemma counter_get_elem (c : counter) (k : pykey) (n : Z) :
  NoDup c.*1 → (k, n) ∈ c → counter_get c k = n.
Proof.
  induction c as [|[k0 m] c IH]; csimpl.
  - by intros _ ?%elem_of_nil.
  - intros [Hnin Hnd]%NoDup_cons [[= <- <-]|Hin]%elem_of_cons.
    + by rewrite decide_True.
    + rewrite decide_False; [by apply IH|].
      intros ->. apply Hnin. by apply (list_elem_of_fmap_2 fst) in Hin.
Qed.

(** A counter read by key does not depend on the order of its items. *)
Lemma counter_get_perm (c c' : counter) (k : pykey) :
  NoDup c.*1 → c ≡ₚ c' → counter_get c k = counter_get c' k.
Proof.
  intros Hnd Hperm.
  assert (NoDup c'.*1) as Hnd' by (by rewrite <- Hperm).
  destruct (decide (k ∈ c.*1)) as [Hin|Hnin].
  - apply list_elem_of_fmap in Hin as ([k0 n] & -> & Hin). simpl.
    rewrite (counter_get_elem c k0 n Hnd Hin).
    symmetry. apply counter_get_elem; [done|]. by rewrite <- Hperm.
  - rewrite (counter_get_not_in c k Hnin).
    symmetry. apply counter_get_not_in. by rewrite <- Hperm.
Qed.

Lemma insert_by_count_perm (x : pykey * Z) (c : counter) :
  insert_by_count x c ≡ₚ x :: c.
Proof.
  induction c as [|y c IH]; simpl; [done|].
  case_decide; [done|]. rewrite IH. apply Permutation_swap.
Qed.

Lemma most_common_perm (c : counter) : most_common c ≡ₚ c.
Proof.
  unfold most_common. induction c as [|x c IH]; simpl; [done|].
  by rewrite insert_by_count_perm, IH.
Qed.

Lemma most_common_get (c : counter) (k : pykey) :
  NoDup c.*1 → counter_get (most_common c) k = counter_get c k.
Proof.
  intros Hnd. symmetry. apply counter_get_perm; [done|].
  by rewrite most_common_perm.
Qed.

Section Scan_facts.
Context `{PyRuntime}.

(** *** One tool call *)

Lemma tool_step_spec (st st' : scan_state) (t : tool_info) :
  tool_step st t = Ok st' →
  ∃ k, py_hash (tool_name t) = Ok k ∧
    tool_usage st' = counter_add (tool_usage st) k 1 ∧
    files_touched st' =
      (let target := tool_get (tool_fields t) "target" in
       if negb (bool_decide (target = "")) && py_contains "/" target
       then {[target]} ∪ files_touched st else files_touched st) ∧
    tool_details st' =
      (if bool_decide (length (tool_details st) < MAX_TOOL_DETAILS)%nat
       then tool_details st ++ [t] else tool_details st) ∧
    user_messages st' = user_messages st ∧
    assistant_texts st' = assistant_texts st.
Proof.
  unfold tool_step. intros (k & Hk & Hst)%bind_ok. exists k. split; [done|].
  injection Hst as <-. simpl.
  destruct (negb _ && _); simpl; case_bool_decide; simpl; done.
Qed.

Lemma tool_step_inv (st st' : scan_state) (tools : list tool_info)
    (t : tool_info) :
  tools_inv st tools → tool_step st t = Ok st' → tools_inv st' (tools ++ [t]).
Proof.
  intros [Husage Hkeys Hdetails Hfiles]
    (k & Hk & Hu & Hf & Hd & _ & _)%tool_step_spec.
  split.
  - intros k'. rewrite Hu, counter_get_add, Husage, filter_app, length_app.
    destruct (decide (k = k')) as [<-|Hne].
    + rewrite filter_cons_True by done. simpl. lia.
    + rewrite filter_cons_False by congruence. simpl. lia.
  - rewrite Hu. by apply counter_add_NoDup.
  - rewrite Hd, Hdetails. rewrite length_take.
    unfold MAX_TOOL_DETAILS.
    destruct (decide (length tools < 30)%nat) as [Hlt|Hge].
    + rewrite bool_decide_eq_true_2 by lia. rewrite take_ge by lia.
      rewrite take_ge by (rewrite length_app; simpl; lia). done.
    + rewrite bool_decide_eq_false_2 by lia. rewrite take_app_le by lia. done.
  - intros f. rewrite Hf. cbv zeta.
    destruct (negb _ && _) eqn:Hgate.
    + apply andb_true_iff in Hgate as [Hne%negb_true_iff%bool_decide_eq_false Hc].
      rewrite elem_of_union, elem_of_singleton, Hfiles. split.
      * intros [->|(t' & Hin & Ht' & ? & ?)].
        -- exists t. split; [apply elem_of_app; right; by left|done].
        -- exists t'. split; [apply elem_of_app; by left|done].
      * intros (t' & [Hin|Heq%list_elem_of_singleton]%elem_of_app & Ht' & ? & ?).
        -- right. by exists t'.
        -- left. by subst t'.
    + rewrite Hfiles. split.
      * intros (t' & Hin & ?). exists t'. split; [apply elem_of_app; by left|done].
      * intros (t' & [Hin|Heq%list_elem_of_singleton]%elem_of_app & Ht' & Hne & Hc).
        -- by exists t'.
        -- subst t'. rewrite Ht', Hc, andb_true_r in Hgate.
           apply negb_false_iff, bool_decide_eq_true in Hgate. done.
Qed.

Lemma tool_steps_inv (tools0 ts : list tool_info) (st st' : scan_state) :
  tools_inv st tools0 → for_each tool_step st ts = Ok st' →
  tools_inv st' (tools0 ++ ts)
  ∧ user_messages st' = user_messages st
  ∧ assistant_texts st' = assistant_texts st.
Proof.
  intros Hinv Hrun.
  pose proof (for_each_invariant
    (λ s seen, tools_inv s (tools0 ++ seen)
               ∧ user_messages s = user_messages st
               ∧ assistant_texts s = assistant_texts st) tool_step) as Hloop.
  apply (Hloop) with (xs := ts) (st := st) (seen := []) (st' := st') in Hrun.
  - done.
  - intros s seen x s' (Hi & Hum & Hat) Hstep. rewrite app_assoc.
    split; [by eapply tool_step_inv|].
    apply tool_step_spec in Hstep as (_ & _ & _ & _ & _ & -> & ->). done.
  - by rewrite app_nil_r.
Qed.

(** *** Extraction *)

Lemma py_get_field (d : json) (k : string) (dflt v : json) :
  py_get d k dflt = Ok v → v = field d k dflt ∧ ∃ items, d = JObj items.
Proof. destruct d; simpl; intros [= <-]. eauto. Qed.

Lemma py_eq_str_true (v : json) (s : string) :
  py_eq_str v s = true → v = JStr s.
Proof. destruct v; simpl; try done. by intros ->%bool_decide_eq_true. Qed.

Lemma tool_call_step_spec (acc acc' : list tool_info) (block : json) :
  tool_call_step acc block = Ok acc' →
  (is_tool_use block = false ∧ acc' = acc)
  ∨ (is_tool_use block = true ∧ ∃ t, extracted block t ∧ acc' = acc ++ [t]).
Proof.
  unfold extracted, tool_call_step, is_tool_use, field.
  destruct block as [| | | | |items]; try (intros [= <-]; by left).
  destruct (py_eq_str _ "tool_use"); [|intros [= <-]; by left].
  intros (fields & Hf & [= <-])%bind_ok. right. split; [done|].
  rewrite Hf. simpl. eauto.
Qed.

Lemma tool_call_steps_spec (blocks : list json) (acc acc' : list tool_info) :
  for_each tool_call_step acc blocks = Ok acc' →
  ∃ ts, acc' = acc ++ ts ∧ Forall2 extracted (filter is_tool_use blocks) ts.
Proof.
  revert acc. induction blocks as [|b blocks IH]; intros acc; simpl.
  - intros [= <-]. exists []. by rewrite app_nil_r.
  - intros (acc1 & Hstep & Hrest)%bind_ok.
    apply IH in Hrest as (ts & -> & Hts).
    apply tool_call_step_spec in Hstep
      as [[Hno ->]|[Hyes (t & Ht & ->)]].
    + exists ts. rewrite filter_cons_False by (by apply Is_true_false). done.
    + exists (t :: ts). rewrite filter_cons_True by (by apply Is_true_true).
      rewrite <- app_assoc. split; [done|]. by constructor.
Qed.

Lemma extract_tool_calls_spec (content : json) (ts : list tool_info) :
  extract_tool_calls content = Ok ts →
  Forall2 extracted (filter is_tool_use (content_blocks content)) ts.
Proof.
  unfold extract_tool_calls, content_blocks.
  destruct content; try (intros [= <-]; constructor).
  intros (ts' & -> & Hts)%tool_call_steps_spec. done.
Qed.

Lemma block_texts_capped (block : json) :
  Forall capped_part (block_texts MAX_TEXT_PER_MESSAGE block).
Proof.
  unfold block_texts, MAX_TEXT_PER_MESSAGE.
  destruct block as [| | |s| |items]; try by constructor.
  - repeat constructor.
  - destruct (py_eq_str _ "text"); [repeat constructor|].
    destruct (py_eq_str _ "thinking"); [|constructor].
    case_bool_decide; repeat constructor.
Qed.

Lemma extract_text_capped (content : json) :
  capped_text (extract_text_from_content content MAX_TEXT_PER_MESSAGE).
Proof.
  unfold extract_text_from_content.
  destruct content as [| | |s|blocks|]; try (apply capped_blocks; constructor).
  - apply capped_plain.
  - apply capped_blocks.
    assert (∀ acc, Forall capped_part acc →
              Forall capped_part
                (foldl (λ texts block,
                          texts ++ block_texts MAX_TEXT_PER_MESSAGE block)
                       acc blocks)) as Hfold.
    { induction blocks as [|b blocks IH]; intros acc Hacc; simpl; [done|].
      apply IH, Forall_app. split; [done|apply block_texts_capped]. }
    apply Hfold. constructor.
Qed.

(** *** One line *)

Lemma tools_inv_frame (st st' : scan_state) (tools : list tool_info) :
  tool_usage st' = tool_usage st →
  tool_details st' = tool_details st →
  files_touched st' = files_touched st →
  tools_inv st tools → tools_inv st' tools.
Proof.
  intros Hu Hd Hf [Husage Hkeys Hdetails Hfiles].
  split; rewrite ?Hu, ?Hd, ?Hf; done.
Qed.

Lemma on_summary_inv (obj : json) (st st' : scan_state) :
  on_summary obj st = Ok st' →
  tool_usage st' = tool_usage st ∧ tool_details st' = tool_details st
  ∧ files_touched st' = files_touched st
  ∧ (texts_inv st → texts_inv st').
Proof.
  unfold on_summary. intros (txt & _ & [= <-])%bind_ok.
  destruct (py_truthy txt); simpl; split_and!; try done.
  intros [Hu Ha]. split; simpl; [done|].
  apply Forall_app. split; [done|]. repeat constructor.
Qed.

Lemma on_user_inv (obj : json) (st st' : scan_state) :
  on_user obj st = Ok st' →
  tool_usage st' = tool_usage st ∧ tool_details st' = tool_details st
  ∧ files_touched st' = files_touched st
  ∧ (texts_inv st → texts_inv st').
Proof.
  unfold on_user. intros (msg & _ & (content & _ & [= <-])%bind_ok)%bind_ok.
  destruct (negb _); simpl; split_and!; try done.
  intros [Hu Ha]. split; simpl; [|done].
  apply Forall_app. split; [done|].
  repeat constructor. apply extract_text_capped.
Qed.

Lemma on_assistant_inv (obj : json) (st st' : scan_state)
    (tools : list tool_info) :
  on_assistant obj st = Ok st' → tools_inv st tools →
  ∃ ts,
    Forall2 extracted
      (filter is_tool_use
         (content_blocks
            (field (field obj "message" (JObj [])) "content" (JArr [])))) ts
    ∧ tools_inv st' (tools ++ ts)
    ∧ (texts_inv st → texts_inv st').
Proof.
  unfold on_assistant. intros Hrun Hinv.
  apply bind_ok in Hrun as (msg & [-> _]%py_get_field & Hrun).
  apply bind_ok in Hrun as (content & [-> _]%py_get_field & Hrun).
  apply bind_ok in Hrun as (model & _ & Hrun).
  apply bind_ok in Hrun as (st1 & Hst1 & Hrun).
  apply bind_ok in Hrun as (usage & _ & Hrun).
  apply bind_ok in Hrun as (i & _ & Hrun).
  apply bind_ok in Hrun as (ti & _ & Hrun).
  apply bind_ok in Hrun as (o & _ & Hrun).
  apply bind_ok in Hrun as (to & _ & Hrun).
  apply bind_ok in Hrun as (ts & Hts%extract_tool_calls_spec & Hrun).
  assert (tool_usage st1 = tool_usage st ∧ tool_details st1 = tool_details st
          ∧ files_touched st1 = files_touched st
          ∧ user_messages st1 = user_messages st
          ∧ assistant_texts st1 = assistant_texts st)
    as (Hu1 & Hd1 & Hf1 & Hum1 & Hat1).
  { destruct (py_truthy model); [|by injection Hst1 as <-].
    apply bind_ok in Hst1 as (k & _ & [= <-]). done. }
  exists ts. split; [done|].
  apply tool_steps_inv with (tools0 := tools) in Hrun as (Hinv' & Hum & Hat).
  - split; [done|]. intros [Husers Hassts]. split.
    + rewrite Hum. destruct (negb _); simpl; by rewrite Hum1.
    + rewrite Hat. destruct (negb _); simpl; rewrite Hat1; [|done].
      apply Forall_app. split; [done|].
      repeat constructor. apply extract_text_capped.
  - apply (tools_inv_frame st); [..|done];
      destruct (negb _); simpl; done.
Qed.

Lemma process_record_inv (obj : json) (st st' : scan_state)
    (tools : list tool_info) :
  process_record obj st = Ok st' → tools_inv st tools →
  ∃ ts,
    Forall2 extracted (filter is_tool_use (event_blocks obj)) ts
    ∧ tools_inv st' (tools ++ ts)
    ∧ (texts_inv st → texts_inv st').
Proof.
  unfold process_record, event_blocks. intros Hrun Hinv.
  apply bind_ok in Hrun as (msg_type & [-> _]%py_get_field & Hrun).
  apply bind_ok in Hrun as (timestamp & _ & Hrun).
  apply bind_ok in Hrun as (branch & _ & Hrun).
  match type of Hrun with
  | context [on_summary obj ?s] => set (st0 := s) in *
  end.
  assert (tool_usage st0 = tool_usage st ∧ tool_details st0 = tool_details st
          ∧ files_touched st0 = files_touched st
          ∧ user_messages st0 = user_messages st
          ∧ assistant_texts st0 = assistant_texts st)
    as (Hu0 & Hd0 & Hf0 & Hum0 & Hat0).
  { subst st0. destruct (negb _ && _); destruct (py_truthy timestamp);
      simpl; done. }
  assert (tools_inv st0 tools) as Hinv0 by by apply (tools_inv_frame st).
  assert (texts_inv st → texts_inv st0) as Htexts0.
  { unfold texts_inv. by rewrite Hum0, Hat0. }
  clearbody st0.
  destruct (py_eq_str _ "summary") eqn:Hsum.
  { apply py_eq_str_true in Hsum as ->. simpl.
    apply on_summary_inv in Hrun as (Hu & Hd & Hf & Ht).
    exists []. rewrite app_nil_r. split; [constructor|].
    split; [by apply (tools_inv_frame st0)|auto]. }
  destruct (py_eq_str _ "user") eqn:Huser.
  { apply py_eq_str_true in Huser as ->. simpl.
    apply on_user_inv in Hrun as (Hu & Hd & Hf & Ht).
    exists []. rewrite app_nil_r. split; [constructor|].
    split; [by apply (tools_inv_frame st0)|auto]. }
  destruct (py_eq_str _ "assistant") eqn:Hasst.
  { apply on_assistant_inv with (tools := tools) in Hrun
      as (ts & Hts & Hinv' & Ht); [|done].
    exists ts. auto. }
  injection Hrun as <-.
  exists []. rewrite app_nil_r. split; [constructor|]. auto.
Qed.

Lemma process_line_inv (line : string) (st st' : scan_state)
    (tools : list tool_info) :
  process_line st line = Ok st' → tools_inv st tools →
  ∃ ts,
    Forall2 extracted
      (filter is_tool_use (from_option event_blocks [] (line_record line))) ts
    ∧ tools_inv st' (tools ++ ts)
    ∧ (texts_inv st → texts_inv st').
Proof.
  unfold process_line, line_record. intros Hrun Hinv.
  case_bool_decide.
  { injection Hrun as <-. exists []. rewrite app_nil_r.
    split; [constructor|]. auto. }
  destruct (json_loads _) as [obj|]; simpl.
  - by apply process_record_inv.
  - injection Hrun as <-. exists []. rewrite app_nil_r.
    split; [constructor|].
    split; [by apply (tools_inv_frame st)|]. by destruct 1.
Qed.

Lemma tools_inv_init : tools_inv scan_init [].
Proof.
  split; simpl; try done.
  - constructor.
  - intros f. split; [by intros ?%not_elem_of_empty|].
    by intros (t & ?%elem_of_nil & _).
Qed.

(** The scan knows every tool call of the session. *)
Lemma scan_lines_inv (lines : list string) (st : scan_state) :
  scan_lines lines = Ok st →
  ∃ tools,
    Forall2 extracted (session_invocations lines) tools
    ∧ tools_inv st tools ∧ texts_inv st.
Proof.
  unfold scan_lines, session_invocations.
  assert (∀ st0 tools0,
    tools_inv st0 tools0 → texts_inv st0 →
    for_each process_line st0 lines = Ok st →
    ∃ ts, Forall2 extracted
            (filter is_tool_use
               (lines ≫= λ line,
                  from_option event_blocks [] (line_record line))) ts
          ∧ tools_inv st (tools0 ++ ts) ∧ texts_inv st) as Hgen.
  { induction lines as [|line lines IH]; intros st0 tools0 Hinv Htexts; simpl.
    - intros [= <-]. exists []. rewrite app_nil_r.
      split_and!; [constructor|done|done].
    - intros (st1 & Hline & Hrest)%bind_ok.
      apply process_line_inv with (tools := tools0) in Hline
        as (ts1 & Hts1 & Hinv1 & Htexts1); [|done].
      apply IH with (tools0 := tools0 ++ ts1) in Hrest
        as (ts2 & Hts2 & Hinv2 & Htexts2); [|done|auto].
      exists (ts1 ++ ts2). rewrite filter_app, app_assoc.
      split; [by apply Forall2_app|done]. }
  intros Hrun.
  apply (Hgen scan_init []) in Hrun as (ts & Hts & Hinv & Htexts);
    [eauto|apply tools_inv_init|by split].
Qed.

End Scan_facts.

(** ** Tool records *)

(** Case analysis on a tool name: each of the given names, then the rest. *)
Ltac tool_name_cases s names :=
  lazymatch names with
  | @nil _ => idtac
  | @cons _ ?n ?rest =>
      destruct (decide (s = n)) as [->|?]; [|tool_name_cases s rest]
  end.

(** The names [extract_tool_calls] knows. *)
Ltac known_tool_cases s :=
  tool_name_cases s
    ["Read"; "Glob"; "Grep"; "Edit"; "Write"; "Bash"; "WebSearch";
     "WebFetch"; "Task"; "TaskCreate"; "TaskUpdate"];
  simpl; rewrite ?bool_decide_eq_false_2 by done; simpl.

(** The result of a chain of [py_get]s that ends in [Ok]. *)
Ltac binds_ok :=
  repeat (let Hb := fresh in intros (? & ? & Hb)%bind_ok; revert Hb);
  intros [= <-].

Section Tool_facts.
Context `{PyRuntime}.

Lemma extracted_inv (block : json) (t : tool_info) :
  extracted block t →
  is_tool_use block = true
  ∧ tool_name t = invocation_name block
  ∧ tool_detail_fields (invocation_name block)
      (field block "input" (JObj [])) = Ok (tool_fields t).
Proof.
  unfold extracted, tool_call_step, is_tool_use, invocation_name, field.
  destruct block as [| | | | |items]; try done.
  destruct (py_eq_str _ "tool_use"); [|done].
  intros (fields & Hf & [= <-])%bind_ok. done.
Qed.

(** Only the five file tools record a target. *)
Lemma tool_detail_fields_target (name inp : json)
    (fields : list (string * string)) :
  tool_detail_fields name inp = Ok fields →
  (py_in_strs name five_file_tools = true
   ∧ ∃ v, fields = [("target", py_slice MAX_TOOL_RESULT_CHARS v)])
  ∨ (py_in_strs name five_file_tools = false
     ∧ ("target" ∉ fields.*1) ∧ tool_get fields "target" = "").
Proof.
  unfold tool_detail_fields, five_file_tools.
  destruct name as [| | |s| |]; simpl;
    try (intros [= <-]; right; split_and!; [done|apply not_elem_of_nil|done]).
  known_tool_cases s; binds_ok;
    first [ left; split; [done|]; by eexists
          | right; split_and!; [done|set_solver|done] ].
Qed.

(** Every detail string but the sub-type label is capped. *)
Lemma tool_detail_fields_capped (name inp : json)
    (fields : list (string * string)) (k v : string) :
  tool_detail_fields name inp = Ok fields → (k, v) ∈ fields →
  k ≠ "subagent_type" →
  (String.length v ≤ MAX_TOOL_RESULT_CHARS)%nat
  ∧ (k = "description" → String.length v ≤ 100)%nat.
Proof.
  unfold tool_detail_fields, MAX_TOOL_RESULT_CHARS.
  destruct name as [| | |s| |]; simpl;
    try (intros [= <-]; by intros ?%elem_of_nil).
  known_tool_cases s; binds_ok; intros Hin Hk;
    repeat (apply elem_of_cons in Hin as [[= -> ->]|Hin]);
    try (by apply elem_of_nil in Hin); try done;
    (split; [|try done]);
    try (etrans; [apply py_slice_length|lia]);
    try (intros _; apply py_slice_length).
Qed.

(** C3, the part of the property that the code keeps.  In every record of
    the detail list of a summary, every string but the sub-type label of a
    task spawn has at most 200 characters, and the description of a task
    spawn at most 100.  The sub-type label is stored whole. *)
Theorem tool_details_capped_but_subagent_type (w : world) (path : string)
    (sm : summary) (skipped : Z) (t : tool_info) (k v : string) :
  process_session w path = Ok (sm, skipped) →
  t ∈ sm_tool_details sm → (k, v) ∈ tool_fields t →
  k ≠ "subagent_type" →
  (String.length v ≤ MAX_TOOL_RESULT_CHARS)%nat
  ∧ (k = "description" → String.length v ≤ 100)%nat.
Proof.
  intros Hrun Ht Hkv Hk.
  apply process_session_inv in Hrun
    as (lines & st & _ & Hscan & _ & _ & _ & _ & _ & Hdetails & _).
  apply scan_lines_inv in Hscan as (tools & Htools & Hinv & _).
  rewrite Hdetails, (inv_details _ _ Hinv) in Ht.
  apply (subseteq_take MAX_TOOL_DETAILS tools) in Ht.
  apply list_elem_of_lookup in Ht as [i Hi].
  destruct (Forall2_lookup_r _ _ _ _ _ Htools Hi) as (block & _ & Hbt).
  apply extracted_inv in Hbt as (_ & _ & Hfields).
  exact (tool_detail_fields_capped _ _ _ k v Hfields Hkv Hk).
Qed.

Lemma extracted_count (k : pykey) (blocks : list json)
    (tools : list tool_info) :
  Forall2 extracted blocks tools →
  length (filter (λ t, py_hash (tool_name t) = Ok k) tools)
  = length (filter (λ b, py_hash (invocation_name b) = Ok k) blocks).
Proof.
  induction 1 as [|b t blocks tools Hbt _ IH]; [done|].
  apply extracted_inv in Hbt as (_ & Hname & _).
  destruct (decide (py_hash (invocation_name b) = Ok k)) as [Hk|Hk].
  - rewrite !filter_cons_True by (by rewrite ?Hname). simpl. by rewrite IH.
  - rewrite !filter_cons_False by (by rewrite ?Hname). done.
Qed.

(** C7.  The tool-usage table of every summary gives, for each tool name,
    the exact number of its invocations in the whole session: the table has
    one entry per name, an entry holds that number, a name without entry has
    no invocation.  The detail list keeps the first 30 invocations only. *)
Theorem tool_usage_exact (w : world) (path : string) (lines : list string)
    (sm : summary) (skipped : Z) :
  session_files w !! path = Some lines →
  process_session w path = Ok (sm, skipped) →
  (∀ k, counter_get (sm_tool_usage sm) k = Z.of_nat (invocations_of k lines))
  ∧ NoDup (sm_tool_usage sm).*1
  ∧ (∀ k n, (k, n) ∈ sm_tool_usage sm → n = Z.of_nat (invocations_of k lines))
  ∧ length (sm_tool_details sm)
    = Nat.min MAX_TOOL_DETAILS (length (session_invocations lines)).
Proof.
  intros Hlines Hrun.
  apply process_session_inv in Hrun
    as (lines' & st & Hlines' & Hscan & _ & _ & _ & _ & Husage & Hdetails & _).
  assert (lines' = lines) as -> by congruence.
  apply scan_lines_inv in Hscan as (tools & Htools & Hinv & _).
  destruct Hinv as [Hget Hkeys Hdet _].
  assert (∀ k, counter_get (sm_tool_usage sm) k
               = Z.of_nat (invocations_of k lines)) as Hcount.
  { intros k. rewrite Husage, most_common_get, Hget by done.
    unfold invocations_of. by rewrite (extracted_count k _ _ Htools). }
  assert (NoDup (sm_tool_usage sm).*1) as Hnd.
  { by rewrite Husage, most_common_perm. }
  split_and!; [done|done| |].
  - intros k n Hin. rewrite <- Hcount. symmetry. by apply counter_get_elem.
  - rewrite Hdetails, Hdet, length_take.
    apply Forall2_length in Htools. lia.
Qed.

Lemma StronglySorted_take {A : Type} (R : relation A) (n : nat) (l : list A) :
  StronglySorted R l → StronglySorted R (take n l).
Proof.
  intros Hl. revert n. induction Hl as [|x l Hl IH Hx]; intros [|n]; simpl;
    try constructor; [apply IH|by apply Forall_take].
Qed.

(** C8.  The files-touched list of every summary has no duplicate, is
    sorted in the lexicographic order of strings, holds only entries that
    contain a path separator, and has at most 30 entries: it is the first
    30 elements of the sorted set of qualifying targets. *)
Theorem files_touched_sorted_capped (w : world) (path : string)
    (sm : summary) (skipped : Z) :
  process_session w path = Ok (sm, skipped) →
  NoDup (sm_files_touched sm)
  ∧ StronglySorted String.le (sm_files_touched sm)
  ∧ Forall (λ f, py_contains "/" f = true) (sm_files_touched sm)
  ∧ (length (sm_files_touched sm) ≤ MAX_FILES_TOUCHED)%nat
  ∧ ∃ files : gset string,
      sm_files_touched sm
      = take MAX_FILES_TOUCHED (merge_sort String.le (elements files)).
Proof.
  intros Hrun.
  apply process_session_inv in Hrun
    as (lines & st & _ & Hscan & _ & _ & _ & _ & _ & _ & Hfiles).
  apply scan_lines_inv in Hscan as (tools & _ & Hinv & _).
  rewrite Hfiles. split_and!.
  - eapply sublist_NoDup; [|apply sublist_take].
    rewrite merge_sort_Permutation. apply NoDup_elements.
  - apply StronglySorted_take, (StronglySorted_merge_sort _).
  - apply Forall_take, Forall_forall. intros f Hf.
    rewrite merge_sort_Permutation in Hf. apply elem_of_elements in Hf.
    apply (inv_files _ _ Hinv) in Hf as (t & _ & _ & _ & Hc). done.
  - rewrite length_take. lia.
  - by exists (files_touched st).
Qed.

(** C10.  Every entry of the files-touched list of a summary is the target
    recorded for a Read, Glob, Grep, Edit or Write invocation of the
    session; the record of an invocation of any other tool (Bash, WebSearch,
    WebFetch, Task, ...) has no target, so nothing of it enters the list. *)
Theorem files_touched_provenance (w : world) (path : string)
    (lines : list string) (sm : summary) (skipped : Z) :
  session_files w !! path = Some lines →
  process_session w path = Ok (sm, skipped) →
  (∀ f, f ∈ sm_files_touched sm →
     ∃ block t,
       block ∈ session_invocations lines ∧ extracted block t
       ∧ py_in_strs (invocation_name block) five_file_tools = true
       ∧ tool_fields t = [("target", f)])
  ∧ (∀ block t,
       block ∈ session_invocations lines → extracted block t →
       py_in_strs (invocation_name block) five_file_tools = false →
       ("target" ∉ (tool_fields t).*1)
       ∧ tool_get (tool_fields t) "target" = "").
Proof.
  intros Hlines Hrun.
  apply process_session_inv in Hrun
    as (lines' & st & Hlines' & Hscan & _ & _ & _ & _ & _ & _ & Hfiles).
  assert (lines' = lines) as -> by congruence.
  apply scan_lines_inv in Hscan as (tools & Htools & Hinv & _).
  split.
  - intros f Hf. rewrite Hfiles in Hf.
    apply subseteq_take in Hf. rewrite merge_sort_Permutation in Hf.
    apply elem_of_elements, (inv_files _ _ Hinv) in Hf
      as (t & Ht & Htarget & Hne & _).
    apply list_elem_of_lookup in Ht as [i Hi].
    destruct (Forall2_lookup_r _ _ _ _ _ Htools Hi) as (block & Hb & Hext).
    exists block, t. split; [by eapply list_elem_of_lookup_2|].
    split; [done|].
    destruct (extracted_inv _ _ Hext) as (_ & _ & Hfields).
    apply tool_detail_fields_target in Hfields
      as [[Hfive [v Hv]]|(_ & _ & Hnone)]; [|congruence].
    split; [done|]. rewrite Hv in Htarget |- *. simpl in Htarget.
    by rewrite Htarget.
  - intros block t _ Hext Hother.
    destruct (extracted_inv _ _ Hext) as (_ & _ & Hfields).
    apply tool_detail_fields_target in Hfields
      as [[Hfive _]|(_ & Hnin & Hnone)]; [congruence|done].
Qed.

End Tool_facts.

(** ** Text caps *)




Section Text_facts.
Context `{PyRuntime}.


End Text_facts.

(** ** One more skipped line *)

(** Start of a proof that a step keeps two states [skipped_more]: name the
    fields of both and identify the twelve that agree. *)
Ltac skipped_start :=
  let Hrel := fresh in
  intros Hrel; destruct Hrel;
  repeat match goal with s : scan_state |- _ => destruct s end;
  simpl in *; simplify_eq.

(** Both sides run the same computation [m] first. *)
Ltac same_bind :=
  match goal with
  | |- res_rel _ (mbind _ ?m) (mbind _ ?m) =>
      destruct m; simpl; [|by constructor]
  end.

Ltac skipped_done :=
  constructor; split; simpl; done.

Section Skipped_facts.
Context `{PyRuntime}.

Lemma tool_step_skipped (d : Z) (st st' : scan_state) (t : tool_info) :
  skipped_more d st st' →
  res_rel (skipped_more d) (tool_step st t) (tool_step st' t).
Proof.
  unfold tool_step. skipped_start. same_bind.
  destruct (negb _ && _); simpl; case_bool_decide; skipped_done.
Qed.

Lemma on_summary_skipped (d : Z) (obj : json) (st st' : scan_state) :
  skipped_more d st st' →
  res_rel (skipped_more d) (on_summary obj st) (on_summary obj st').
Proof.
  unfold on_summary. skipped_start. same_bind.
  destruct (py_truthy _); skipped_done.
Qed.

Lemma on_user_skipped (d : Z) (obj : json) (st st' : scan_state) :
  skipped_more d st st' →
  res_rel (skipped_more d) (on_user obj st) (on_user obj st').
Proof.
  unfold on_user. skipped_start. do 2 same_bind.
  destruct (negb _); skipped_done.
Qed.

Lemma on_assistant_skipped (d : Z) (obj : json) (st st' : scan_state) :
  skipped_more d st st' →
  res_rel (skipped_more d) (on_assistant obj st) (on_assistant obj st').
Proof.
  unfold on_assistant. skipped_start. do 3 same_bind.
  match goal with
  | |- context [py_truthy ?m] =>
      destruct (py_truthy m); simpl;
      [destruct (py_hash m); simpl; [|by constructor]|]
  end;
  do 6 same_bind;
  (apply for_each_rel; [intros ???; apply tool_step_skipped|]);
  destruct (negb _); split; simpl; done.
Qed.

Lemma process_record_skipped (d : Z) (obj : json) (st st' : scan_state) :
  skipped_more d st st' →
  res_rel (skipped_more d) (process_record obj st) (process_record obj st').
Proof.
  intros Hrel. unfold process_record. do 3 same_bind.
  match goal with
  | |- res_rel _ (if _ then on_summary _ ?s else _)
                 (if _ then on_summary _ ?s' else _) =>
      assert (skipped_more d s s') as Hrel'
  end.
  { revert Hrel. skipped_start.
    repeat match goal with
    | |- context [if py_truthy ?x then set_timestamps _ _ else _] =>
        destruct (py_truthy x)
    end; simpl; destruct (negb _ && _); split; simpl; done. }
  destruct (py_eq_str _ "summary"); [by apply on_summary_skipped|].
  destruct (py_eq_str _ "user"); [by apply on_user_skipped|].
  destruct (py_eq_str _ "assistant"); [by apply on_assistant_skipped|].
  by constructor.
Qed.

Lemma process_line_skipped (d : Z) (line : string) (st st' : scan_state) :
  skipped_more d st st' →
  res_rel (skipped_more d) (process_line st line) (process_line st' line).
Proof.
  intros Hrel. unfold process_line.
  case_bool_decide; [by constructor|].
  destruct (json_loads _); [by apply process_record_skipped|].
  constructor. destruct Hrel. split; simpl; try done. lia.
Qed.

(** A line that is not blank and does not parse adds one to the count of
    skipped lines and changes nothing else, wherever it stands. *)
Lemma scan_lines_skipped (before after : list string) (bad : string) :
  py_strip bad ≠ "" → json_loads (py_strip bad) = None →
  res_rel (skipped_more 1) (scan_lines (before ++ after))
          (scan_lines (before ++ bad :: after)).
Proof.
  intros Hblank Hbad. unfold scan_lines.
  rewrite !for_each_app.
  destruct (for_each process_line scan_init before) as [st|e]; simpl;
    [|constructor].
  assert (process_line st bad
          = Ok (set_lines_skipped (lines_skipped st + 1) st)) as ->.
  { unfold process_line. by rewrite bool_decide_eq_false_2, Hbad by done. }
  simpl. apply for_each_rel; [intros ???; apply process_line_skipped|].
  split; simpl; done.
Qed.

(** C6 (as amended).  A line that is not blank and that [json.loads]
    rejects, inserted anywhere in a log, leaves the outcome of compaction
    unchanged but for the count of skipped lines, which grows by one: the
    same summary, or the same exception if the log without the line raised
    one.  In particular a log that gave a summary with no skipped line gives
    the same summary with exactly one.  The lines after the bad one are
    processed as before. *)
Theorem malformed_line_counted (w : world) (path : string)
    (before after : list string) (bad : string) :
  py_strip bad ≠ "" → json_loads (py_strip bad) = None →
  process_session (with_log path (before ++ bad :: after) w) path
  = one_more_skipped
      (process_session (with_log path (before ++ after) w) path)
  ∧ ∀ sm,
      process_session (with_log path (before ++ after) w) path = Ok (sm, 0) →
      process_session (with_log path (before ++ bad :: after) w) path
      = Ok (sm, 1).
Proof.
  intros Hblank Hbad.
  assert (process_session (with_log path (before ++ bad :: after) w) path
          = one_more_skipped
              (process_session (with_log path (before ++ after) w) path))
    as Heq.
  { unfold process_session, with_log. simpl.
    rewrite !lookup_insert_eq. simpl.
    destruct (scan_lines_skipped before after bad Hblank Hbad)
      as [st st' Hrel|e]; simpl; [|done].
    revert Hrel. skipped_start.
    destruct (build_flow _ _); simpl; [|done].
    destruct (min_or_none _); simpl; [|done].
    destruct (max_or_none _); simpl; [|done].
    destruct (sorted_keys _); simpl; done. }
  split; [done|]. intros sm Hsm. by rewrite Heq, Hsm.
Qed.

End Skipped_facts.

(** ** The cache of summaries *)

Section Cache_facts.
Context `{PyRuntime}.


End Cache_facts.

(** ** The recommendations *)

Lemma append_if_elem (g : bool) (r x : recommendation)
    (recs : list recommendation) :
  x ∈ append_if g r recs ↔ x ∈ recs ∨ (g = true ∧ x = r).
Proof.
  unfold append_if. destruct g.
  - rewrite elem_of_app, list_elem_of_singleton. naive_solver.
  - naive_solver.
Qed.

Lemma append_if_length (g : bool) (r : recommendation)
    (recs : list recommendation) :
  length (append_if g r recs)
  = (length recs + length (filter (λ g : bool, g = true) [g]))%nat.
Proof. unfold append_if. destruct g; [rewrite length_app|]; simpl; lia. Qed.

Lemma append_if_titles (g : bool) (r : recommendation)
    (recs : list recommendation) (titles : list string) :
  title <$> recs `sublist_of` titles →
  title <$> append_if g r recs `sublist_of` titles ++ [title r].
Proof.
  intros Hsub. unfold append_if. destruct g.
  - rewrite fmap_app. by apply sublist_app.
  - by apply sublist_inserts_r.
Qed.

Lemma append_if_last (g : bool) (r : recommendation)
    (recs : list recommendation) :
  last (append_if g r recs ++ [rec_monthly]) = Some rec_monthly.
Proof. apply last_snoc. Qed.

(** C5.  The list of recommendations has at most 5 entries.  A gated
    recommendation is in it only if its gate holds: 3 context overflows, 5
    tool failures, 1 fabricated-data event, 5 wrong approaches, more
    research goals than 30% of the sessions, 3 missed contexts.  Its titles
    follow the order of the gates, the monthly recommendation after every
    gated one.  When at most four gates hold, so that no fifth gated
    recommendation takes the last place, the monthly recommendation is in
    the list and is its last entry. *)
Theorem recommendations_gated (friction_counter : counter)
    (total_sessions : Z) (goal_counter session_types : counter) :
  let recs := generate_recommendations friction_counter total_sessions
                goal_counter session_types in
  let fc k := counter_get friction_counter (KStr k) in
  (length recs ≤ 5)%nat
  ∧ (∀ r, r ∈ recs →
       (title r = "Manage Session Length" → 3 ≤ fc "context_overflow")
       ∧ (title r = "Add Subagent Limits" → 5 ≤ fc "tool_failure")
       ∧ (title r = "Add Data Verification Guardrails" →
          1 ≤ fc "fabricated_data")
       ∧ (title r = "Provide More Upfront Constraints" →
          5 ≤ fc "wrong_approach")
       ∧ (title r = "Build a Research Skill" →
          3 * total_sessions
          < 10 * counter_get goal_counter (KStr "research"))
       ∧ (title r = "Start Sessions with Context Loading" →
          3 ≤ fc "missed_context")
       ∧ title r ∈ candidate_titles)
  ∧ title <$> recs `sublist_of` candidate_titles
  ∧ ((gates_open friction_counter total_sessions goal_counter ≤ 4)%nat →
     rec_monthly ∈ recs ∧ last recs = Some rec_monthly).
Proof.
  cbv zeta. unfold generate_recommendations, research_dominates.
  set (g1 := bool_decide
               (3 ≤ counter_get friction_counter (KStr "context_overflow"))).
  set (g2 := bool_decide
               (5 ≤ counter_get friction_counter (KStr "tool_failure"))).
  set (g3 := bool_decide
               (1 ≤ counter_get friction_counter (KStr "fabricated_data"))).
  set (g4 := bool_decide
               (5 ≤ counter_get friction_counter (KStr "wrong_approach"))).
  set (g5 := bool_decide
               (3 * total_sessions
                < 10 * counter_get goal_counter (KStr "research"))).
  set (g6 := bool_decide
               (3 ≤ counter_get friction_counter (KStr "missed_context"))).
  match goal with
  | |- context [take 5 ?l] => set (full := l)
  end.
  assert (∀ r, r ∈ full →
            (g1 = true ∧ r = rec_session_length
                              (counter_get friction_counter
                                 (KStr "context_overflow")))
            ∨ (g2 = true ∧ r = rec_subagent_limits
                                 (counter_get friction_counter
                                    (KStr "tool_failure")))
            ∨ (g3 = true ∧ r = rec_guardrails
                                 (counter_get friction_counter
                                    (KStr "fabricated_data")))
            ∨ (g4 = true ∧ r = rec_constraints
                                 (counter_get friction_counter
                                    (KStr "wrong_approach")))
            ∨ (g5 = true ∧ r = rec_research_skill
                                 (counter_get goal_counter (KStr "research")))
            ∨ (g6 = true ∧ r = rec_context_loading
                                 (counter_get friction_counter
                                    (KStr "missed_context")))
            ∨ r = rec_monthly) as Hfull.
  { intros r. subst full.
    rewrite elem_of_app, list_elem_of_singleton, !append_if_elem, elem_of_nil.
    naive_solver. }
  assert (length full
          = S (gates_open friction_counter total_sessions goal_counter))
    as Hlen.
  { subst full. rewrite length_app, !append_if_length.
    unfold gates_open, gates. fold g1 g2 g3 g4 g5 g6.
    destruct g1, g2, g3, g4, g5, g6; reflexivity. }
  split_and!.
  - rewrite length_take. lia.
  - intros r Hr. apply subseteq_take, Hfull in Hr.
    destruct Hr as [[Hg ->]|[[Hg ->]|[[Hg ->]|[[Hg ->]|[[Hg ->]|[[Hg ->]| ->]]]]]];
      simpl; split_and!; try discriminate;
      try (intros _; by apply bool_decide_eq_true in Hg);
      apply list_elem_of_In; simpl; tauto.
  - etrans; [apply fmap_sublist, sublist_take|]. subst full.
    rewrite fmap_app.
    change candidate_titles with
      ((((((([] ++ ["Manage Session Length"]) ++ ["Add Subagent Limits"])
            ++ ["Add Data Verification Guardrails"])
           ++ ["Provide More Upfront Constraints"])
          ++ ["Build a Research Skill"])
         ++ ["Start Sessions with Context Loading"])
        ++ ["Run Deep Insights Monthly"]).
    apply sublist_app; [|done].
    apply (append_if_titles _ (rec_context_loading _)).
    apply (append_if_titles _ (rec_research_skill _)).
    apply (append_if_titles _ (rec_constraints _)).
    apply (append_if_titles _ (rec_guardrails _)).
    apply (append_if_titles _ (rec_subagent_limits _)).
    apply (append_if_titles _ (rec_session_length _)).
    done.
  - intros Hopen. rewrite take_ge by lia. split.
    + subst full. apply elem_of_app. right. by left.
    + subst full. apply last_snoc.
Qed.

(** ** Percentages *)



Section Pct.
Context `{Float64}.



End Pct.


(** ** Counting facets *)

Lemma py_hash_str (v : json) (s : string) :
  py_hash v = Ok (KStr s) ↔ py_eq_str v s = true.
Proof.
  destruct v as [|[]|n|t|xs|items]; simpl; try (split; by intros ?).
  rewrite bool_decide_eq_true. split; [by intros [= ->]|by intros ->].
Qed.

Lemma filter_length_le {A : Type} (P : A → Prop) `{!∀ x, Decision (P x)}
    (l : list A) :
  (length (filter P l) ≤ length l)%nat.
Proof. apply sublist_length, sublist_filter. Qed.


Lemma count_field_spec (facets : list json) (fld : string) (dflt : json)
    (c : counter) :
  count_field facets fld dflt = Ok c →
  ∀ k, counter_get c k
       = Z.of_nat (length (filter (λ f, py_hash (field f fld dflt) = Ok k)
                                  facets)).
Proof.
  unfold count_field. intros Hrun.
  refine (for_each_invariant
            (λ (c : counter) (seen : list json),
               ∀ k, counter_get c k
                    = Z.of_nat (length (filter
                        (λ f, py_hash (field f fld dflt) = Ok k) seen)))
            _ _ facets [] [] c _ Hrun); [|done].
  intros c0 seen f c1 Hinv
    (v & [-> _]%py_get_field & (k & Hk & [= <-])%bind_ok)%bind_ok k'.
  rewrite counter_get_add, Hinv, filter_app, length_app.
  destruct (decide (k = k')) as [<-|Hne].
  - rewrite filter_cons_True by done. simpl. lia.
  - rewrite filter_cons_False by congruence. simpl. lia.
Qed.

(** The count of a label is the number of facets that carry it. *)
Lemma count_field_labelled (facets : list json) (fld dflt value : string)
    (c : counter) :
  count_field facets fld (JStr dflt) = Ok c →
  counter_get c (KStr value)
  = Z.of_nat (length (labelled fld dflt value facets)).
Proof.
  intros Hrun. rewrite (count_field_spec _ _ _ _ Hrun). unfold labelled.
  do 2 f_equal. apply list_filter_iff. intros f.
  rewrite py_hash_str. by destruct (py_eq_str _ _).
Qed.





(** ** Sums of counts *)

Lemma counter_total_from (c : counter) (acc : Z) :
  foldl (λ (acc : Z) (kn : pykey * Z), acc + kn.2) acc c
  = acc + counter_total c.
Proof.
  unfold counter_total. revert acc.
  induction c as [|[k n] c IH]; intros acc; simpl; [lia|].
  rewrite (IH (acc + n)), (IH (0 + n)). lia.
Qed.

Lemma counter_total_cons (k : pykey) (n : Z) (c : counter) :
  counter_total ((k, n) :: c) = n + counter_total c.
Proof. unfold counter_total at 1. simpl. by rewrite counter_total_from. Qed.







(** ** The derived metrics *)

Section Engine_facts.
Context `{Float64}.

Lemma build_aggregates_inv (facets : list json) (a : aggregates) :
  build_aggregates facets = Ok a →
  total a = Z.of_nat (length facets) ∧ 0 < total a
  ∧ count_field facets "outcome" (JStr "unclear") = Ok (outcomes a)
  ∧ aggregate_dict_field facets "user_satisfaction_counts"
    = Ok (satisfaction a)
  ∧ count_field facets "claude_helpfulness" (JStr "unknown")
    = Ok (helpfulness a)
  ∧ count_with_friction facets = Ok (sessions_with_friction a)
  ∧ goals_achieved a
    = counter_get (outcomes a) (KStr "fully_achieved")
      + counter_get (outcomes a) (KStr "mostly_achieved")
  ∧ helpful_count a
    = counter_get (helpfulness a) (KStr "essential")
      + counter_get (helpfulness a) (KStr "very_helpful")
  ∧ goals_achieved_pct a = pct_float (goals_achieved a) (total a)
  ∧ helpful_pct a = pct_float (helpful_count a) (total a)
  ∧ friction_pct a = pct_float (sessions_with_friction a) (total a).
Proof.
  unfold build_aggregates. destruct (_ =? 0) eqn:Htotal; [done|].
  apply Z.eqb_neq in Htotal.
  intros (o & Ho & (s & Hs & (h & Hh & (t & _ & (g & _ & (f & _ & (p & _
    & (n & Hn & [= <-])%bind_ok)%bind_ok)%bind_ok)%bind_ok)%bind_ok)%bind_ok
    )%bind_ok)%bind_ok.
  simpl. split_and!; try done. lia.
Qed.


End Engine_facts.

(** ** Concrete runs *)

Import Demo.

(** C1, counterexample to the property as the specification states it: a
    log of two user messages and no assistant text gives the flow
    [user, user], which does not alternate. *)
Lemma conversation_flow_not_alternating :
  ∃ sm skipped,
    process_session (demo_world two_users_log) demo_path = Ok (sm, skipped)
    ∧ ¬ strictly_alternates (sm_conversation_flow sm).
Proof.
  eexists _, _. split; [vm_compute; reflexivity|].
  intros Halt. specialize (Halt 1%nat (user_turn "second question") eq_refl).
  discriminate Halt.
Qed.

(** C1, witness: 50 user messages and 45 assistant texts give 40 turns of
    each role. *)
Lemma conversation_flow_shape_witness :
  ∃ sm skipped,
    process_session (demo_world fifty_users_log) demo_path = Ok (sm, skipped)
    ∧ st_user_messages (sm_stats sm) = 50%nat
    ∧ st_assistant_responses (sm_stats sm) = 45%nat
    ∧ count_role "user" (sm_conversation_flow sm) = 40%nat
    ∧ count_role "assistant" (sm_conversation_flow sm) = 40%nat.
Proof.
  destruct (process_session (demo_world fifty_users_log) demo_path)
    as [[sm skipped]|e] eqn:Hrun; [|vm_compute in Hrun; discriminate Hrun].
  exists sm, skipped. split; [reflexivity|].
  assert (st_user_messages (sm_stats sm) = 50%nat
          ∧ st_assistant_responses (sm_stats sm) = 45%nat) as [Hu Ha].
  { pose proof Hrun as Hval. vm_compute in Hval.
    injection Hval as <- _. split; reflexivity. }
  split; [exact Hu|]. split; [exact Ha|].
  destruct (conversation_flow_shape _ _ _ _ Hrun)
    as (_ & _ & _ & _ & _ & Hcount).
  exact (Hcount Hu Ha).
Defined.


(** A user message made of two text blocks of 500 characters each has 1001
    characters: each block is cut at the cap, the joined message is not. *)
Lemma joined_blocks_exceed_cap :
  ∃ sm skipped e,
    process_session (demo_world two_blocks_log) demo_path = Ok (sm, skipped)
    ∧ sm_conversation_flow sm !! 0%nat = Some e
    ∧ String.length (text e) = 1001%nat.
Proof.
  eexists _, _, _. split; [vm_compute; reflexivity|].
  split; [reflexivity|]. vm_compute. reflexivity.
Qed.


(** C3, witness: the description kept for the task spawn of the demo log
    has at most 100 characters. *)
Lemma tool_details_capped_witness :
  ∃ sm skipped t v,
    process_session (demo_world task_log) demo_path = Ok (sm, skipped)
    ∧ t ∈ sm_tool_details sm ∧ ("description", v) ∈ tool_fields t
    ∧ (String.length v ≤ MAX_TOOL_RESULT_CHARS)%nat
    ∧ (String.length v ≤ 100)%nat.
Proof.
  destruct (process_session (demo_world task_log) demo_path)
    as [[sm skipped]|e] eqn:Hrun; [|vm_compute in Hrun; discriminate Hrun].
  assert (∃ t v, t ∈ sm_tool_details sm ∧ ("description", v) ∈ tool_fields t)
    as (t & v & Ht & Hv).
  { pose proof Hrun as Hval. vm_compute in Hval.
    injection Hval as <- _. eexists _, _. split; simpl.
    - apply list_elem_of_here.
    - apply list_elem_of_here. }
  exists sm, skipped, t, v. split; [reflexivity|].
  split; [exact Ht|]. split; [exact Hv|].
  destruct (tool_details_capped_but_subagent_type _ _ _ _ t "description" v
              Hrun Ht Hv ltac:(discriminate)) as [H200 H100].
  split; [exact H200|exact (H100 eq_refl)].
Defined.

(** C3, the code at an input that breaks the property: for a task spawn
    whose description and sub-type label have 300 characters each, the
    record kept in the summary has the description cut at 100 characters and
    the sub-type label whole, 300 characters, above the cap of 200. *)
Theorem subagent_type_not_capped :
  ∃ sm skipped t,
    process_session (demo_world task_log) demo_path = Ok (sm, skipped)
    ∧ sm_tool_details sm = [t]
    ∧ String.length (tool_get (tool_fields t) "description") = 100%nat
    ∧ String.length (tool_get (tool_fields t) "subagent_type") = 300%nat.
Proof.
  eexists _, _, _. split; [vm_compute; reflexivity|].
  split; [reflexivity|]. split; vm_compute; reflexivity.
Qed.


(** C5, witness: four context overflows and five research goals in ten
    sessions open two gates; the monthly recommendation is last. *)
Lemma recommendations_gated_witness :
  (length (generate_recommendations demo_friction 10 demo_goals []) ≤ 5)%nat
  ∧ last (generate_recommendations demo_friction 10 demo_goals [])
    = Some rec_monthly.
Proof.
  destruct (recommendations_gated demo_friction 10 demo_goals [])
    as (Hlen & _ & _ & Hlast).
  split; [exact Hlen|].
  apply Hlast. vm_compute. lia.
Defined.

(** C6, counterexample to the property as the specification states it: a
    line of blanks is not valid JSON, yet inserted between the two lines of
    a log it leaves the count of skipped lines at 0. *)
Lemma blank_line_not_counted :
  json_loads blank_line = None
  ∧ json_loads (py_strip blank_line) = None
  ∧ ∃ sm,
      process_session
        (with_log demo_path ([first_line] ++ [second_line]) (demo_world []))
        demo_path = Ok (sm, 0)
      ∧ process_session
          (with_log demo_path ([first_line] ++ blank_line :: [second_line])
                    (demo_world []))
          demo_path = Ok (sm, 0)
      ∧ process_session
          (with_log demo_path ([first_line] ++ blank_line :: [second_line])
                    (demo_world []))
          demo_path ≠ Ok (sm, 1).
Proof.
  split; [vm_compute; reflexivity|]. split; [vm_compute; reflexivity|].
  eexists. split; [vm_compute; reflexivity|].
  split; [vm_compute; reflexivity|].
  vm_compute. discriminate.
Qed.

(** C6, witness: a line that is not JSON, inserted between the two lines of
    a log, gives the same summary and one skipped line. *)
Lemma malformed_line_counted_witness :
  ∃ sm,
    process_session
      (with_log demo_path ([first_line] ++ [second_line]) (demo_world []))
      demo_path = Ok (sm, 0)
    ∧ process_session
        (with_log demo_path ([first_line] ++ bad_line :: [second_line])
                  (demo_world []))
        demo_path = Ok (sm, 1).
Proof.
  destruct (process_session
              (with_log demo_path ([first_line] ++ [second_line])
                        (demo_world [])) demo_path)
    as [[sm skipped]|e] eqn:Hrun; [|vm_compute in Hrun; discriminate Hrun].
  assert (skipped = 0) as ->.
  { pose proof Hrun as Hval. vm_compute in Hval.
    by injection Hval as _ <-. }
  exists sm. split; [reflexivity|].
  destruct (malformed_line_counted (demo_world []) demo_path
              [first_line] [second_line] bad_line) as [_ Hone].
  - vm_compute. discriminate.
  - vm_compute. reflexivity.
  - exact (Hone sm Hrun).
Defined.

(** C7, witness: 31 shell commands and one file read; the table counts all
    31, the detail list keeps 30 records. *)
Lemma tool_usage_exact_witness :
  ∃ sm skipped,
    process_session (demo_world many_tools_log) demo_path = Ok (sm, skipped)
    ∧ counter_get (sm_tool_usage sm) (KStr "Bash") = 31
    ∧ counter_get (sm_tool_usage sm) (KStr "Read") = 1
    ∧ length (sm_tool_details sm) = 30%nat.
Proof.
  destruct (process_session (demo_world many_tools_log) demo_path)
    as [[sm skipped]|e] eqn:Hrun; [|vm_compute in Hrun; discriminate Hrun].
  exists sm, skipped. split; [reflexivity|].
  destruct (tool_usage_exact (demo_world many_tools_log) demo_path
              many_tools_log sm skipped ltac:(vm_compute; reflexivity) Hrun)
    as (Hcount & _ & _ & Hdetails).
  rewrite !Hcount, Hdetails.
  split; [vm_compute; reflexivity|]. split; vm_compute; reflexivity.
Defined.

(** C8, witness: 40 distinct qualifying targets give a list of 30. *)
Lemma files_touched_sorted_capped_witness :
  ∃ sm skipped,
    process_session (demo_world many_files_log) demo_path = Ok (sm, skipped)
    ∧ length (sm_files_touched sm) = 30%nat
    ∧ NoDup (sm_files_touched sm)
    ∧ StronglySorted String.le (sm_files_touched sm)
    ∧ Forall (λ f, py_contains "/" f = true) (sm_files_touched sm).
Proof.
  destruct (process_session (demo_world many_files_log) demo_path)
    as [[sm skipped]|e] eqn:Hrun; [|vm_compute in Hrun; discriminate Hrun].
  exists sm, skipped. split; [reflexivity|].
  destruct (files_touched_sorted_capped _ _ _ _ Hrun)
    as (Hnd & Hsorted & Hsep & _ & _).
  assert (length (sm_files_touched sm) = 30%nat) as Hlen.
  { pose proof Hrun as Hval. vm_compute in Hval.
    injection Hval as <- _. reflexivity. }
  exact (conj Hlen (conj Hnd (conj Hsorted Hsep))).
Defined.


(** C10, witness: of a file read, a shell command, a search, a fetch, a
    task and a pattern search, whose texts all contain a separator, the two
    file tools alone reach the list. *)
Lemma files_touched_provenance_witness :
  ∃ sm skipped,
    process_session (demo_world mixed_tools_log) demo_path = Ok (sm, skipped)
    ∧ sm_files_touched sm = ["/repo/a.py"; "foo/bar"]
    ∧ ∀ f, f ∈ sm_files_touched sm →
        ∃ block t,
          block ∈ session_invocations mixed_tools_log ∧ extracted block t
          ∧ py_in_strs (invocation_name block) five_file_tools = true
          ∧ tool_fields t = [("target", f)].
Proof.
  destruct (process_session (demo_world mixed_tools_log) demo_path)
    as [[sm skipped]|e] eqn:Hrun; [|vm_compute in Hrun; discriminate Hrun].
  exists sm, skipped. split; [reflexivity|].
  destruct (files_touched_provenance (demo_world mixed_tools_log) demo_path
              mixed_tools_log sm skipped ltac:(vm_compute; reflexivity) Hrun)
    as [Hfrom _].
  split; [|exact Hfrom].
  pose proof Hrun as Hval. vm_compute in Hval.
  injection Hval as <- _. reflexivity.
Defined.
(* ================================================================= *)
(** * Part VII: further properties of the compactor *)

(** ** What the scan gathers *)

Section Log_facts.
Context `{PyRuntime}.

Lemma scan_frame_refl (st : scan_state) : scan_frame st st.
Proof. by split. Qed.

Lemma scan_frame_trans (st1 st2 st3 : scan_state) :
  scan_frame st1 st2 → scan_frame st2 st3 → scan_frame st1 st3.
Proof. intros [] []. split; congruence. Qed.

Lemma tool_step_frame (st st' : scan_state) (t : tool_info) :
  tool_step st t = Ok st' → scan_frame st st'.
Proof.
  unfold tool_step. intros (k & _ & [= <-])%bind_ok.
  destruct (negb _ && _); case_bool_decide; by split.
Qed.

Lemma tool_steps_frame (ts : list tool_info) (st st' : scan_state) :
  for_each tool_step st ts = Ok st' → scan_frame st st'.
Proof.
  revert st. induction ts as [|t ts IH]; intros st; simpl.
  - intros [= <-]. apply scan_frame_refl.
  - intros (st1 & Hstep%tool_step_frame & Hrest%IH)%bind_ok.
    by eapply scan_frame_trans.
Qed.

Lemma py_add_numeric (acc n : Z) (v : json) :
  py_add acc v = Ok n → n = acc + default 0 (numeric v).
Proof. destruct v as [|[]| | | |]; simpl; by intros [= <-]. Qed.

(** What one record adds to the state of the scan. *)
Lemma process_record_log (obj : json) (st st' : scan_state) :
  process_record obj st = Ok st' →
  lines_skipped st' = lines_skipped st
  ∧ lines_processed st' = lines_processed st + 1
  ∧ has_summary st'
    = has_summary st || py_eq_str (record_kind obj) "summary"
  ∧ user_messages st' = user_messages st ++ record_user_texts obj
  ∧ assistant_texts st' = assistant_texts st ++ record_assistant_texts obj
  ∧ timestamps st' = timestamps st ++ record_truthy "timestamp" obj
  ∧ git_branch st'
    = (if py_truthy (git_branch st) then git_branch st
       else default (git_branch st) (head (record_truthy "gitBranch" obj)))
  ∧ total_input_tokens st'
    = total_input_tokens st + record_tokens "input_tokens" obj
  ∧ total_output_tokens st'
    = total_output_tokens st + record_tokens "output_tokens" obj.
Proof.
  unfold process_record, record_user_texts, record_assistant_texts,
    record_tokens, record_truthy, record_kind, record_content.
  intros Hrun.
  apply bind_ok in Hrun as (msg_type & [-> _]%py_get_field & Hrun).
  apply bind_ok in Hrun as (timestamp & [-> _]%py_get_field & Hrun).
  apply bind_ok in Hrun as (branch & [-> _]%py_get_field & Hrun).
  match type of Hrun with
  | context [on_summary obj ?s] => set (st0 := s) in *
  end.
  assert (lines_skipped st0 = lines_skipped st
          ∧ lines_processed st0 = lines_processed st + 1
          ∧ has_summary st0 = has_summary st
          ∧ user_messages st0 = user_messages st
          ∧ assistant_texts st0 = assistant_texts st
          ∧ timestamps st0
            = timestamps st
              ++ (if py_truthy (field obj "timestamp" JNull)
                  then [field obj "timestamp" JNull] else [])
          ∧ git_branch st0
            = (if py_truthy (git_branch st) then git_branch st
               else default (git_branch st)
                      (head (if py_truthy (field obj "gitBranch" JNull)
                             then [field obj "gitBranch" JNull] else [])))
          ∧ total_input_tokens st0 = total_input_tokens st
          ∧ total_output_tokens st0 = total_output_tokens st)
    as (Hsk & Hpr & Hsum & Hum & Hat & Hts & Hgb & Hin & Hout).
  { subst st0.
    destruct (py_truthy (field obj "timestamp" JNull)); simpl;
      destruct (py_truthy (git_branch st)); simpl;
      destruct (py_truthy (field obj "gitBranch" JNull)); simpl;
      rewrite ?app_nil_r; done. }
  clearbody st0.
  destruct (py_eq_str (field obj "type" JNull) "summary") eqn:Hsummary.
  { apply py_eq_str_true in Hsummary as Hkind. rewrite Hkind. simpl.
    unfold on_summary in Hrun.
    apply bind_ok in Hrun as (txt & [-> _]%py_get_field & [= <-]).
    rewrite orb_true_r, !Z.add_0_r, app_nil_r.
    destruct (py_truthy (field obj "summary" (JStr ""))); simpl;
      rewrite ?app_nil_r; split_and!; congruence. }
  destruct (py_eq_str (field obj "type" JNull) "user") eqn:Huser.
  { apply py_eq_str_true in Huser as Hkind. rewrite Hkind. simpl.
    unfold on_user in Hrun.
    apply bind_ok in Hrun as (msg & [-> _]%py_get_field & Hrun).
    apply bind_ok in Hrun as (content & [-> _]%py_get_field & [= <-]).
    rewrite orb_false_r, !Z.add_0_r, app_nil_r.
    case_bool_decide; simpl; rewrite ?app_nil_r; split_and!; congruence. }
  destruct (py_eq_str (field obj "type" JNull) "assistant") eqn:Hasst.
  { rewrite orb_false_r, app_nil_r.
    unfold on_assistant in Hrun.
    apply bind_ok in Hrun as (msg & [-> _]%py_get_field & Hrun).
    apply bind_ok in Hrun as (content & [-> _]%py_get_field & Hrun).
    apply bind_ok in Hrun as (model & _ & Hrun).
    apply bind_ok in Hrun as (st1 & Hst1 & Hrun).
    apply bind_ok in Hrun as (usage & [-> _]%py_get_field & Hrun).
    apply bind_ok in Hrun as (i & [-> _]%py_get_field & Hrun).
    apply bind_ok in Hrun as (ti & ->%py_add_numeric & Hrun).
    apply bind_ok in Hrun as (o & [-> _]%py_get_field & Hrun).
    apply bind_ok in Hrun as (to & ->%py_add_numeric & Hrun).
    apply bind_ok in Hrun as (ts & _ & Hrun).
    assert (scan_frame st0 st1) as [].
    { destruct (py_truthy model); [|injection Hst1 as <-; by split].
      apply bind_ok in Hst1 as (k & _ & [= <-]). by split. }
    apply tool_steps_frame in Hrun as [].
    case_bool_decide; simpl in *; rewrite ?app_nil_r;
      split_and!; congruence. }
  injection Hrun as <-.
  rewrite orb_false_r, !Z.add_0_r, !app_nil_r. done.
Qed.

Lemma record_truthy_truthy (k : string) (records : list json) :
  Forall (λ v, py_truthy v = true) (records ≫= record_truthy k).
Proof.
  induction records as [|obj records IH]; simpl; [constructor|].
  apply Forall_app. split; [|done].
  unfold record_truthy. destruct (py_truthy _) eqn:Hv; repeat constructor.
  done.
Qed.

Lemma session_records_snoc (seen : list string) (line : string) :
  session_records (seen ++ [line])
  = session_records seen ++ option_list (line_record line).
Proof.
  unfold session_records. rewrite omap_app. simpl.
  by destruct (line_record line).
Qed.

Lemma sum_Z_cons (x : Z) (xs : list Z) : sum_Z (x :: xs) = x + sum_Z xs.
Proof. done. Qed.

Lemma sum_Z_app (xs ys : list Z) : sum_Z (xs ++ ys) = sum_Z xs + sum_Z ys.
Proof. unfold sum_Z. induction xs as [|x xs IH]; simpl; lia. Qed.

Lemma log_inv_init : log_inv scan_init [].
Proof. by split. Qed.

(** A line that leaves the state of the scan as it is. *)
Lemma log_inv_blank (st : scan_state) (seen : list string) (line : string) :
  unparseable line = false → line_record line = None →
  log_inv st seen → log_inv st (seen ++ [line]).
Proof.
  intros Hun Hrec [].
  split; rewrite ?session_records_snoc, ?Hrec, ?filter_app; simpl;
    rewrite ?app_nil_r; try done.
  rewrite filter_cons_False by (by apply Is_true_false). by rewrite app_nil_r.
Qed.

Lemma process_line_log (st st' : scan_state) (seen : list string)
    (line : string) :
  log_inv st seen → process_line st line = Ok st' →
  log_inv st' (seen ++ [line]).
Proof.
  intros Hinv Hrun. unfold process_line in Hrun.
  case_bool_decide as Hblank.
  { injection Hrun as <-. apply log_inv_blank; [| |done].
    - unfold unparseable. by rewrite bool_decide_eq_true_2.
    - unfold line_record. by rewrite bool_decide_eq_true_2. }
  destruct (json_loads (py_strip line)) as [obj|] eqn:Hloads.
  - assert (line_record line = Some obj) as Hrec.
    { unfold line_record. by rewrite bool_decide_eq_false_2. }
    assert (unparseable line = false) as Hun.
    { unfold unparseable. by rewrite Hloads, andb_false_r. }
    apply process_record_log in Hrun
      as (Hsk & Hpr & Hsum & Hum & Hat & Hts & Hgb & Hin & Hout).
    destruct Hinv as [Isk Ipr Isum Ium Iat Its Igb Iin Iout].
    split; rewrite ?session_records_snoc, ?Hrec, ?filter_app; simpl.
    + rewrite filter_cons_False by (by apply Is_true_false).
      rewrite app_nil_r. congruence.
    + rewrite length_app. simpl. lia.
    + rewrite existsb_app. simpl. rewrite orb_false_r. congruence.
    + rewrite bind_app. simpl. rewrite app_nil_r. congruence.
    + rewrite bind_app. simpl. rewrite app_nil_r. congruence.
    + rewrite bind_app. simpl. rewrite app_nil_r. congruence.
    + rewrite bind_app. simpl. rewrite app_nil_r. rewrite Hgb, Igb.
      pose proof (record_truthy_truthy "gitBranch" (session_records seen))
        as Htruthy.
      destruct (session_records seen ≫= record_truthy "gitBranch")
        as [|b bs]; simpl; [done|].
      apply Forall_cons in Htruthy as [-> _]. done.
    + rewrite fmap_app, sum_Z_app. simpl. lia.
    + rewrite fmap_app, sum_Z_app. simpl. lia.
  - injection Hrun as <-.
    assert (line_record line = None) as Hrec.
    { unfold line_record. by rewrite bool_decide_eq_false_2. }
    assert (unparseable line = true) as Hun.
    { unfold unparseable. by rewrite Hloads, bool_decide_eq_false_2. }
    destruct Hinv as [Isk Ipr Isum Ium Iat Its Igb Iin Iout].
    split; rewrite ?session_records_snoc, ?Hrec, ?filter_app; simpl;
      rewrite ?app_nil_r; try done.
    rewrite filter_cons_True by (by apply Is_true_true).
    rewrite length_app. simpl. lia.
Qed.

(** The scan gathers what the log holds. *)
Lemma scan_lines_log (lines : list string) (st : scan_state) :
  scan_lines lines = Ok st → log_inv st lines.
Proof.
  intros Hrun.
  apply (for_each_invariant log_inv process_line) with (seen := [])
    (xs := lines) (st := scan_init) (st' := st); [|apply log_inv_init|done].
  intros s seen x s' Hinv Hstep. by eapply process_line_log.
Qed.

(** [process_session] returns what its scan gathered. *)
Lemma process_session_fields (w : world) (path : string) (sm : summary)
    (skipped : Z) :
  process_session w path = Ok (sm, skipped) →
  ∃ lines st,
    session_files w !! path = Some lines
    ∧ scan_lines lines = Ok st
    ∧ skipped = lines_skipped st
    ∧ sm_conversation_flow sm
      = turns MAX_CONVERSATION_EXCHANGES (user_messages st)
              (assistant_texts st)
    ∧ st_user_messages (sm_stats sm) = length (user_messages st)
    ∧ st_assistant_responses (sm_stats sm) = length (assistant_texts st)
    ∧ st_total_input_tokens (sm_stats sm) = total_input_tokens st
    ∧ st_total_output_tokens (sm_stats sm) = total_output_tokens st
    ∧ st_had_context_compression (sm_stats sm) = has_summary st
    ∧ sm_git_branch sm = git_branch st
    ∧ min_or_none (timestamps st) = Ok (sm_start_time sm)
    ∧ max_or_none (timestamps st) = Ok (sm_end_time sm)
    ∧ sorted_keys (elements (models_used st)) = Ok (sm_models_used sm).
Proof.
  unfold process_session. intros Hp.
  destruct (session_files w !! path) as [lines|]; [|done]. simpl in Hp.
  apply bind_ok in Hp as (st & Hscan & Hp).
  destruct (build_flow_exits (user_messages st) (assistant_texts st))
    as (fs & Hfs & Hflow & _).
  rewrite Hfs in Hp. simpl in Hp.
  apply bind_ok in Hp as (t0 & Ht0 & Hp).
  apply bind_ok in Hp as (t1 & Ht1 & Hp).
  apply bind_ok in Hp as (models & Hmodels & Hp).
  injection Hp as <- <-. simpl.
  exists lines, st. by rewrite Hflow.
Qed.

End Log_facts.

(** ** The tool calls, replayed *)

Section Replay_facts.
Context `{PyRuntime}.

Lemma tools_eq_refl (st : scan_state) : tools_eq st st.
Proof. by split. Qed.

Lemma tools_eq_trans (st1 st2 st3 : scan_state) :
  tools_eq st1 st2 → tools_eq st2 st3 → tools_eq st1 st3.
Proof. intros [] []. split; congruence. Qed.

Lemma tool_step_eq (st1 st2 st1' : scan_state) (t : tool_info) :
  tools_eq st1 st2 → tool_step st1 t = Ok st1' →
  ∃ st2', tool_step st2 t = Ok st2' ∧ tools_eq st1' st2'.
Proof.
  intros [Hu Hd Hf]. unfold tool_step.
  intros (k & Hk & [= <-])%bind_ok. rewrite Hk. simpl.
  eexists. split; [done|]. rewrite Hu, Hf.
  destruct (negb _ && _); simpl; rewrite Hd;
    case_bool_decide; simpl; split; simpl; congruence.
Qed.

Lemma tool_steps_eq (ts : list tool_info) (st1 st2 st1' : scan_state) :
  tools_eq st1 st2 → for_each tool_step st1 ts = Ok st1' →
  ∃ st2', for_each tool_step st2 ts = Ok st2' ∧ tools_eq st1' st2'.
Proof.
  revert st1 st2. induction ts as [|t ts IH]; intros st1 st2 Heq; simpl.
  - intros [= <-]. by exists st2.
  - intros (st & Hstep & Hrest)%bind_ok.
    destruct (tool_step_eq _ _ _ _ Heq Hstep) as (st' & -> & Heq').
    simpl. by eapply IH.
Qed.

Lemma replays_frame (st st' : scan_state) (tools : list tool_info) :
  tools_eq st st' → replays st tools → replays st' tools.
Proof.
  intros Heq (st_t & Hrun & Heq'). exists st_t. split; [done|].
  by eapply tools_eq_trans.
Qed.

Lemma replays_steps (st st' : scan_state) (tools ts : list tool_info) :
  replays st tools → for_each tool_step st ts = Ok st' →
  replays st' (tools ++ ts).
Proof.
  intros (st_t & Hrun & Heq) Hsteps.
  assert (tools_eq st st_t) as Heq'.
  { destruct Heq. split; congruence. }
  destruct (tool_steps_eq _ _ _ _ Heq' Hsteps) as (st_t' & Hrun' & Heq'').
  exists st_t'. rewrite for_each_app, Hrun. simpl. split; [done|].
  destruct Heq''. split; congruence.
Qed.

Lemma on_assistant_replays (obj : json) (st st' : scan_state)
    (tools : list tool_info) :
  on_assistant obj st = Ok st' → replays st tools →
  ∃ ts,
    Forall2 extracted
      (filter is_tool_use
         (content_blocks
            (field (field obj "message" (JObj [])) "content" (JArr [])))) ts
    ∧ replays st' (tools ++ ts).
Proof.
  unfold on_assistant. intros Hrun Hinv.
  apply bind_ok in Hrun as (msg & [-> _]%py_get_field & Hrun).
  apply bind_ok in Hrun as (content & [-> _]%py_get_field & Hrun).
  apply bind_ok in Hrun as (model & _ & Hrun).
  apply bind_ok in Hrun as (st1 & Hst1 & Hrun).
  apply bind_ok in Hrun as (usage & _ & Hrun).
  apply bind_ok in Hrun as (i & _ & Hrun).
  apply bind_ok in Hrun as (ti & _ & Hrun).
  apply bind_ok in Hrun as (o & _ & Hrun).
  apply bind_ok in Hrun as (to & _ & Hrun).
  apply bind_ok in Hrun as (ts & Hts%extract_tool_calls_spec & Hrun).
  assert (tools_eq st st1) as Heq1.
  { destruct (py_truthy model); [|injection Hst1 as <-; by split].
    apply bind_ok in Hst1 as (k & _ & [= <-]). by split. }
  exists ts. split; [done|].
  eapply replays_steps; [|done].
  apply (replays_frame st); [|done].
  destruct Heq1. destruct (negb _); split; simpl; done.
Qed.

Lemma process_record_replays (obj : json) (st st' : scan_state)
    (tools : list tool_info) :
  process_record obj st = Ok st' → replays st tools →
  ∃ ts,
    Forall2 extracted (filter is_tool_use (event_blocks obj)) ts
    ∧ replays st' (tools ++ ts).
Proof.
  unfold process_record, event_blocks. intros Hrun Hinv.
  apply bind_ok in Hrun as (msg_type & [-> _]%py_get_field & Hrun).
  apply bind_ok in Hrun as (timestamp & _ & Hrun).
  apply bind_ok in Hrun as (branch & _ & Hrun).
  match type of Hrun with
  | context [on_summary obj ?s] => set (st0 := s) in *
  end.
  assert (tools_eq st st0) as Heq0.
  { subst st0. destruct (negb _ && _); destruct (py_truthy timestamp);
      by split. }
  apply (replays_frame _ _ _ Heq0) in Hinv.
  clearbody st0.
  destruct (py_eq_str _ "summary") eqn:Hsum.
  { apply py_eq_str_true in Hsum as ->. simpl.
    apply on_summary_inv in Hrun as (Hu & Hd & Hf & _).
    exists []. rewrite app_nil_r. split; [constructor|].
    by apply (replays_frame st0). }
  destruct (py_eq_str _ "user") eqn:Huser.
  { apply py_eq_str_true in Huser as ->. simpl.
    apply on_user_inv in Hrun as (Hu & Hd & Hf & _).
    exists []. rewrite app_nil_r. split; [constructor|].
    by apply (replays_frame st0). }
  destruct (py_eq_str _ "assistant") eqn:Hasst.
  { by apply on_assistant_replays with (tools := tools) in Hrun. }
  injection Hrun as <-.
  exists []. rewrite app_nil_r. split; [constructor|done].
Qed.

Lemma process_line_replays (line : string) (st st' : scan_state)
    (tools : list tool_info) :
  process_line st line = Ok st' → replays st tools →
  ∃ ts,
    Forall2 extracted
      (filter is_tool_use (from_option event_blocks [] (line_record line))) ts
    ∧ replays st' (tools ++ ts).
Proof.
  unfold process_line, line_record. intros Hrun Hinv.
  case_bool_decide.
  { injection Hrun as <-. exists []. rewrite app_nil_r.
    split; [constructor|done]. }
  destruct (json_loads _) as [obj|]; simpl.
  - by apply (process_record_replays obj st).
  - injection Hrun as <-. exists []. rewrite app_nil_r.
    split; [constructor|]. apply (replays_frame st); [by split|done].
Qed.

(** The tool calls of the session, as extracted, and the state their
    replay gives. *)
Lemma scan_lines_replays (lines : list string) (st : scan_state) :
  scan_lines lines = Ok st →
  ∃ tools,
    Forall2 extracted (session_invocations lines) tools
    ∧ replays st tools.
Proof.
  unfold scan_lines, session_invocations.
  assert (∀ st0 tools0,
    replays st0 tools0 →
    for_each process_line st0 lines = Ok st →
    ∃ ts, Forall2 extracted
            (filter is_tool_use
               (lines ≫= λ line,
                  from_option event_blocks [] (line_record line))) ts
          ∧ replays st (tools0 ++ ts)) as Hgen.
  { induction lines as [|line lines IH]; intros st0 tools0 Hinv; simpl.
    - intros [= <-]. exists []. rewrite app_nil_r.
      split; [constructor|done].
    - intros (st1 & Hline & Hrest)%bind_ok.
      apply process_line_replays with (tools := tools0) in Hline
        as (ts1 & Hts1 & Hinv1); [|done].
      apply IH with (tools0 := tools0 ++ ts1) in Hrest
        as (ts2 & Hts2 & Hinv2); [|done].
      exists (ts1 ++ ts2). rewrite filter_app, app_assoc.
      split; [by apply Forall2_app|done]. }
  intros Hrun.
  apply (Hgen scan_init []) in Hrun as (ts & Hts & Hinv); [eauto|].
  exists scan_init. split; [done|apply tools_eq_refl].
Qed.

End Replay_facts.

(** ** Counters, continued *)

Lemma counter_total_perm (c c' : counter) :
  c ≡ₚ c' → counter_total c = counter_total c'.
Proof.
  induction 1 as [|[k n] c c' _ IH|[k1 n1] [k2 n2] c|c1 c2 c3 _ IH1 _ IH2].
  - done.
  - rewrite !counter_total_cons. lia.
  - rewrite !counter_total_cons. lia.
  - congruence.
Qed.

Lemma counter_total_add (c : counter) (k : pykey) (n : Z) :
  counter_total (counter_add c k n) = counter_total c + n.
Proof.
  induction c as [|[k' m] c IH]; simpl.
  - rewrite counter_total_cons. unfold counter_total. simpl. lia.
  - destruct (decide (k' = k)); rewrite !counter_total_cons; lia.
Qed.

Lemma counter_add_positive (c : counter) (k : pykey) :
  Forall (λ kn, 1 ≤ kn.2) c → Forall (λ kn, 1 ≤ kn.2) (counter_add c k 1).
Proof.
  induction 1 as [|[k' m] c Hm Hc IH]; simpl.
  - repeat constructor. simpl. lia.
  - destruct (decide (k' = k)); constructor; simpl in *; try done. lia.
Qed.

Lemma insert_by_count_sorted (x : pykey * Z) (c : counter) :
  StronglySorted by_count c → StronglySorted by_count (insert_by_count x c).
Proof.
  induction 1 as [|y c Hc IH Hy]; simpl.
  - repeat constructor.
  - destruct (decide (y.2 ≤ x.2)) as [Hle|Hgt].
    + constructor; [by constructor|].
      constructor; [done|].
      eapply Forall_impl; [done|]. unfold by_count. simpl. lia.
    + constructor; [done|].
      rewrite insert_by_count_perm. constructor; [|done].
      unfold by_count. lia.
Qed.

Lemma most_common_sorted (c : counter) : StronglySorted by_count (most_common c).
Proof.
  unfold most_common. induction c as [|x c IH]; simpl; [constructor|].
  by apply insert_by_count_sorted.
Qed.

(** Entries of equal count keep their order. *)
Lemma insert_by_count_ties (n : Z) (x : pykey * Z) (c : counter) :
  filter (λ kn, kn.2 = n) (insert_by_count x c)
  = filter (λ kn, kn.2 = n) (x :: c).
Proof.
  unfold counter in *.
  induction c as [|y c IH]; cbn [insert_by_count]; [done|].
  destruct (decide (y.2 ≤ x.2)) as [Hle|Hgt]; [done|].
  rewrite (filter_cons _ y (insert_by_count x c)), IH.
  rewrite (filter_cons _ x (y :: c)), (filter_cons _ x c),
    (filter_cons _ y c).
  destruct (decide (y.2 = n)) as [Hy|Hy]; [|done].
  destruct (decide (x.2 = n)) as [Hx|Hx]; [lia|done].
Qed.

Lemma most_common_ties (n : Z) (c : counter) :
  filter (λ kn, kn.2 = n) (most_common c) = filter (λ kn, kn.2 = n) c.
Proof.
  unfold most_common, counter in *.
  induction c as [|x c IH]; cbn [foldr]; [done|].
  pose proof (insert_by_count_ties n x (foldr insert_by_count [] c)) as Hins.
  unfold counter in Hins. by rewrite Hins, !filter_cons, IH.
Qed.

(** ** Loops that raise *)

Lemma for_each_raises {S A : Type} (body : S → A → res S) (x : A)
    (xs : list A) :
  x ∈ xs → (∀ st, ∃ e, body st x = Raise e) →
  ∀ st, ∃ e, for_each body st xs = Raise e.
Proof.
  intros Hin Hx. induction xs as [|y xs IH]; intros st; simpl.
  - by apply elem_of_nil in Hin.
  - apply elem_of_cons in Hin as [<-|Hin].
    + destruct (Hx st) as [e ->]. by exists e.
    + destruct (body st y) as [st'|e]; simpl; [by apply IH|by exists e].
Qed.

(** The first element on which the body raises decides the exception. *)
Lemma for_each_raises_at {S A : Type} (body : S → A → res S) (e : exn)
    (before after : list A) (x : A) (st st1 : S) :
  for_each body st before = Ok st1 → body st1 x = Raise e →
  for_each body st (before ++ x :: after) = Raise e.
Proof.
  intros Hbefore Hx. rewrite for_each_app, Hbefore. simpl. by rewrite Hx.
Qed.

(** ** The summary of a session, field by field *)

Section Summary_facts.
Context `{PyRuntime}.

(** X1.  The count of skipped lines that [process_session] returns is the
    number of lines of the log that are not blank and that [json.loads]
    rejects, whatever else the log holds. *)
Theorem skipped_lines_exact (w : world) (path : string)
    (lines : list string) (sm : summary) (skipped : Z) :
  session_files w !! path = Some lines →
  process_session w path = Ok (sm, skipped) →
  skipped = Z.of_nat (length (filter unparseable lines)).
Proof.
  intros Hlines Hrun.
  apply process_session_fields in Hrun
    as (lines' & st & Hlines' & Hscan%scan_lines_log & -> & _).
  assert (lines' = lines) as -> by congruence.
  apply (log_skipped _ _ Hscan).
Qed.

(** X2.  The flag [had_context_compression] of a summary is set exactly
    when the log holds a record of type [summary], with or without a
    summary text. *)
Theorem context_compression_flag (w : world) (path : string)
    (lines : list string) (sm : summary) (skipped : Z) :
  session_files w !! path = Some lines →
  process_session w path = Ok (sm, skipped) →
  st_had_context_compression (sm_stats sm) = true
  ↔ ∃ obj, obj ∈ session_records lines ∧ record_kind obj = JStr "summary".
Proof.
  intros Hlines Hrun.
  apply process_session_fields in Hrun
    as (lines' & st & Hlines' & Hscan%scan_lines_log & _ & _ & _ & _ & _ & _
        & -> & _).
  assert (lines' = lines) as -> by congruence.
  rewrite (log_summary _ _ Hscan), existsb_exists.
  split.
  - intros (obj & Hin%list_elem_of_In & Hkind%py_eq_str_true). eauto.
  - intros (obj & Hin%list_elem_of_In & Hkind). exists obj.
    split; [done|]. by rewrite Hkind.
Qed.

(** X3.  The conversation flow of a summary is made of the texts of the log
    in their order: the user stream holds the text of every [user] record
    that is not blank, the assistant stream the marked text of every
    [summary] record and the text of every [assistant] record that is
    not blank, and the flow interleaves the two streams up to 40
    exchanges.  The two message counts of the summary are the lengths
    of the streams, not of the flow. *)
Theorem conversation_flow_content (w : world) (path : string)
    (lines : list string) (sm : summary) (skipped : Z) :
  session_files w !! path = Some lines →
  process_session w path = Ok (sm, skipped) →
  let users := session_records lines ≫= record_user_texts in
  let assts := session_records lines ≫= record_assistant_texts in
  sm_conversation_flow sm = turns MAX_CONVERSATION_EXCHANGES users assts
  ∧ st_user_messages (sm_stats sm) = length users
  ∧ st_assistant_responses (sm_stats sm) = length assts.
Proof.
  intros Hlines Hrun.
  apply process_session_fields in Hrun
    as (lines' & st & Hlines' & Hscan%scan_lines_log & _ & Hflow & Hu & Ha
        & _).
  assert (lines' = lines) as -> by congruence.
  cbv zeta. rewrite Hflow, Hu, Ha.
  by rewrite (log_users _ _ Hscan), (log_assts _ _ Hscan).
Qed.

Lemma pick_elem (better : json → json → res bool) (xs : list json)
    (x r : json) :
  for_each (λ cur item : json,
              b ← better item cur; Ok (if (b : bool) then item else cur))
           x xs = Ok r →
  r ∈ x :: xs.
Proof.
  revert x. induction xs as [|y xs IH]; intros x; simpl.
  - intros [= <-]. by left.
  - intros (cur & (b & _ & [= <-])%bind_ok & Hrest%IH)%bind_ok.
    destruct b.
    + by right.
    + apply elem_of_cons in Hrest as [->|Hin]; [by left|by do 2 right].
Qed.

(** X4.  The time bounds of a summary are timestamps of the log: when no
    record has a truthy timestamp both are [None]; otherwise the start time
    and the end time are each the timestamp of some record, whatever the
    order [<] and [>] put on timestamps. *)
Theorem time_bounds_from_log (w : world) (path : string)
    (lines : list string) (sm : summary) (skipped : Z) :
  session_files w !! path = Some lines →
  process_session w path = Ok (sm, skipped) →
  let stamps := session_records lines ≫= record_truthy "timestamp" in
  (stamps = [] → sm_start_time sm = JNull ∧ sm_end_time sm = JNull)
  ∧ (stamps ≠ [] → sm_start_time sm ∈ stamps ∧ sm_end_time sm ∈ stamps).
Proof.
  intros Hlines Hrun.
  apply process_session_fields in Hrun
    as (lines' & st & Hlines' & Hscan%scan_lines_log & _ & _ & _ & _ & _ & _
        & _ & _ & Hmin & Hmax & _).
  assert (lines' = lines) as -> by congruence.
  cbv zeta. rewrite <- (log_timestamps _ _ Hscan).
  unfold min_or_none, max_or_none in *.
  destruct (timestamps st) as [|t ts].
  - injection Hmin as <-. injection Hmax as <-. done.
  - split; [done|]. intros _.
    split; [by eapply pick_elem|by eapply pick_elem].
Qed.

Lemma string_ltb_leb (s t : string) : String.ltb s t = negb (String.leb t s).
Proof.
  unfold String.ltb, String.leb. rewrite (String.compare_antisym s t).
  by destruct (String.compare t s).
Qed.

Lemma string_ltb_true (s t : string) :
  String.ltb s t = true → String.le s t.
Proof.
  rewrite string_ltb_leb. intros Hts%negb_true_iff.
  destruct (String.le_total s t) as [Hle|Hle]; [done|].
  apply Is_true_true in Hle. unfold String.le in Hle. congruence.
Qed.

Lemma string_ltb_false (s t : string) :
  String.ltb s t = false → String.le t s.
Proof.
  rewrite string_ltb_leb. intros Hts%negb_false_iff.
  by apply Is_true_true.
Qed.

Lemma least_string (ts : list json) (s0 : string) (r : json) :
  (∀ a b, py_lt (JStr a) (JStr b) = Ok (String.ltb a b)) →
  Forall (λ t, ∃ s, t = JStr s) ts →
  for_each (λ cur item : json,
              b ← py_lt item cur; Ok (if (b : bool) then item else cur))
           (JStr s0) ts = Ok r →
  ∃ s, r = JStr s ∧ String.le s s0 ∧ ∀ t, JStr t ∈ ts → String.le s t.
Proof.
  intros Hlt Hts. revert s0.
  induction Hts as [|t ts [t1 ->] _ IH]; intros s0; simpl.
  - intros [= <-]. exists s0. split; [done|]. split; [done|].
    by intros t ?%elem_of_nil.
  - rewrite Hlt. simpl. destruct (String.ltb t1 s0) eqn:Hcmp.
    + intros (s & -> & Hs1 & Hs)%IH. exists s. split; [done|].
      apply string_ltb_true in Hcmp. split; [by etrans|].
      intros t [[= ->]|Hin]%elem_of_cons; auto.
    + intros (s & -> & Hs0 & Hs)%IH. exists s. split; [done|].
      apply string_ltb_false in Hcmp. split; [done|].
      intros t [[= ->]|Hin]%elem_of_cons; [by etrans|auto].
Qed.

Lemma greatest_string (ts : list json) (s0 : string) (r : json) :
  (∀ a b, py_gt (JStr a) (JStr b) = Ok (String.ltb b a)) →
  Forall (λ t, ∃ s, t = JStr s) ts →
  for_each (λ cur item : json,
              b ← py_gt item cur; Ok (if (b : bool) then item else cur))
           (JStr s0) ts = Ok r →
  ∃ e, r = JStr e ∧ String.le s0 e ∧ ∀ t, JStr t ∈ ts → String.le t e.
Proof.
  intros Hgt Hts. revert s0.
  induction Hts as [|t ts [t1 ->] _ IH]; intros s0; simpl.
  - intros [= <-]. exists s0. split; [done|]. split; [done|].
    by intros t ?%elem_of_nil.
  - rewrite Hgt. simpl. destruct (String.ltb s0 t1) eqn:Hcmp.
    + intros (e & -> & He1 & He)%IH. exists e. split; [done|].
      apply string_ltb_true in Hcmp. split; [by etrans|].
      intros t [[= ->]|Hin]%elem_of_cons; auto.
    + intros (e & -> & He0 & He)%IH. exists e. split; [done|].
      apply string_ltb_false in Hcmp. split; [done|].
      intros t [[= ->]|Hin]%elem_of_cons; [by etrans|auto].
Qed.

(** X5.  When the timestamps of the log are strings, and [<] and [>]
    compare strings as Python does, in the lexicographic order, the start
    time of a summary is the least timestamp of the log and the end time
    the greatest. *)
Theorem time_bounds_ordered (w : world) (path : string)
    (lines : list string) (sm : summary) (skipped : Z) :
  (∀ a b, py_lt (JStr a) (JStr b) = Ok (String.ltb a b)) →
  (∀ a b, py_gt (JStr a) (JStr b) = Ok (String.ltb b a)) →
  session_files w !! path = Some lines →
  process_session w path = Ok (sm, skipped) →
  let stamps := session_records lines ≫= record_truthy "timestamp" in
  Forall (λ t, ∃ s, t = JStr s) stamps → stamps ≠ [] →
  ∃ s e,
    sm_start_time sm = JStr s ∧ sm_end_time sm = JStr e
    ∧ ∀ t, JStr t ∈ stamps → String.le s t ∧ String.le t e.
Proof.
  intros Hlt Hgt Hlines Hrun.
  apply process_session_fields in Hrun
    as (lines' & st & Hlines' & Hscan%scan_lines_log & _ & _ & _ & _ & _ & _
        & _ & _ & Hmin & Hmax & _).
  assert (lines' = lines) as -> by congruence.
  cbv zeta. rewrite <- (log_timestamps _ _ Hscan).
  unfold min_or_none, max_or_none in *.
  destruct (timestamps st) as [|t0 ts]; [done|].
  intros [[s0 ->] Hts]%Forall_cons _.
  apply least_string in Hmin as (s & -> & Hs0 & Hs); [|done..].
  apply greatest_string in Hmax as (e & -> & He0 & He); [|done..].
  exists s, e. split; [done|]. split; [done|].
  intros t [[= ->]|Hin]%elem_of_cons; auto.
Qed.

(** X6.  The branch of a summary is the first truthy [gitBranch] of the
    log: a later record never replaces it, and it is [None] when no record
    has one. *)
Theorem git_branch_first_wins (w : world) (path : string)
    (lines : list string) (sm : summary) (skipped : Z) :
  session_files w !! path = Some lines →
  process_session w path = Ok (sm, skipped) →
  sm_git_branch sm
  = default JNull (head (session_records lines ≫= record_truthy "gitBranch")).
Proof.
  intros Hlines Hrun.
  apply process_session_fields in Hrun
    as (lines' & st & Hlines' & Hscan%scan_lines_log & _ & _ & _ & _ & _ & _
        & _ & -> & _).
  assert (lines' = lines) as -> by congruence.
  apply (log_branch _ _ Hscan).
Qed.

(** X7.  The token totals of a summary are the sums, over the [assistant]
    records of the log, of the [input_tokens] and of the [output_tokens] of
    their usage; a record without usage or without the key counts for 0. *)
Theorem token_totals_exact (w : world) (path : string)
    (lines : list string) (sm : summary) (skipped : Z) :
  session_files w !! path = Some lines →
  process_session w path = Ok (sm, skipped) →
  st_total_input_tokens (sm_stats sm)
  = sum_Z (record_tokens "input_tokens" <$> session_records lines)
  ∧ st_total_output_tokens (sm_stats sm)
    = sum_Z (record_tokens "output_tokens" <$> session_records lines).
Proof.
  intros Hlines Hrun.
  apply process_session_fields in Hrun
    as (lines' & st & Hlines' & Hscan%scan_lines_log & _ & _ & _ & _ & -> & ->
        & _).
  assert (lines' = lines) as -> by congruence.
  split; [apply (log_input _ _ Hscan)|apply (log_output _ _ Hscan)].
Qed.

(** X8.  The detail list of a summary holds the records of the first 30
    tool invocations of the session, in the order of the log. *)
Theorem tool_details_first_thirty (w : world) (path : string)
    (lines : list string) (sm : summary) (skipped : Z) :
  session_files w !! path = Some lines →
  process_session w path = Ok (sm, skipped) →
  Forall2 extracted (take MAX_TOOL_DETAILS (session_invocations lines))
          (sm_tool_details sm).
Proof.
  intros Hlines Hrun.
  apply process_session_inv in Hrun
    as (lines' & st & Hlines' & Hscan & _ & _ & _ & _ & _ & -> & _).
  assert (lines' = lines) as -> by congruence.
  apply scan_lines_inv in Hscan as (tools & Htools & Hinv & _).
  rewrite (inv_details _ _ Hinv). by apply Forall2_take.
Qed.

Lemma replays_usage (st : scan_state) (tools : list tool_info) :
  replays st tools →
  counter_total (tool_usage st) = Z.of_nat (length tools)
  ∧ Forall (λ kn, 1 ≤ kn.2) (tool_usage st).
Proof.
  intros (st_t & Hrun & [Hu _ _]). rewrite Hu.
  apply (for_each_invariant
           (λ s seen, counter_total (tool_usage s) = Z.of_nat (length seen)
                      ∧ Forall (λ kn, 1 ≤ kn.2) (tool_usage s))
           tool_step) with (seen := []) (xs := tools) (st := scan_init)
    in Hrun; [done| |done].
  intros s seen t s' [Htotal Hpos] Hstep.
  apply tool_step_spec in Hstep as (k & _ & -> & _).
  rewrite counter_total_add, length_app, Htotal. simpl.
  split; [lia|by apply counter_add_positive].
Qed.

Lemma first_seen_snoc (ks : list pykey) (k : pykey) :
  first_seen (ks ++ [k])
  = if decide (k ∈ first_seen ks) then first_seen ks else first_seen ks ++ [k].
Proof. unfold first_seen. by rewrite foldl_app. Qed.

Lemma replays_keys (st : scan_state) (tools : list tool_info) :
  replays st tools →
  (tool_usage st).*1 = first_seen (tools ≫= λ t, name_key (tool_name t)).
Proof.
  intros (st_t & Hrun & [Hu _ _]). rewrite Hu.
  apply (for_each_invariant
           (λ s seen, (tool_usage s).*1
                      = first_seen (seen ≫= λ t, name_key (tool_name t)))
           tool_step) with (seen := []) (xs := tools) (st := scan_init)
    in Hrun; [done| |done].
  intros s seen t s' Hkeys Hstep.
  apply tool_step_spec in Hstep as (k & Hk & -> & _).
  rewrite counter_add_keys, bind_app. simpl. unfold name_key at 2.
  rewrite Hk. simpl. by rewrite first_seen_snoc, Hkeys.
Qed.

Lemma extracted_keys (blocks : list json) (tools : list tool_info) :
  Forall2 extracted blocks tools →
  tools ≫= (λ t, name_key (tool_name t))
  = blocks ≫= (λ b, name_key (invocation_name b)).
Proof.
  induction 1 as [|b t blocks tools Hbt _ IH]; csimpl; [done|].
  apply extracted_inv in Hbt as (_ & -> & _). by rewrite IH.
Qed.

(** X9.  The tool-usage table of a summary is ranked: its counts decrease
    and each is at least 1; its names are the names used in the session,
    and those of equal count stand in the order of their first use; the
    counts add up to the number of tool invocations of the session. *)
Theorem tool_usage_ranked (w : world) (path : string)
    (lines : list string) (sm : summary) (skipped : Z) :
  session_files w !! path = Some lines →
  process_session w path = Ok (sm, skipped) →
  StronglySorted by_count (sm_tool_usage sm)
  ∧ Forall (λ kn, 1 ≤ kn.2) (sm_tool_usage sm)
  ∧ counter_total (sm_tool_usage sm)
    = Z.of_nat (length (session_invocations lines))
  ∧ (sm_tool_usage sm).*1 ≡ₚ first_seen (invocation_keys lines)
  ∧ ∀ n, (filter (λ kn, kn.2 = n) (sm_tool_usage sm)).*1
         `sublist_of` first_seen (invocation_keys lines).
Proof.
  intros Hlines Hrun.
  apply process_session_inv in Hrun
    as (lines' & st & Hlines' & Hscan & _ & _ & _ & _ & -> & _).
  assert (lines' = lines) as -> by congruence.
  apply scan_lines_replays in Hscan as (tools & Htools & Hreplay).
  destruct (replays_usage _ _ Hreplay) as [Htotal Hpos].
  pose proof (replays_keys _ _ Hreplay) as Hkeys.
  rewrite (extracted_keys _ _ Htools) in Hkeys.
  fold (invocation_keys lines) in Hkeys.
  split_and!.
  - apply most_common_sorted.
  - by rewrite most_common_perm.
  - rewrite (counter_total_perm _ _ (most_common_perm _)), Htotal.
    by rewrite (Forall2_length _ _ _ Htools).
  - by rewrite most_common_perm, Hkeys.
  - intros n. rewrite most_common_ties, <- Hkeys.
    apply fmap_sublist, sublist_filter.
Qed.

End Summary_facts.

(** ** Records that fail the session *)

(** [m ≫= f] raises when [m] does or when [f] does on what [m] returns. *)
Ltac raises_step :=
  match goal with
  | |- ∃ e, (?m ≫= _) = Raise e =>
      let Hm := fresh "Hm" in
      destruct m eqn:Hm; simpl; [|by eexists]
  end.

Section Failure_facts.
Context `{PyRuntime}.

Lemma with_log_lookup (path : string) (lines : list string) (w : world) :
  session_files (with_log path lines w) !! path = Some lines.
Proof. unfold with_log. simpl. apply lookup_insert_eq. Qed.

Lemma process_session_scan_raises (w : world) (path : string)
    (lines : list string) (e : exn) :
  session_files w !! path = Some lines → scan_lines lines = Raise e →
  process_session w path = Raise e.
Proof. unfold process_session. intros -> Hscan. simpl. by rewrite Hscan. Qed.

Lemma line_record_process (st : scan_state) (line : string) (obj : json) :
  line_record line = Some obj →
  process_line st line = process_record obj st.
Proof.
  unfold line_record, process_line. case_bool_decide; [done|].
  by intros ->.
Qed.

(** X10.  A line that holds valid JSON which is not an object (a number, a
    string, a list, [null], ...) is not skipped: it fails the whole session.
    [process_session] raises, and the exception is [AttributeError] when
    the lines before it raise nothing. *)
Theorem non_object_record_fails (w : world) (path : string)
    (before after : list string) (line : string) (obj : json) :
  line_record line = Some obj → not_object obj = true →
  (∃ e, process_session (with_log path (before ++ line :: after) w) path
        = Raise e)
  ∧ (∀ st, scan_lines before = Ok st →
       process_session (with_log path (before ++ line :: after) w) path
       = Raise AttributeError).
Proof.
  intros Hrec Hobj.
  assert (∀ st, process_line st line = Raise AttributeError) as Hline.
  { intros st. rewrite (line_record_process _ _ _ Hrec).
    unfold process_record. by destruct obj. }
  split.
  - destruct (for_each_raises process_line line (before ++ line :: after))
      with (st := scan_init) as [e He].
    + apply elem_of_app. right. by left.
    + intros st. by exists AttributeError.
    + exists e. by eapply process_session_scan_raises, He; apply with_log_lookup.
  - intros st Hbefore.
    eapply process_session_scan_raises; [apply with_log_lookup|].
    by eapply for_each_raises_at.
Qed.

Lemma tool_detail_fields_raises (name inp : json) :
  py_in_strs name known_tools = true → not_object inp = true →
  tool_detail_fields name inp = Raise AttributeError.
Proof.
  unfold tool_detail_fields, known_tools.
  destruct name as [| | |s| |]; try done. simpl.
  intros Hname Hinp.
  repeat (case_bool_decide; [by destruct inp|]; simpl in * ).
  done.
Qed.

Lemma tool_detail_fields_unknown (name inp : json) :
  py_in_strs name known_tools = false → tool_detail_fields name inp = Ok [].
Proof.
  unfold tool_detail_fields, known_tools.
  destruct name as [| | |s| |]; try done. simpl.
  repeat (case_bool_decide; [done|]; simpl).
  done.
Qed.

(** A tool whose name is not one of the eleven known ones is recorded by
    its name alone, whatever its input is. *)
Lemma unknown_tool_name_only (acc : list tool_info) (block : json) :
  is_tool_use block = true →
  py_in_strs (invocation_name block) known_tools = false →
  tool_call_step acc block
  = Ok (acc ++ [{| tool_name := invocation_name block; tool_fields := [] |}]).
Proof.
  intros Htool Hname. unfold tool_call_step.
  unfold is_tool_use, invocation_name, field in *.
  destruct block as [| | | | |items]; try done.
  rewrite Htool. by rewrite tool_detail_fields_unknown.
Qed.

(** X11.  A [tool_use] block of an [assistant] record that names one of the
    eleven known tools and whose [input] is not an object fails the whole
    session: [process_session] raises.  For any other tool name the input
    is not read: the record made of the block has the name alone. *)
Theorem tool_input_not_object_fails (w : world) (path : string)
    (before after : list string) (line : string) (obj block : json) :
  line_record line = Some obj →
  block ∈ event_blocks obj → is_tool_use block = true →
  py_in_strs (invocation_name block) known_tools = true →
  not_object (field block "input" (JObj [])) = true →
  (∃ e, process_session (with_log path (before ++ line :: after) w) path
        = Raise e)
  ∧ ∀ acc other,
      is_tool_use other = true →
      py_in_strs (invocation_name other) known_tools = false →
      tool_call_step acc other
      = Ok (acc ++ [{| tool_name := invocation_name other;
                       tool_fields := [] |}]).
Proof.
  intros Hrec Hblock Htool Hname Hinp.
  split; [|intros acc other; apply unknown_tool_name_only].
  assert (∀ acc, tool_call_step acc block = Raise AttributeError) as Hstep.
  { intros acc. unfold tool_call_step.
    unfold is_tool_use, invocation_name, field in *.
    destruct block as [| | | | |items]; try done.
    rewrite Htool. by rewrite tool_detail_fields_raises. }
  assert (∀ st, ∃ e, process_line st line = Raise e) as Hline.
  { intros st. rewrite (line_record_process _ _ _ Hrec).
    unfold event_blocks in Hblock.
    destruct (py_eq_str (field obj "type" JNull) "assistant") eqn:Hkind;
      [|by apply elem_of_nil in Hblock].
    apply py_eq_str_true in Hkind.
    unfold process_record.
    destruct obj as [| | | | |items]; try done. simpl.
    unfold field in Hkind. rewrite Hkind. simpl.
    unfold on_assistant. simpl.
    raises_step. raises_step. raises_step. raises_step. raises_step.
    raises_step. raises_step. raises_step.
    apply py_get_field in Hm as [-> _].
    unfold extract_tool_calls.
    unfold content_blocks in Hblock.
    destruct (field _ "content" _) as [| | | |blocks|];
      try by apply elem_of_nil in Hblock.
    destruct (for_each_raises tool_call_step block blocks Hblock)
      with (st := @nil tool_info) as [e ->].
    - intros acc. by exists AttributeError.
    - by exists e. }
  destruct (for_each_raises process_line line (before ++ line :: after))
    with (st := scan_init) as [e He]; [|done|].
  - apply elem_of_app. right. by left.
  - exists e. by eapply process_session_scan_raises, He; apply with_log_lookup.
Qed.

Lemma silent_block_texts (max_chars : nat) (block : json) :
  silent_block block = true → block_texts max_chars block = [].
Proof.
  unfold silent_block, block_texts, field.
  destruct block as [| | | | |items]; try done.
  intros [Htext Hthinking]%andb_true_iff.
  apply negb_true_iff in Htext, Hthinking. by rewrite Htext, Hthinking.
Qed.

Lemma silent_blocks_text (max_chars : nat) (blocks : list json) :
  Forall (λ b, silent_block b = true) blocks →
  extract_text_from_content (JArr blocks) max_chars = "".
Proof.
  intros Hsilent. unfold extract_text_from_content.
  assert (foldl (λ texts block, texts ++ block_texts max_chars block)
                [] blocks = []) as ->; [|done].
  induction Hsilent as [|b blocks Hb _ IH]; simpl; [done|].
  by rewrite silent_block_texts.
Qed.

(** X12.  A [user] record whose content is a list of blocks none of which
    is a string, a [text] block or a [thinking] block (tool results, images)
    adds no user message: it is not counted and takes no turn of the
    conversation flow. *)
Theorem silent_user_record (obj : json) (st st' : scan_state)
    (blocks : list json) :
  record_content obj (JStr "") = JArr blocks →
  Forall (λ b, silent_block b = true) blocks →
  on_user obj st = Ok st' →
  user_messages st' = user_messages st ∧ record_user_texts obj = [].
Proof.
  unfold record_content. intros Hcontent Hsilent Hrun. split.
  - unfold on_user in Hrun.
    apply bind_ok in Hrun as (msg & [-> _]%py_get_field & Hrun).
    apply bind_ok in Hrun as (content & [-> _]%py_get_field & [= <-]).
    rewrite Hcontent, silent_blocks_text by done. done.
  - unfold record_user_texts, record_content.
    destruct (py_eq_str _ "user"); [|done].
    rewrite Hcontent, silent_blocks_text by done. done.
Qed.

End Failure_facts.

(** ** The run over the sessions *)

Section Run_facts.
Context `{PyRuntime}.

Lemma process_session_ext (w1 w2 : world) (path : string) :
  session_files w1 = session_files w2 → subagent_dirs w1 = subagent_dirs w2 →
  process_session w1 path = process_session w2 path.
Proof. unfold process_session. by intros -> ->. Qed.

(** What one pass of the loop does to the counts, to the collected
    summaries and to the logs. *)
Lemma main_step_account (force : bool) (summaries_dir : string)
    (rs : run_state) (p : string) :
  let rs' := main_step force summaries_dir rs p in
  new_count rs' + skipped_count rs' + error_count rs'
  = new_count rs + skipped_count rs + error_count rs + 1
  ∧ Z.of_nat (length (all_summaries rs')) - (new_count rs' + skipped_count rs')
    = Z.of_nat (length (all_summaries rs)) - (new_count rs + skipped_count rs)
  ∧ session_files (disk rs') = session_files (disk rs)
  ∧ subagent_dirs (disk rs') = subagent_dirs (disk rs)
  ∧ (force = true → skipped_count rs' = skipped_count rs)
  ∧ (∃ new, all_summaries rs' = all_summaries rs ++ new
       ∧ (force = true → Forall (λ s, is_fresh s = true) new)
       ∧ ∀ sm, Fresh sm ∈ new →
           ∃ skipped, process_session (disk rs) p = Ok (sm, skipped)).
Proof.
  assert (let rs' := reprocess (summary_path_of summaries_dir p) p rs in
          new_count rs' + skipped_count rs' + error_count rs'
          = new_count rs + skipped_count rs + error_count rs + 1
          ∧ Z.of_nat (length (all_summaries rs'))
            - (new_count rs' + skipped_count rs')
            = Z.of_nat (length (all_summaries rs))
              - (new_count rs + skipped_count rs)
          ∧ session_files (disk rs') = session_files (disk rs)
          ∧ subagent_dirs (disk rs') = subagent_dirs (disk rs)
          ∧ skipped_count rs' = skipped_count rs
          ∧ (∃ new, all_summaries rs' = all_summaries rs ++ new
               ∧ Forall (λ s, is_fresh s = true) new
               ∧ ∀ sm, Fresh sm ∈ new →
                   ∃ skipped, process_session (disk rs) p = Ok (sm, skipped)))
    as Hre.
  { unfold reprocess.
    destruct (process_session (disk rs) p) as [[sm skipped]|e]; simpl.
    - rewrite length_app. simpl. split_and!; try done; try lia.
      exists [Fresh sm]. split_and!; [done|by repeat constructor|].
      intros sm' [= ->]%list_elem_of_singleton. eauto.
    - split_and!; try done; try lia.
      exists []. rewrite app_nil_r. split_and!; [done|constructor|].
      by intros sm' ?%elem_of_nil. }
  cbv zeta in *. destruct Hre as (H1 & H2 & H3 & H4 & H5 & new & H6 & H7 & H8).
  unfold main_step. fold (summary_path_of summaries_dir p).
  destruct force; simpl.
  { split_and!; try done. exists new. auto. }
  case_bool_decide as Hexists; simpl; [|split_and!; try done; eauto].
  destruct (summary_files (disk rs) !! summary_path_of summaries_dir p
            ≫= json_loads) as [existing|]; simpl;
    [|split_and!; try done; eauto].
  rewrite length_app. simpl. split_and!; try done; try lia.
  exists [Cached existing]. split_and!; [done|done|].
  intros sm [=]%list_elem_of_singleton.
Qed.

(** The loop never writes to a log. *)
Lemma main_loop_logs (force : bool) (summaries_dir : string) (w : world)
    (sessions : list string) :
  session_files (disk (main_loop force summaries_dir w sessions))
  = session_files w
  ∧ subagent_dirs (disk (main_loop force summaries_dir w sessions))
    = subagent_dirs w.
Proof.
  unfold main_loop.
  induction sessions as [|p sessions IH] using rev_ind; [done|].
  rewrite foldl_app. simpl.
  destruct (main_step_account force summaries_dir
              (foldl (main_step force summaries_dir) (run_init w) sessions) p)
    as (_ & _ & H3 & H4 & _).
  destruct IH. split; congruence.
Qed.

(** The account of the whole loop. *)
Lemma main_loop_account (force : bool) (summaries_dir : string)
    (w : world) (sessions : list string) :
  let rs := main_loop force summaries_dir w sessions in
  new_count rs + skipped_count rs + error_count rs
  = Z.of_nat (length sessions)
  ∧ Z.of_nat (length (all_summaries rs)) = new_count rs + skipped_count rs
  ∧ session_files (disk rs) = session_files w
  ∧ subagent_dirs (disk rs) = subagent_dirs w
  ∧ (force = true →
     skipped_count rs = 0 ∧ Forall (λ s, is_fresh s = true) (all_summaries rs))
  ∧ ∀ sm, Fresh sm ∈ all_summaries rs →
      ∃ p skipped, p ∈ sessions ∧ process_session w p = Ok (sm, skipped).
Proof.
  unfold main_loop. cbv zeta.
  induction sessions as [|p sessions IH] using rev_ind; [by simpl; split_and!;
    try done; try (intros _; split; [done|constructor]);
    intros sm ?%elem_of_nil|].
  rewrite foldl_app. simpl.
  set (rs := foldl (main_step force summaries_dir) (run_init w) sessions) in *.
  destruct IH as (I1 & I2 & I3 & I4 & I5 & I6).
  destruct (main_step_account force summaries_dir rs p)
    as (H1 & H2 & H3 & H4 & H5 & new & H6 & H7 & H8).
  rewrite length_app. simpl.
  split_and!; try congruence; try lia.
  - intros Hforce. destruct (I5 Hforce) as [I5a I5b].
    split; [rewrite H5 by done; done|].
    rewrite H6. apply Forall_app. auto.
  - intros sm. rewrite H6. intros [Hin|Hin]%elem_of_app.
    + destruct (I6 sm Hin) as (q & skipped & Hq & Hrun).
      exists q, skipped. split; [apply elem_of_app; by left|done].
    + destruct (H8 sm Hin) as [skipped Hrun].
      exists p, skipped. split; [apply elem_of_app; right; by left|].
      by rewrite <- (process_session_ext (disk rs) w).
Qed.

(** X13.  The loop of [main] accounts for every session exactly once, as
    new, skipped or failed; the collected summaries are the new and the
    skipped ones; the logs are left as they were; with the force flag no
    session is skipped; and every summary built in the run is what
    [process_session] returns for one of the sessions. *)
Theorem main_loop_accounts (force : bool) (summaries_dir : string)
    (w : world) (sessions : list string) :
  let rs := main_loop force summaries_dir w sessions in
  new_count rs + skipped_count rs + error_count rs
  = Z.of_nat (length sessions)
  ∧ Z.of_nat (length (all_summaries rs)) = new_count rs + skipped_count rs
  ∧ session_files (disk rs) = session_files w
  ∧ subagent_dirs (disk rs) = subagent_dirs w
  ∧ (force = true →
     skipped_count rs = 0 ∧ Forall (λ s, is_fresh s = true) (all_summaries rs))
  ∧ ∀ sm, Fresh sm ∈ all_summaries rs →
      ∃ p skipped, p ∈ sessions ∧ process_session w p = Ok (sm, skipped).
Proof. apply main_loop_account. Qed.

Lemma process_session_id (w : world) (path : string) (sm : summary)
    (skipped : Z) :
  process_session w path = Ok (sm, skipped) →
  sm_session_id sm = py_remove ".jsonl" (basename path)
  ∧ sm_project sm = basename (dirname path).
Proof.
  unfold process_session. intros Hp.
  destruct (session_files w !! path) as [lines|]; [|done]. simpl in Hp.
  apply bind_ok in Hp as (st & _ & Hp).
  apply bind_ok in Hp as (fs & _ & Hp).
  apply bind_ok in Hp as (t0 & _ & Hp).
  apply bind_ok in Hp as (t1 & _ & Hp).
  apply bind_ok in Hp as (models & _ & Hp).
  by injection Hp as <- <-.
Qed.

(** X14.  A summary that has just been written is found by the next pass.
    Once [process_session] has succeeded for a session, its summary is on
    disk in the file named after the [session_id] the summary holds; a pass
    without the force flag over the same session reads the file back and
    reuses it, provided [json.loads] accepts what [json.dumps] wrote.  So
    does a pass over any other log of the same file name: that log is never
    compacted. *)
Theorem written_summary_is_reused (summaries_dir : string) (rs : run_state)
    (p p' : string) (sm : summary) (skipped : Z) (existing : json) :
  process_session (disk rs) p = Ok (sm, skipped) →
  json_loads (json_dumps (summary_to_json sm)) = Some existing →
  basename p' = basename p →
  let rs1 := reprocess (summary_path_of summaries_dir p) p rs in
  summary_path_of summaries_dir p
  = path_join summaries_dir (sm_session_id sm +:+ ".json")
  ∧ summary_files (disk rs1) !! summary_path_of summaries_dir p
    = Some (json_dumps (summary_to_json sm))
  ∧ all_summaries rs1 = all_summaries rs ++ [Fresh sm]
  ∧ main_step false summaries_dir rs1 p' = reused existing rs1.
Proof.
  intros Hrun Hloads Hname. cbv zeta.
  assert (summary_files
            (disk (reprocess (summary_path_of summaries_dir p) p rs))
            !! summary_path_of summaries_dir p
          = Some (json_dumps (summary_to_json sm))) as Hfile.
  { unfold reprocess. rewrite Hrun. simpl. apply lookup_insert_eq. }
  split_and!.
  - apply process_session_id in Hrun as [-> _]. done.
  - done.
  - unfold reprocess. by rewrite Hrun.
  - unfold main_step. rewrite Hname. fold (summary_path_of summaries_dir p).
    rewrite Hfile. simpl. by rewrite Hloads.
Qed.

Lemma main_step_bump (force : bool) (summaries_dir : string)
    (rs : run_state) (p : string) :
  main_step force summaries_dir (bump_error rs) p
  = bump_error (main_step force summaries_dir rs p).
Proof.
  unfold main_step, reprocess. simpl.
  destruct (negb force && _); [|by destruct (process_session _ _) as [[]|]].
  destruct (_ ≫= json_loads); [done|].
  by destruct (process_session _ _) as [[]|].
Qed.

Lemma main_loop_from_bump (force : bool) (summaries_dir : string)
    (sessions : list string) (rs : run_state) :
  foldl (main_step force summaries_dir) (bump_error rs) sessions
  = bump_error (foldl (main_step force summaries_dir) rs sessions).
Proof.
  revert rs. induction sessions as [|p sessions IH]; intros rs; simpl; [done|].
  by rewrite main_step_bump, IH.
Qed.

(** X15.  A session that fails leaves no trace but one more error: when
    [process_session] raises for a session that has no cached summary to
    fall back on (or the force flag is set), the run over the whole list
    ends in the state of the run over the list without that session, with
    the error count one higher.  The sessions after it are processed as if
    it were not there. *)
Theorem failing_session_isolated (force : bool) (summaries_dir : string)
    (w : world) (before after : list string) (bad : string) (e : exn) :
  process_session w bad = Raise e →
  (force = true
   ∨ ∀ content,
       summary_files (disk (main_loop force summaries_dir w before))
         !! summary_path_of summaries_dir bad = Some content →
       json_loads content = None) →
  main_loop force summaries_dir w (before ++ bad :: after)
  = bump_error (main_loop force summaries_dir w (before ++ after)).
Proof.
  intros Hraise Hcache. unfold main_loop in *.
  rewrite !foldl_app. simpl.
  set (rs := foldl (main_step force summaries_dir) (run_init w) before) in *.
  assert (main_step force summaries_dir rs bad = bump_error rs) as ->;
    [|apply main_loop_from_bump].
  assert (process_session (disk rs) bad = Raise e) as Hbad.
  { rewrite <- Hraise. apply process_session_ext.
    - apply (main_loop_logs force summaries_dir w before).
    - apply (main_loop_logs force summaries_dir w before). }
  assert (reprocess (summary_path_of summaries_dir bad) bad rs
          = bump_error rs) as Hre.
  { unfold reprocess. by rewrite Hbad. }
  unfold main_step. fold (summary_path_of summaries_dir bad).
  destruct Hcache as [->|Hcache]; [done|].
  destruct (negb force && _); [|done].
  destruct (summary_files (disk rs) !! summary_path_of summaries_dir bad)
    as [content|] eqn:Hfile; simpl; [|done].
  by rewrite (Hcache content).
Qed.

(** X16.  With the force flag every session that can be compacted is
    persisted: when no two sessions share a summary file, the summaries of
    the run hold the summary of each session for which [process_session]
    succeeds, and at the end of the run its summary file holds that
    summary as [json.dumps] writes it. *)
Theorem forced_run_persists (summaries_dir : string) (w : world)
    (sessions : list string) (p : string) (sm : summary) (skipped : Z) :
  NoDup (summary_path_of summaries_dir <$> sessions) →
  p ∈ sessions → process_session w p = Ok (sm, skipped) →
  let rs := main_loop true summaries_dir w sessions in
  Fresh sm ∈ all_summaries rs
  ∧ summary_files (disk rs) !! summary_path_of summaries_dir p
    = Some (json_dumps (summary_to_json sm)).
Proof.
  intros Hnd Hp Hrun. cbv zeta. unfold main_loop.
  induction sessions as [|q sessions IH] using rev_ind;
    [by apply elem_of_nil in Hp|].
  rewrite foldl_app. simpl.
  pose proof (main_loop_logs true summaries_dir w sessions) as [Hlogs Hsub].
  unfold main_loop in Hlogs, Hsub.
  set (rs := foldl (main_step true summaries_dir) (run_init w) sessions) in *.
  rewrite fmap_app in Hnd. apply NoDup_app in Hnd as (Hnd & Hfresh & _).
  unfold main_step. simpl. fold (summary_path_of summaries_dir q).
  apply elem_of_app in Hp as [Hp|Hp%list_elem_of_singleton].
  - destruct (IH Hnd Hp) as [Hin Hfile].
    assert (summary_path_of summaries_dir p
            ≠ summary_path_of summaries_dir q) as Hne.
    { intros Heq. apply (Hfresh (summary_path_of summaries_dir p)).
      + apply list_elem_of_fmap. eauto.
      + rewrite Heq. by left. }
    unfold reprocess.
    destruct (process_session (disk rs) q) as [[sm' skipped']|e]; simpl.
    + split; [apply elem_of_app; by left|].
      by rewrite lookup_insert_ne.
    + done.
  - subst q. unfold reprocess.
    rewrite (process_session_ext (disk rs) w) by done.
    rewrite Hrun. simpl.
    split; [apply elem_of_app; right; by left|apply lookup_insert_eq].
Qed.

End Run_facts.

(** ** Discovery, the manifest and [main] *)


Lemma map_m_raises {A B : Type} (f : A → mres B) (x : A) (xs : list A) :
  x ∈ xs → (∃ e, f x = MRaise e) → ∃ e, map_m f xs = MRaise e.
Proof.
  intros Hin [e He]. induction xs as [|z xs IH]; simpl.
  - by apply elem_of_nil in Hin.
  - apply elem_of_cons in Hin as [<-|Hin].
    + rewrite He. simpl. by exists e.
    + destruct (f z) as [y|e']; simpl; [|by exists e'].
      destruct (IH Hin) as [e' ->]. simpl. by exists e'.
Qed.



(** [m ≫= f] raises when [m] does, for the results of [main]. *)
Ltac mraises_step :=
  match goal with
  | |- ∃ e, (?m ≫= _) = MRaise e =>
      let Hm := fresh "Hm" in
      destruct m eqn:Hm; simpl; [|by eexists]
  end.

Lemma manifest_entry_raises (existing : json) (k : string) (e0 : main_exn) :
  k ∈ ["session_id"; "project"; "start_time"; "end_time"; "stats";
       "models_used"; "tool_usage"] →
  py_subscript existing k = MRaise e0 →
  ∃ e, manifest_entry (Cached existing) = MRaise e.
Proof.
  intros Hk Hraise. simpl.
  repeat (apply elem_of_cons in Hk as [->|Hk];
          [repeat (first [by (rewrite Hraise; eexists) | mraises_step]);
           try congruence|]).
  by apply elem_of_nil in Hk.
Qed.

Lemma discover_sessions_elem (globbed : list string) (p : string) :
  p ∈ discover_sessions globbed
  ↔ p ∈ globbed ∧ py_in "/subagents/" p = false.
Proof.
  unfold discover_sessions.
  by rewrite merge_sort_Permutation, list_elem_of_filter, (comm and).
Qed.

Section Main_facts.
Context `{PyRuntime}.

(** X17.  [main] processes the discovered logs in the lexicographic order
    of their paths, and a log whose path contains [/subagents/] is never
    among them: when [main] completes, the run is the loop over the sorted
    list of the other paths, each of them is accounted for once, and every
    summary built in the run is the summary of one of them. *)
Theorem main_skips_subagent_logs (force session_dir_exists : bool)
    (output_dir : string) (globbed : list string) (now : string) (w : world)
    (rs : run_state) (manifest : json) :
  main force session_dir_exists output_dir globbed now w
  = MOk (rs, manifest) →
  ∃ sessions,
    rs = main_loop force (path_join output_dir "session_summaries") w sessions
    ∧ StronglySorted String.le sessions
    ∧ sessions ≡ₚ filter (λ p, py_in "/subagents/" p = false) globbed
    ∧ sessions ≠ []
    ∧ new_count rs + skipped_count rs + error_count rs
      = Z.of_nat (length sessions)
    ∧ ∀ sm, Fresh sm ∈ all_summaries rs →
        ∃ p skipped,
          p ∈ globbed ∧ py_in "/subagents/" p = false
          ∧ process_session w p = Ok (sm, skipped).
Proof.
  unfold main. destruct session_dir_exists; simpl; [|done].
  case_bool_decide as Hempty; [done|].
  intros Hmain. exists (discover_sessions globbed).
  destruct (build_manifest _ _) as [m|e]; simpl in Hmain; [|done].
  injection Hmain as <- <-.
  destruct (main_loop_account force (path_join output_dir "session_summaries")
              w (discover_sessions globbed)) as (H1 & _ & _ & _ & _ & H6).
  split_and!; try done.
  - apply (StronglySorted_merge_sort _).
  - apply merge_sort_Permutation.
  - intros sm Hin. destruct (H6 sm Hin) as (p & skipped & Hp & Hrun).
    apply discover_sessions_elem in Hp as [Hp Hsub]. eauto 6.
Qed.


(** X19.  A cached summary that parses but lacks one of the keys the
    manifest reads aborts the run: when the loop has reused a document on
    which the subscript of [session_id], [project], [start_time],
    [end_time], [stats], [models_used] or [tool_usage] fails, [main] raises
    after the loop, and no manifest is written. *)
Theorem cached_summary_without_key_aborts (force : bool)
    (output_dir : string) (globbed : list string) (now : string) (w : world)
    (existing : json) (k : string) (e0 : main_exn) :
  discover_sessions globbed ≠ [] →
  Cached existing
    ∈ all_summaries
        (main_loop force (path_join output_dir "session_summaries") w
                   (discover_sessions globbed)) →
  k ∈ ["session_id"; "project"; "start_time"; "end_time"; "stats";
       "models_used"; "tool_usage"] →
  py_subscript existing k = MRaise e0 →
  ∃ e, main force true output_dir globbed now w = MRaise e.
Proof.
  intros Hsessions Hin Hk Hraise. unfold main. simpl.
  rewrite bool_decide_eq_false_2 by done.
  destruct (map_m_raises manifest_entry _ _ Hin) as [e He].
  { by eapply manifest_entry_raises. }
  exists e. unfold build_manifest. by rewrite He.
Qed.

Lemma sorted_take_drop {A : Type} (R : relation A) (n : nat) (l : list A)
    (x y : A) :
  StronglySorted R l → x ∈ take n l → y ∈ drop n l → R x y.
Proof.
  intros Hl. revert n. induction Hl as [|z l Hl IH Hz]; intros [|n]; simpl;
    try by intros ?%elem_of_nil.
  intros [->|Hx]%elem_of_cons Hy.
  - rewrite Forall_forall in Hz. apply Hz.
    by apply (subseteq_drop n l).
  - by eapply IH.
Qed.

(** X20.  The [top_tools] of the manifest entry of a summary built in the
    run are the names of its five most used tools, most used first: no tool
    left out has been used more often than a tool listed. *)
Theorem manifest_top_tools (w : world) (path : string) (sm : summary)
    (skipped : Z) :
  process_session w path = Ok (sm, skipped) →
  ∃ entry,
    manifest_entry (Fresh sm) = MOk entry
    ∧ field entry "top_tools" JNull
      = JArr (key_to_json <$> (take 5 (sm_tool_usage sm)).*1)
    ∧ StronglySorted by_count (take 5 (sm_tool_usage sm))
    ∧ ∀ listed other,
        listed ∈ take 5 (sm_tool_usage sm) →
        other ∈ drop 5 (sm_tool_usage sm) →
        other.2 ≤ listed.2.
Proof.
  intros Hrun.
  apply process_session_inv in Hrun
    as (lines & st & _ & _ & _ & _ & _ & _ & Husage & _).
  eexists. split; [done|]. simpl.
  split; [by rewrite !fmap_take|]. rewrite Husage.
  split; [apply StronglySorted_take, most_common_sorted|].
  intros listed other Hl Ho.
  apply (sorted_take_drop by_count 5 (most_common (tool_usage st)));
    [apply most_common_sorted|done|done].
Qed.

End Main_facts.

(* ================================================================= *)
(** * Part VIII: further properties of the aggregation engine *)

(** ** Sums of dict fields *)

Lemma add_items_get (k : string) (items : list (string * json))
    (c : counter) :
  counter_get (add_items c items) (KStr k)
  = counter_get c (KStr k) + items_amount k items.
Proof.
  unfold add_items, items_amount. revert c.
  induction items as [|[k' v] items IH]; intros c; csimpl; [simpl; lia|].
  rewrite IH.
  destruct (numeric v) as [n|]; csimpl.
  - rewrite counter_get_add.
    destruct (decide (k' = k)) as [->|Hne].
    + rewrite decide_True by done. lia.
    + rewrite decide_False by congruence. lia.
  - destruct (decide (k' = k)); lia.
Qed.

Lemma add_items_keys (items : list (string * json)) (c : counter) :
  NoDup c.*1 → Forall (λ key, ∃ k, key = KStr k) c.*1 →
  NoDup (add_items c items).*1
  ∧ Forall (λ key, ∃ k, key = KStr k) (add_items c items).*1.
Proof.
  unfold add_items. revert c.
  induction items as [|[k' v] items IH]; intros c Hnd Hstr; simpl; [done|].
  apply IH; destruct (numeric v); try done.
  - by apply counter_add_NoDup.
  - rewrite counter_add_keys. destruct (decide _); [done|].
    apply Forall_app. split; [done|]. repeat constructor. eauto.
Qed.

(** X21.  [aggregate_dict_field] sums exactly: the entry of a key is the
    sum, over the facets whose field is a dict, of the numeric values the
    dict holds under the key; values that are not numbers, and fields that
    are not dicts, add nothing.  The keys are strings, each listed once.  A
    facet that is not a dict makes it raise. *)
Theorem aggregate_dict_field_exact (facets : list json) (fld : string) :
  (∀ c, aggregate_dict_field facets fld = Ok c →
     (∀ k, counter_get c (KStr k) = sum_Z (facet_amount fld k <$> facets))
     ∧ NoDup c.*1
     ∧ Forall (λ key, ∃ k, key = KStr k) c.*1)
  ∧ (Exists (λ f, not_object f = true) facets →
     aggregate_dict_field facets fld = Raise AttributeError).
Proof.
  split.
  - intros c Hrun. unfold aggregate_dict_field in Hrun.
    apply (for_each_invariant
             (λ (c : counter) (seen : list json),
                (∀ k, counter_get c (KStr k)
                      = sum_Z (facet_amount fld k <$> seen))
                ∧ NoDup c.*1
                ∧ Forall (λ key, ∃ k, key = KStr k) c.*1))
      with (seen := []) (xs := facets) (st := []) in Hrun; [done| |].
    + intros c0 seen f c1 (Hget & Hnd & Hstr) Hstep.
      apply bind_ok in Hstep as (val & [-> _]%py_get_field & [= <-]).
      split.
      * intros k. rewrite fmap_app, sum_Z_app. simpl.
        unfold facet_amount at 2.
        destruct (field f fld (JObj [])); rewrite ?add_items_get, Hget; lia.
      * destruct (field f fld (JObj [])); try done.
        by apply add_items_keys.
    + split_and!; [done|constructor|constructor].
  - intros Hbad. unfold aggregate_dict_field.
    generalize ([] : counter).
    induction Hbad as [g gs Hg|g gs Hbad IH]; intros c; simpl.
    + by destruct g.
    + destruct g; try done. simpl. apply IH.
Qed.

(** ** Friction counts that are not numbers *)

Lemma any_positive_raises (before after : list json) (v : json) :
  Forall (λ x, ∃ n, numeric x = Some n ∧ n ≤ 0) before →
  numeric v = None →
  any_positive (before ++ v :: after) = Raise TypeError.
Proof.
  intros Hbefore Hv.
  induction Hbefore as [|x before (n & Hx & Hn) _ IH]; simpl.
  - by rewrite Hv.
  - rewrite Hx. destruct (0 <? n) eqn:Hpos; [|done].
    apply Z.ltb_lt in Hpos. lia.
Qed.

Section Friction_facts.
Context `{Float64}.

(** X22.  [aggregate_dict_field] passes over a friction count that is not
    a number, the friction rate does not: a facet whose [friction_counts]
    holds a value that is not a number (a string, [null], a list) before any
    positive count makes [build_report_data] fail, although the sums of the
    friction counts are computed without error. *)
Theorem non_numeric_friction_fails (facets : list json) (f : json)
    (items : list (string * json)) (before after : list json) (v : json) :
  f ∈ facets →
  field f "friction_counts" JNull = JObj items →
  items.*2 = before ++ v :: after →
  Forall (λ x, ∃ n, numeric x = Some n ∧ n ≤ 0) before →
  numeric v = None →
  (∃ e, build_aggregates facets = Raise e)
  ∧ (Forall (λ g, not_object g = false) facets →
     ∃ c, aggregate_dict_field facets "friction_counts" = Ok c).
Proof.
  intros Hf Hfield Hitems Hbefore Hv. split.
  - assert (∀ n, ∃ e,
              (λ (n : Z) (f : json),
                 b ← has_friction f; Ok (if (b : bool) then n + 1 else n))
                n f = Raise e) as Hstep.
    { intros n. unfold has_friction.
      destruct f as [| | | | |fitems]; simpl; try by eexists.
      simpl in Hfield. rewrite Hfield.
      assert (py_truthy (JObj items) = true) as ->.
      { destruct items; [by destruct before|done]. }
      rewrite Hitems, any_positive_raises by done. by eexists. }
    unfold build_aggregates.
    destruct (Z.of_nat (length facets) =? 0); [by eexists|].
    raises_step. raises_step. raises_step. raises_step. raises_step.
    raises_step. raises_step.
    unfold count_with_friction.
    destruct (for_each_raises _ f facets Hf Hstep 0) as [e ->].
    by exists e.
  - intros Hdicts. clear Hf. unfold aggregate_dict_field.
    generalize ([] : counter).
    induction Hdicts as [|g gs Hg _ IH]; intros c; simpl; [by eexists|].
    destruct g; try done. simpl. apply IH.
Qed.

End Friction_facts.

(** ** The recommendations, continued *)

(** [x] is a member of a list written out. *)
Ltac listed :=
  repeat first [apply list_elem_of_here | apply list_elem_of_further].

(** A recommendation is not a member of a list written out of
    recommendations with other titles. *)
Ltac not_listed H :=
  repeat (apply elem_of_cons in H as [H|H];
          [apply (f_equal title) in H; simpl in H; discriminate H|]);
  by apply elem_of_nil in H.

(** X23.  Which recommendations the cap of 5 can drop.  The first five
    gated recommendations are never dropped: each is in the list whenever
    its gate holds.  The sixth, on missed context, is in the list when its
    gate holds unless the five gates before it hold too.  The monthly
    recommendation is in the list exactly when at most four gates hold. *)
Theorem recommendations_complete (friction_counter : counter)
    (total_sessions : Z) (goal_counter session_types : counter) :
  let recs := generate_recommendations friction_counter total_sessions
                goal_counter session_types in
  let fc k := counter_get friction_counter (KStr k) in
  let research := counter_get goal_counter (KStr "research") in
  let open := gates_open friction_counter total_sessions goal_counter in
  (3 ≤ fc "context_overflow" →
   rec_session_length (fc "context_overflow") ∈ recs)
  ∧ (5 ≤ fc "tool_failure" → rec_subagent_limits (fc "tool_failure") ∈ recs)
  ∧ (1 ≤ fc "fabricated_data" → rec_guardrails (fc "fabricated_data") ∈ recs)
  ∧ (5 ≤ fc "wrong_approach" → rec_constraints (fc "wrong_approach") ∈ recs)
  ∧ (3 * total_sessions < 10 * research → rec_research_skill research ∈ recs)
  ∧ (3 ≤ fc "missed_context" →
     (rec_context_loading (fc "missed_context") ∈ recs ↔ (open ≤ 5)%nat))
  ∧ (rec_monthly ∈ recs ↔ (open ≤ 4)%nat).
Proof.
  cbv zeta.
  unfold generate_recommendations, gates_open, gates, research_dominates.
  repeat case_bool_decide; simpl;
    (split_and!; [intros ?..|split; intros Hm|split; intros Hm]);
    first [lia | by listed | not_listed Hm].
Qed.

(** ** The outcome chart *)

Lemma sum_Z_positive_part {A : Type} (g : A → Z) (xs : list A) :
  (∀ x, 0 ≤ g x) →
  sum_Z (g <$> filter (λ x, 0 < g x) xs) = sum_Z (g <$> xs).
Proof.
  intros Hg. induction xs as [|x xs IH]; [done|].
  rewrite filter_cons. destruct (decide (0 < g x)) as [Hx|Hx]; csimpl.
  - rewrite ?sum_Z_cons, IH. lia.
  - rewrite ?sum_Z_cons, IH. specialize (Hg x). lia.
Qed.

Lemma labelled_among_cons (fld dflt k : string) (ks : list string)
    (facets : list json) :
  k ∉ ks →
  length (labelled_among fld dflt (k :: ks) facets)
  = (length (labelled fld dflt k facets)
     + length (labelled_among fld dflt ks facets))%nat.
Proof.
  intros Hk. unfold labelled_among, labelled, py_in_strs.
  induction facets as [|f facets IH]; [done|].
  rewrite !filter_cons. cbn [existsb] in *.
  destruct (py_eq_str (field f fld (JStr dflt)) k) eqn:Hf;
    destruct (existsb (py_eq_str (field f fld (JStr dflt))) ks) eqn:Hks;
    simpl; rewrite ?IH; try lia.
  exfalso. apply Hk.
  apply py_eq_str_true in Hf.
  apply existsb_exists in Hks as (k' & Hin%list_elem_of_In & Hk').
  apply py_eq_str_true in Hk'. congruence.
Qed.

Lemma labelled_among_sum (fld dflt : string) (ks : list string)
    (facets : list json) :
  NoDup ks →
  sum_Z ((λ k, Z.of_nat (length (labelled fld dflt k facets))) <$> ks)
  = Z.of_nat (length (labelled_among fld dflt ks facets)).
Proof.
  induction 1 as [|k ks Hk _ IH]; csimpl.
  - unfold labelled_among.
    induction facets as [|f facets IH]; [done|].
    by rewrite filter_cons_False by (by intros []).
  - rewrite ?sum_Z_cons, IH, labelled_among_cons by done. lia.
Qed.

Section Chart_facts.
Context `{Float64}.

(** X24.  The rows of the outcome chart follow the fixed order of the six
    outcome classes and leave out the classes without facet; each row
    counts the facets of its class, and the counts add up to the number of
    facets whose outcome is one of the six classes: a facet with another
    outcome is in the total but in no row. *)
Theorem outcome_chart_rows (facets : list json) (a : aggregates) :
  build_aggregates facets = Ok a →
  let rows := outcomes_list a in
  row_label <$> rows `sublist_of` OUTCOME_LABELS.*2
  ∧ Forall (λ row, 0 < row_count row) rows
  ∧ sum_Z (row_count <$> rows)
    = Z.of_nat (length (labelled_among "outcome" "unclear" outcome_order
                                       facets))
  ∧ sum_Z (row_count <$> rows) ≤ total a.
Proof.
  intros Hrun.
  apply build_aggregates_inv in Hrun as (Htotal & _ & Hout & _).
  assert (∀ k, counter_get (outcomes a) (KStr k)
               = Z.of_nat (length (labelled "outcome" "unclear" k facets)))
    as Hcount.
  { intros k. by apply count_field_labelled. }
  cbv zeta. unfold outcomes_list.
  assert (sum_Z (row_count <$>
            ((λ k, (table_get OUTCOME_LABELS k k,
                    counter_get (outcomes a) (KStr k),
                    pct_float_scaled (counter_get (outcomes a) (KStr k))
                                     (total a),
                    table_get OUTCOME_COLORS k "#8b949e"))
             <$> filter (λ k, 0 < counter_get (outcomes a) (KStr k))
                        outcome_order))
          = Z.of_nat (length (labelled_among "outcome" "unclear"
                                             outcome_order facets)))
    as Hsum.
  { rewrite <- list_fmap_compose.
    rewrite <- labelled_among_sum by (by apply NoDup_ListNoDup; vm_compute;
      repeat constructor; simpl; intuition discriminate).
    rewrite <- (sum_Z_positive_part
                  (λ k, Z.of_nat (length (labelled "outcome" "unclear" k
                                                   facets)))) by lia.
    f_equal. rewrite (list_filter_iff _
      (λ k, 0 < Z.of_nat (length (labelled "outcome" "unclear" k facets))))
      by (intros k; by rewrite Hcount).
    apply list_fmap_ext. intros i k _. simpl. unfold row_count. simpl.
    apply Hcount. }
  split_and!.
  - rewrite <- list_fmap_compose.
    change (OUTCOME_LABELS.*2)
      with ((λ k, table_get OUTCOME_LABELS k k) <$> outcome_order).
    apply fmap_sublist, sublist_filter.
  - apply Forall_fmap, Forall_forall. intros k Hk.
    by apply list_elem_of_filter in Hk as [Hk _].
  - done.
  - rewrite Hsum, Htotal. apply inj_le, filter_length_le.
Qed.

End Chart_facts.

(** ** The escaped text *)

Lemma py_contains_app (c : ascii) (s t : string) :
  py_contains c (s +:+ t) = py_contains c s || py_contains c t.
Proof.
  induction s as [|d s IH]; simpl; [done|]. by destruct (decide (c = d)).
Qed.

(** The replaced character is gone when the replacement does not bring it
    back. *)
Lemma py_replace_char_removes (c : ascii) (new s : string) :
  py_contains c new = false →
  py_contains c (py_replace_char c new s) = false.
Proof.
  intros Hnew. induction s as [|d s IH]; simpl; [done|].
  destruct (decide (c = d)) as [->|Hne].
  - by rewrite py_contains_app, Hnew, IH.
  - simpl. by rewrite decide_False by done.
Qed.

(** A character that is neither in the text nor in the replacement is not
    in the result. *)
Lemma py_replace_char_keeps_out (c d : ascii) (new s : string) :
  py_contains d new = false → py_contains d s = false →
  py_contains d (py_replace_char c new s) = false.
Proof.
  intros Hnew. induction s as [|x s IH]; simpl; [done|].
  destruct (decide (d = x)) as [->|Hdx]; [done|]. intros Hs.
  destruct (decide (c = x)) as [->|Hcx].
  - by rewrite py_contains_app, Hnew, IH.
  - simpl. rewrite decide_False by done. by apply IH.
Qed.

Lemma py_replace_char_absent (c : ascii) (new s : string) :
  py_contains c s = false → py_replace_char c new s = s.
Proof.
  induction s as [|d s IH]; simpl; [done|].
  destruct (decide (c = d)); [done|]. intros Hs. by rewrite IH.
Qed.

Lemma py_replace_char_length (c : ascii) (new s : string) :
  (1 ≤ String.length new)%nat →
  (String.length s ≤ String.length (py_replace_char c new s))%nat.
Proof.
  intros Hnew. induction s as [|d s IH]; simpl; [done|].
  destruct (decide (c = d)); simpl; [|lia].
  rewrite string_app_length. lia.
Qed.

Section Escape_facts.
Context `{PyRuntime}.

(** X25.  The text [_escape] returns holds none of the characters [<], [>]
    and double quote, whatever it is given; a text without any of the four
    special characters is returned as [str] gives it; [None] gives the
    empty text; and escaping never shortens a text. *)
Theorem escape_is_safe (text : json) :
  py_contains "<" (_escape text) = false
  ∧ py_contains ">" (_escape text) = false
  ∧ py_contains quote_char (_escape text) = false
  ∧ _escape JNull = ""
  ∧ (text ≠ JNull →
     (Forall (λ c, py_contains c (py_str text) = false) html_special →
      _escape text = py_str text)
     ∧ (String.length (py_str text) ≤ String.length (_escape text))%nat).
Proof.
  assert (∀ s,
    py_contains "<"
      (py_replace_char "034" "&quot;"
         (py_replace_char ">" "&gt;"
            (py_replace_char "<" "&lt;" (py_replace_char "&" "&amp;" s))))
    = false
    ∧ py_contains ">"
        (py_replace_char "034" "&quot;"
           (py_replace_char ">" "&gt;"
              (py_replace_char "<" "&lt;" (py_replace_char "&" "&amp;" s))))
      = false
    ∧ py_contains quote_char
        (py_replace_char "034" "&quot;"
           (py_replace_char ">" "&gt;"
              (py_replace_char "<" "&lt;" (py_replace_char "&" "&amp;" s))))
      = false) as Hsafe.
  { intros s. split_and!.
    - apply py_replace_char_keeps_out; [done|].
      apply py_replace_char_keeps_out; [done|].
      by apply py_replace_char_removes.
    - apply py_replace_char_keeps_out; [done|].
      by apply py_replace_char_removes.
    - by apply py_replace_char_removes. }
  assert (∀ s,
    Forall (λ c, py_contains c s = false) html_special →
    py_replace_char "034" "&quot;"
      (py_replace_char ">" "&gt;"
         (py_replace_char "<" "&lt;" (py_replace_char "&" "&amp;" s))) = s)
    as Hsame.
  { intros s Hs. unfold html_special, quote_char in Hs.
    rewrite !Forall_cons in Hs. destruct Hs as (Hamp & Hlt & Hgt & Hquote & _).
    rewrite (py_replace_char_absent "&") by done.
    rewrite (py_replace_char_absent "<") by done.
    rewrite (py_replace_char_absent ">") by done.
    by rewrite (py_replace_char_absent "034") by done. }
  assert (∀ s,
    (String.length s
     ≤ String.length
         (py_replace_char "034" "&quot;"
            (py_replace_char ">" "&gt;"
               (py_replace_char "<" "&lt;"
                  (py_replace_char "&" "&amp;" s)))))%nat) as Hlen.
  { intros s.
    etrans; [|apply py_replace_char_length; simpl; lia].
    etrans; [|apply py_replace_char_length; simpl; lia].
    etrans; [|apply py_replace_char_length; simpl; lia].
    apply py_replace_char_length. simpl. lia. }
  split_and!; try (destruct text; try done; apply Hsafe).
  intros Hne. split; [intros Hs|]; destruct text; try done;
    first [by apply Hsame | apply Hlen].
Qed.

End Escape_facts.

(** ** Concrete runs, continued *)

Import Samples.

(** The run of [process_session] on a concrete log returns. *)
Ltac run_log Hrun sm skipped :=
  match goal with
  | |- context [process_session ?w ?p] =>
      destruct (process_session w p) as [[sm skipped]|?] eqn:Hrun;
      [|vm_compute in Hrun; discriminate Hrun]
  end.

(** X1, witness: of the five lines of the noisy log, two are counted. *)
Lemma skipped_lines_exact_witness :
  ∃ sm, process_session (demo_world noisy_log) demo_path = Ok (sm, 2).
Proof.
  run_log Hrun sm skipped. exists sm.
  rewrite (skipped_lines_exact (demo_world noisy_log) demo_path noisy_log
             sm skipped ltac:(vm_compute; reflexivity) Hrun).
  vm_compute. reflexivity.
Defined.

(** X2, witness: the log with a compression summary sets the flag. *)
Lemma context_compression_flag_witness :
  ∃ sm skipped,
    process_session (demo_world long_summary_log) demo_path
    = Ok (sm, skipped)
    ∧ st_had_context_compression (sm_stats sm) = true.
Proof.
  run_log Hrun sm skipped. exists sm, skipped. split; [reflexivity|].
  apply (context_compression_flag (demo_world long_summary_log) demo_path
           long_summary_log sm skipped ltac:(vm_compute; reflexivity) Hrun).
  exists (JObj [("type", JStr "summary");
                ("summary", JStr (repeat_char "a" 1500))]).
  split; [|reflexivity].
  vm_compute. apply list_elem_of_further, list_elem_of_here.
Defined.

(** X3, witness: the flow of the log of two user messages. *)
Lemma conversation_flow_content_witness :
  ∃ sm skipped,
    process_session (demo_world two_users_log) demo_path = Ok (sm, skipped)
    ∧ sm_conversation_flow sm
      = [user_turn "first question"; user_turn "second question"]
    ∧ st_user_messages (sm_stats sm) = 2%nat
    ∧ st_assistant_responses (sm_stats sm) = 0%nat.
Proof.
  run_log Hrun sm skipped. exists sm, skipped. split; [reflexivity|].
  destruct (conversation_flow_content (demo_world two_users_log) demo_path
              two_users_log sm skipped ltac:(vm_compute; reflexivity) Hrun)
    as (-> & -> & ->).
  split; [|split]; vm_compute; reflexivity.
Defined.

(** X4, witness: the time bounds of the stamped log are two of its
    timestamps. *)
Lemma time_bounds_from_log_witness :
  ∃ sm skipped,
    process_session (demo_world stamped_log) demo_path = Ok (sm, skipped)
    ∧ sm_start_time sm ∈ session_records stamped_log
                          ≫= record_truthy "timestamp"
    ∧ sm_end_time sm ∈ session_records stamped_log
                        ≫= record_truthy "timestamp".
Proof.
  run_log Hrun sm skipped. exists sm, skipped. split; [reflexivity|].
  destruct (time_bounds_from_log (demo_world stamped_log) demo_path
              stamped_log sm skipped ltac:(vm_compute; reflexivity) Hrun)
    as [_ Hbounds].
  apply Hbounds. vm_compute. discriminate.
Defined.

(** X5, witness: the stamped log starts on the first of January and ends
    on the third, whatever the order of its records. *)
Lemma time_bounds_ordered_witness :
  ∃ sm skipped s e,
    process_session (demo_world stamped_log) demo_path = Ok (sm, skipped)
    ∧ sm_start_time sm = JStr s ∧ sm_end_time sm = JStr e
    ∧ String.le s "2026-01-02T10:00:00Z"
    ∧ String.le "2026-01-02T10:00:00Z" e.
Proof.
  run_log Hrun sm skipped.
  destruct (time_bounds_ordered (H := SmallRuntime.runtime)
              (demo_world stamped_log) demo_path
              stamped_log sm skipped
              ltac:(intros; reflexivity) ltac:(intros; reflexivity)
              ltac:(vm_compute; reflexivity) Hrun)
    as (s & e & Hs & He & Hall).
  - vm_compute. repeat constructor; eexists; reflexivity.
  - vm_compute. discriminate.
  - exists sm, skipped, s, e. split; [reflexivity|].
    split; [exact Hs|]. split; [exact He|].
    apply Hall. vm_compute. apply list_elem_of_here.
Defined.

(** X6, witness: the branch of the stamped log is that of its first
    record. *)
Lemma git_branch_first_wins_witness :
  ∃ sm skipped,
    process_session (demo_world stamped_log) demo_path = Ok (sm, skipped)
    ∧ sm_git_branch sm = JStr "main".
Proof.
  run_log Hrun sm skipped. exists sm, skipped. split; [reflexivity|].
  rewrite (git_branch_first_wins (demo_world stamped_log) demo_path
             stamped_log sm skipped ltac:(vm_compute; reflexivity) Hrun).
  vm_compute. reflexivity.
Defined.

(** X7, witness: 150 input tokens and 25 output tokens in the usage log. *)
Lemma token_totals_exact_witness :
  ∃ sm skipped,
    process_session (demo_world usage_log) demo_path = Ok (sm, skipped)
    ∧ st_total_input_tokens (sm_stats sm) = 150
    ∧ st_total_output_tokens (sm_stats sm) = 25.
Proof.
  run_log Hrun sm skipped. exists sm, skipped. split; [reflexivity|].
  destruct (token_totals_exact (demo_world usage_log) demo_path usage_log
              sm skipped ltac:(vm_compute; reflexivity) Hrun) as [-> ->].
  split; vm_compute; reflexivity.
Defined.

(** X8, witness: the details of the log of 32 tool calls are the records of
    its first 30. *)
Lemma tool_details_first_thirty_witness :
  ∃ sm skipped,
    process_session (demo_world many_tools_log) demo_path = Ok (sm, skipped)
    ∧ Forall2 extracted
        (take MAX_TOOL_DETAILS (session_invocations many_tools_log))
        (sm_tool_details sm).
Proof.
  run_log Hrun sm skipped. exists sm, skipped. split; [reflexivity|].
  exact (tool_details_first_thirty (demo_world many_tools_log) demo_path
           many_tools_log sm skipped ltac:(vm_compute; reflexivity) Hrun).
Defined.

(** X9, witness: the usage table of the log of 32 tool calls adds up
    to 32. *)
Lemma tool_usage_ranked_witness :
  ∃ sm skipped,
    process_session (demo_world many_tools_log) demo_path = Ok (sm, skipped)
    ∧ StronglySorted by_count (sm_tool_usage sm)
    ∧ counter_total (sm_tool_usage sm) = 32.
Proof.
  run_log Hrun sm skipped. exists sm, skipped. split; [reflexivity|].
  destruct (tool_usage_ranked (demo_world many_tools_log) demo_path
              many_tools_log sm skipped ltac:(vm_compute; reflexivity) Hrun)
    as (Hsorted & _ & -> & _).
  split; [exact Hsorted|]. vm_compute. reflexivity.
Defined.

(** X10, witness: a line that holds the number 42 fails the session. *)
Lemma non_object_record_fails_witness :
  process_session
    (with_log demo_path ([first_line] ++ number_line :: [second_line])
              (demo_world []))
    demo_path
  = Raise AttributeError.
Proof.
  destruct (non_object_record_fails (demo_world []) demo_path
              [first_line] [second_line] number_line (JNum 42)) as [_ Hat].
  - vm_compute. reflexivity.
  - reflexivity.
  - destruct (scan_lines [first_line]) as [st|e] eqn:Hscan;
      [|vm_compute in Hscan; discriminate Hscan].
    exact (Hat st eq_refl).
Defined.

(** X11, witness: a shell command whose input is [null] fails the
    session. *)
Lemma tool_input_not_object_fails_witness :
  ∃ e,
    process_session
      (with_log demo_path ([first_line] ++ null_input_line :: [second_line])
                (demo_world []))
      demo_path
    = Raise e.
Proof.
  eapply proj1.
  eapply (tool_input_not_object_fails (demo_world []) demo_path
            [first_line] [second_line] null_input_line _
            (null_input "Bash")).
  - vm_compute. reflexivity.
  - vm_compute. apply list_elem_of_here.
  - reflexivity.
  - reflexivity.
  - reflexivity.
Defined.

(** X12, witness: a user record that holds a tool result adds no user
    message. *)
Lemma silent_user_record_witness :
  ∃ st',
    on_user tool_result_record scan_init = Ok st'
    ∧ user_messages st' = [].
Proof.
  destruct (on_user tool_result_record scan_init) as [st'|e] eqn:Hrun;
    [|vm_compute in Hrun; discriminate Hrun].
  exists st'. split; [reflexivity|].
  eapply (silent_user_record tool_result_record scan_init st'); [| |exact Hrun].
  - reflexivity.
  - repeat constructor.
Defined.

(** X14, witness: the summary of the demo session, once written, is reused
    for the log of the same file name in another project. *)
Lemma written_summary_is_reused_witness :
  ∃ sm skipped existing,
    process_session (demo_world two_users_log) demo_path = Ok (sm, skipped)
    ∧ main_step false "out"
        (reprocess (summary_path_of "out" demo_path) demo_path
                   (run_init (demo_world two_users_log)))
        same_name_path
      = reused existing
          (reprocess (summary_path_of "out" demo_path) demo_path
                     (run_init (demo_world two_users_log))).
Proof.
  run_log Hrun sm skipped.
  pose proof Hrun as Hval. vm_compute in Hval. injection Hval as <- <-.
  match type of Hrun with
  | _ = Ok (?s, _) =>
      destruct (json_loads (json_dumps (summary_to_json s)))
        as [existing|] eqn:Hloads;
      [|vm_compute in Hloads; discriminate Hloads]
  end.
  eexists _, _, existing. split; [reflexivity|].
  eapply (written_summary_is_reused "out"
            (run_init (demo_world two_users_log)) demo_path same_name_path).
  - exact Hrun.
  - exact Hloads.
  - vm_compute. reflexivity.
Defined.

(** X15, witness: the log that holds a number fails, and the run goes on
    as without it. *)
Lemma failing_session_isolated_witness :
  main_loop true "out" run_world ([demo_path] ++ broken_path :: [other_path])
  = bump_error (main_loop true "out" run_world ([demo_path] ++ [other_path])).
Proof.
  apply (failing_session_isolated true "out" run_world [demo_path]
           [other_path] broken_path AttributeError).
  - vm_compute. reflexivity.
  - left. reflexivity.
Defined.

(** X17, witness: of the four logs found, three are processed; the log of
    the subagent is not. *)
Lemma main_skips_subagent_logs_witness :
  ∃ rs manifest sessions,
    main true true "out" run_glob "now" run_world = MOk (rs, manifest)
    ∧ sessions ≡ₚ [other_path; broken_path; demo_path]
    ∧ new_count rs + skipped_count rs + error_count rs
      = Z.of_nat (length sessions).
Proof.
  destruct (main true true "out" run_glob "now" run_world)
    as [[rs manifest]|e] eqn:Hmain; [|vm_compute in Hmain; discriminate Hmain].
  destruct (main_skips_subagent_logs _ _ _ _ _ _ _ _ Hmain)
    as (sessions & _ & _ & Hperm & _ & Hcount & _).
  exists rs, manifest, sessions. split; [reflexivity|].
  split; [exact Hperm|exact Hcount].
Defined.


(** X19, witness: the cached summary that holds its [session_id] only
    aborts the run. *)
Lemma cached_summary_without_key_aborts_witness :
  ∃ e, main false true "out" [demo_path] "now" partial_cache_world = MRaise e.
Proof.
  apply (cached_summary_without_key_aborts false "out" [demo_path] "now"
           partial_cache_world cached_summary "project" KeyError).
  - vm_compute. discriminate.
  - vm_compute. apply list_elem_of_here.
  - apply list_elem_of_further, list_elem_of_here.
  - reflexivity.
Defined.

(** X20, witness: the top tools of the log of six tools. *)
Lemma manifest_top_tools_witness :
  ∃ sm skipped entry,
    process_session (demo_world mixed_tools_log) demo_path = Ok (sm, skipped)
    ∧ manifest_entry (Fresh sm) = MOk entry
    ∧ field entry "top_tools" JNull
      = JArr (key_to_json <$> (take 5 (sm_tool_usage sm)).*1)
    ∧ ∀ listed other,
        listed ∈ take 5 (sm_tool_usage sm) →
        other ∈ drop 5 (sm_tool_usage sm) →
        other.2 ≤ listed.2.
Proof.
  run_log Hrun sm skipped.
  destruct (manifest_top_tools _ _ _ _ Hrun) as (entry & He & Htop & _ & Hmost).
  exists sm, skipped, entry. split; [reflexivity|].
  split; [exact He|]. split; [exact Htop|exact Hmost].
Defined.

(** X16, witness: the two sessions of the forced run are on disk. *)
Lemma forced_run_persists_witness :
  ∃ sm skipped,
    process_session run_world other_path = Ok (sm, skipped)
    ∧ summary_files
        (disk (main_loop true "out" run_world [demo_path; other_path]))
        !! summary_path_of "out" other_path
      = Some (json_dumps (summary_to_json sm)).
Proof.
  run_log Hrun sm skipped. exists sm, skipped. split; [reflexivity|].
  apply (forced_run_persists "out" run_world [demo_path; other_path]
           other_path sm skipped).
  - apply (bool_decide_unpack _). vm_compute. exact I.
  - apply list_elem_of_further, list_elem_of_here.
  - exact Hrun.
Defined.

(** X21, witness: the satisfaction counts of the three facets. *)
Lemma aggregate_dict_field_exact_witness :
  ∃ c,
    aggregate_dict_field three_facets "user_satisfaction_counts" = Ok c
    ∧ counter_get c (KStr "satisfied") = 3
    ∧ counter_get c (KStr "frustrated") = 1.
Proof.
  destruct (aggregate_dict_field three_facets "user_satisfaction_counts")
    as [c|e] eqn:Hrun; [|vm_compute in Hrun; discriminate Hrun].
  exists c. split; [reflexivity|].
  destruct (aggregate_dict_field_exact three_facets
              "user_satisfaction_counts") as [Hexact _].
  destruct (Hexact c Hrun) as (Hget & _).
  rewrite !Hget. split; vm_compute; reflexivity.
Defined.

(** X24, witness: the three facets give three rows that add up to 3. *)
Lemma outcome_chart_rows_witness :
  ∃ a,
    build_aggregates (H := exact_float) three_facets = Ok a
    ∧ row_label <$> outcomes_list (H := exact_float) a
      = ["Fully Achieved"; "Not Achieved"; "Abandoned"]
    ∧ sum_Z (row_count <$> outcomes_list (H := exact_float) a) = 3.
Proof.
  destruct (build_aggregates (H := exact_float) three_facets)
    as [a|e] eqn:Hrun; [|vm_compute in Hrun; discriminate Hrun].
  exists a. split; [reflexivity|].
  destruct (outcome_chart_rows (H := exact_float) three_facets a Hrun)
    as (_ & _ & -> & _).
  split; [|vm_compute; reflexivity].
  pose proof Hrun as Hval. vm_compute in Hval. injection Hval as <-.
  vm_compute. reflexivity.
Defined.

(** X22, witness: a friction count written as a string fails the report,
    though its sums are computed. *)
Lemma non_numeric_friction_fails_witness :
  (∃ e, build_aggregates (H := exact_float) [text_friction_facet] = Raise e)
  ∧ ∃ c, aggregate_dict_field [text_friction_facet] "friction_counts" = Ok c.
Proof.
  destruct (non_numeric_friction_fails (H := exact_float)
              [text_friction_facet] text_friction_facet
              [("tool_failure", JStr "3"); ("wrong_approach", JNum 1)]
              [] [JNum 1] (JStr "3")) as [Hfails Hsums].
  - apply list_elem_of_here.
  - reflexivity.
  - reflexivity.
  - constructor.
  - reflexivity.
  - split; [exact Hfails|]. apply Hsums. repeat constructor.
Defined.
